(** * Inventory hub: the stock-movement validation workflow

    A shallow embedding of the document handlers of the inventory
    application (pages Receipts, Deliveries, Transfers, Adjustments,
    Products and Dashboard) over an explicit model of the relational
    store they read and write.

    Modelling conventions.
    - Identifiers are UUIDs; a UUID is a 128-bit number and is modelled
      by the natural number it denotes.
    - Quantities are SQL DECIMAL columns read back through [Number(..)];
      the handlers compute with them as JavaScript numbers.  The
      handlers are embedded twice.  The first embedding takes the
      quantities that are whole numbers, on which JavaScript's sums,
      differences and comparisons are those of [Z] as long as
      magnitudes stay within 2^53; it carries the statements on order,
      status, refusals, signs and what each handler can touch.  The
      second, [F64], takes quantities as binary64 numbers, and carries
      the statements on what a balance and a movement amount to.
    - [stock_levels] carries [UNIQUE(product_id, warehouse_id)]; the table
      is therefore a finite map from that pair to the quantity, and
      [.single()] on the pair is a map lookup.  The surrogate row id used
      by [.update(..).eq("id", existing.id)] designates the same row.
    - Every [await supabase...] call is a state transformer on [Store].
      Requests are assumed to reach the store (no network failure); the
      validation handlers never inspect the [error] field of their
      writes, the creation forms do. *)

From stdpp Require Import gmap strings list fin_maps.
From Stdlib Require Import ZArith Lia Floats.

Open Scope Z_scope.

Abbreviation uuid := N (only parsing).

(** ** Data model (migration 20251122035318) *)

(** [status TEXT CHECK (status IN ('draft','waiting','ready','done','canceled'))] *)
Inductive Status := draft | waiting | ready | done | canceled.

#[global] Instance Status_eq_dec : EqDecision Status.
Proof. solve_decision. Defined.

(** [movement_type TEXT CHECK (movement_type IN (...))] *)
Inductive MovementType :=
  mt_receipt | mt_delivery | mt_transfer_in | mt_transfer_out | mt_adjustment.

#[global] Instance MovementType_eq_dec : EqDecision MovementType.
Proof. solve_decision. Defined.

(** A row of [stock_movements] as the handlers insert it. *)
Record StockMovement := {
  mv_product_id : uuid;
  mv_warehouse_id : uuid;
  mv_movement_type : MovementType;
  mv_quantity : Z;
  mv_reference_id : uuid;
  mv_reference_type : string;
  mv_notes : option string;
  mv_created_by : option uuid
}.

Record Receipt := {
  r_id : uuid;
  r_receipt_number : string;
  r_supplier_name : string;
  r_warehouse_id : uuid;
  r_status : Status;
  r_validated_at : option string
}.

Record ReceiptLine := {
  rl_receipt_id : uuid;
  rl_product_id : uuid;
  rl_quantity : Z
}.

Record Delivery := {
  d_id : uuid;
  d_delivery_number : string;
  d_customer_name : string;
  d_warehouse_id : uuid;
  d_status : Status;
  d_validated_at : option string
}.

Record DeliveryLine := {
  dl_delivery_id : uuid;
  dl_product_id : uuid;
  dl_quantity : Z
}.

Record Transfer := {
  t_id : uuid;
  t_transfer_number : string;
  t_source_warehouse_id : uuid;
  t_destination_warehouse_id : uuid;
  t_product_id : uuid;
  t_quantity : Z;
  t_status : Status;
  t_validated_at : option string
}.

Record Adjustment := {
  a_id : uuid;
  a_adjustment_number : string;
  a_product_id : uuid;
  a_warehouse_id : uuid;
  a_counted_quantity : Z;
  a_system_quantity : Z;
  a_difference : Z;
  a_reason : string;
  a_status : Status;
  a_validated_at : option string
}.

(** The tables the handlers touch. *)
Record Store := {
  stock_levels : gmap (uuid * uuid) Z;
  stock_movements : list StockMovement;
  receipts : gmap uuid Receipt;
  receipt_lines : list ReceiptLine;
  deliveries : gmap uuid Delivery;
  delivery_lines : list DeliveryLine;
  internal_transfers : gmap uuid Transfer;
  stock_adjustments : gmap uuid Adjustment
}.

Definition empty_store : Store :=
  {| stock_levels := ∅; stock_movements := []; receipts := ∅; receipt_lines := [];
     deliveries := ∅; delivery_lines := []; internal_transfers := ∅;
     stock_adjustments := ∅ |}.

(** *** Store primitives *)

(** [from("stock_levels").update({quantity}).eq("id", existing.id)] and
    [from("stock_levels").insert({product_id, warehouse_id, quantity})]:
    both leave the pair [key] holding [q]. *)
Definition write_stock_level (key : uuid * uuid) (q : Z) (st : Store) : Store :=
  {| stock_levels := <[key := q]> (stock_levels st);
     stock_movements := stock_movements st;
     receipts := receipts st; receipt_lines := receipt_lines st;
     deliveries := deliveries st; delivery_lines := delivery_lines st;
     internal_transfers := internal_transfers st;
     stock_adjustments := stock_adjustments st |}.

(** [from("stock_movements").insert(rows)]: the ledger is append-only. *)
Definition insert_movements (ms : list StockMovement) (st : Store) : Store :=
  {| stock_levels := stock_levels st;
     stock_movements := stock_movements st ++ ms;
     receipts := receipts st; receipt_lines := receipt_lines st;
     deliveries := deliveries st; delivery_lines := delivery_lines st;
     internal_transfers := internal_transfers st;
     stock_adjustments := stock_adjustments st |}.

Definition set_receipts (rs : gmap uuid Receipt) (st : Store) : Store :=
  {| stock_levels := stock_levels st; stock_movements := stock_movements st;
     receipts := rs; receipt_lines := receipt_lines st;
     deliveries := deliveries st; delivery_lines := delivery_lines st;
     internal_transfers := internal_transfers st;
     stock_adjustments := stock_adjustments st |}.

Definition set_deliveries (ds : gmap uuid Delivery) (st : Store) : Store :=
  {| stock_levels := stock_levels st; stock_movements := stock_movements st;
     receipts := receipts st; receipt_lines := receipt_lines st;
     deliveries := ds; delivery_lines := delivery_lines st;
     internal_transfers := internal_transfers st;
     stock_adjustments := stock_adjustments st |}.

Definition set_internal_transfers (ts : gmap uuid Transfer) (st : Store) : Store :=
  {| stock_levels := stock_levels st; stock_movements := stock_movements st;
     receipts := receipts st; receipt_lines := receipt_lines st;
     deliveries := deliveries st; delivery_lines := delivery_lines st;
     internal_transfers := ts;
     stock_adjustments := stock_adjustments st |}.

Definition set_stock_adjustments (adjs : gmap uuid Adjustment) (st : Store) : Store :=
  {| stock_levels := stock_levels st; stock_movements := stock_movements st;
     receipts := receipts st; receipt_lines := receipt_lines st;
     deliveries := deliveries st; delivery_lines := delivery_lines st;
     internal_transfers := internal_transfers st;
     stock_adjustments := adjs |}.

Definition set_receipt_lines (ls : list ReceiptLine) (st : Store) : Store :=
  {| stock_levels := stock_levels st; stock_movements := stock_movements st;
     receipts := receipts st; receipt_lines := ls;
     deliveries := deliveries st; delivery_lines := delivery_lines st;
     internal_transfers := internal_transfers st;
     stock_adjustments := stock_adjustments st |}.

Definition set_delivery_lines (ls : list DeliveryLine) (st : Store) : Store :=
  {| stock_levels := stock_levels st; stock_movements := stock_movements st;
     receipts := receipts st; receipt_lines := receipt_lines st;
     deliveries := deliveries st; delivery_lines := ls;
     internal_transfers := internal_transfers st;
     stock_adjustments := stock_adjustments st |}.

(** The quantity on hand of a pair; a pair without a row holds nothing. *)
Definition balance (st : Store) (key : uuid * uuid) : Z :=
  default 0 (stock_levels st !! key).

(** [toast.error(msg)] / [toast.success(msg)] *)
Inductive Toast :=
  | toast_error (msg : string)
  | toast_success (msg : string).

(** What the store answers to an [insert] it refuses; the handlers
    [throw] it and the [catch] shows [error.message]. *)
Definition not_null_violation : string := "null value violates not-null constraint".
Definition duplicate_key : string := "duplicate key value violates unique constraint".

(** An entry of the [selectedProducts] state of the receipt and delivery
    forms: [productId] is empty until a product is chosen, [quantity] is
    [parseInt(e.target.value) || 0]. *)
Record SelectedProduct := {
  productId : option uuid;
  quantity : Z
}.

(** ** Receipts.tsx *)

Module Receipts.

(** The named fields of the creation form. *)
Record Form := {
  f_supplier_name : string;
  f_warehouse_id : option uuid;
  f_notes : string
}.

Section WithSession.

(** [const { user } = useAuth()]; the handlers write [user?.id]. *)
Variable user : option uuid.

(** [from("receipts").insert({...}).select().single()] *)
Definition insert_receipt (new_id : uuid) (number : string) (f : Form) (st : Store)
    : string + Store :=
  match f_warehouse_id f, user with
  | Some w, Some _ =>
      match receipts st !! new_id with
      | Some _ => inl duplicate_key
      | None =>
          let row := {| r_id := new_id; r_receipt_number := number;
                        r_supplier_name := f_supplier_name f;
                        r_warehouse_id := w;
                        r_status := draft; r_validated_at := None |} in
          inr (set_receipts (<[new_id := row]> (receipts st)) st)
      end
  | _, _ => inl not_null_violation
  end.

(** [selectedProducts.filter((p) => p.productId && p.quantity > 0)
       .map((p) => ({ receipt_id, product_id: p.productId, quantity: p.quantity }))] *)
Definition new_lines (rid : uuid) (selectedProducts : list SelectedProduct)
    : list ReceiptLine :=
  omap (λ p, match productId p with
             | Some pid =>
                 if 0 <? quantity p
                 then Some {| rl_receipt_id := rid; rl_product_id := pid;
                              rl_quantity := quantity p |}
                 else None
             | None => None
             end)
       selectedProducts.

(** [handleSubmit]; [epoch_ms] is the decimal rendering of [Date.now()].
    [linesError] is the [error] the store answers to
    [from("receipt_lines").insert(lines)], a request made only when
    [lines.length > 0]: [if (linesError) throw linesError] leaves the
    receipt row stored and shows the error. *)
Definition handleSubmit (new_id : uuid) (epoch_ms : string) (f : Form)
    (selectedProducts : list SelectedProduct) (linesError : option string)
    (st : Store) : Store * Toast :=
  let receiptNumber := "RCP-" +:+ epoch_ms in
  match insert_receipt new_id receiptNumber f st with
  | inl message => (st, toast_error message)
  | inr st1 =>
      let lines := new_lines new_id selectedProducts in
      match lines with
      | [] => (st1, toast_success "Receipt created successfully")
      | _ :: _ =>
          match linesError with
          | Some message => (st1, toast_error message)
          | None =>
              (set_receipt_lines (receipt_lines st1 ++ lines) st1,
               toast_success "Receipt created successfully")
          end
      end
  end.

(** [.update({ status: "done", validated_at: new Date().toISOString() })] *)
Definition mark_done (now : string) (r : Receipt) : Receipt :=
  {| r_id := r_id r; r_receipt_number := r_receipt_number r;
     r_supplier_name := r_supplier_name r; r_warehouse_id := r_warehouse_id r;
     r_status := done; r_validated_at := Some now |}.

(** [from("receipt_lines").select("*").eq("receipt_id", receipt.id)];
    [data] is [null] only when the request itself fails. *)
Definition select_lines (rid : uuid) (st : Store) : option (list ReceiptLine) :=
  Some (filter (λ l, rl_receipt_id l = rid) (receipt_lines st)).

Definition movement_of (rcp : Receipt) (line : ReceiptLine) : StockMovement :=
  {| mv_product_id := rl_product_id line;
     mv_warehouse_id := r_warehouse_id rcp;
     mv_movement_type := mt_receipt;
     mv_quantity := rl_quantity line;
     mv_reference_id := r_id rcp;
     mv_reference_type := "receipt";
     mv_notes := None;
     mv_created_by := user |}.

(** The body of [for (const line of lines)]. *)
Definition post_line (rcp : Receipt) (st : Store) (line : ReceiptLine) : Store :=
  let key := (rl_product_id line, r_warehouse_id rcp) in
  let st1 :=
    match stock_levels st !! key with
    | Some existing => write_stock_level key (existing + rl_quantity line) st
    | None => write_stock_level key (rl_quantity line) st
    end in
  insert_movements [movement_of rcp line] st1.

(** [handleValidateReceipt] from the answer of the lines query on. *)
Definition validate_with (lines : option (list ReceiptLine))
    (now : string) (rcp : Receipt) (st : Store) : Store * Toast :=
  match lines with
  | None | Some [] => (st, toast_error "Cannot validate receipt without products")
  | Some ls =>
      let st1 := foldl (post_line rcp) st ls in
      let st2 := set_receipts (alter (mark_done now) (r_id rcp) (receipts st1)) st1 in
      (st2, toast_success "Receipt validated and stock updated")
  end.

Definition handleValidateReceipt (now : string) (rcp : Receipt) (st : Store)
    : Store * Toast :=
  validate_with (select_lines (r_id rcp) st) now rcp st.

(** The Actions cell of a table row:
    [{receipt.status !== "done" && <Button onClick={() => handleValidateReceipt(receipt)}>}].
    [None] when no button is rendered. *)
Definition row_action (now : string) (rcp : Receipt) : option (Store → Store * Toast) :=
  if decide (r_status rcp ≠ done) then Some (handleValidateReceipt now rcp) else None.

End WithSession.
End Receipts.

(** ** Deliveries.tsx (unnamed/part_000) *)

Module Deliveries.

Record Form := {
  f_customer_name : string;
  f_warehouse_id : option uuid;
  f_notes : string
}.

Section WithSession.

Variable user : option uuid.

(** [from("deliveries").insert({...}).select().single()] *)
Definition insert_delivery (new_id : uuid) (number : string) (f : Form) (st : Store)
    : string + Store :=
  match f_warehouse_id f, user with
  | Some w, Some _ =>
      match deliveries st !! new_id with
      | Some _ => inl duplicate_key
      | None =>
          let row := {| d_id := new_id; d_delivery_number := number;
                        d_customer_name := f_customer_name f;
                        d_warehouse_id := w;
                        d_status := draft; d_validated_at := None |} in
          inr (set_deliveries (<[new_id := row]> (deliveries st)) st)
      end
  | _, _ => inl not_null_violation
  end.

(** [selectedProducts.filter((p) => p.productId && p.quantity > 0).map(...)] *)
Definition new_lines (did : uuid) (selectedProducts : list SelectedProduct)
    : list DeliveryLine :=
  omap (λ p, match productId p with
             | Some pid =>
                 if 0 <? quantity p
                 then Some {| dl_delivery_id := did; dl_product_id := pid;
                              dl_quantity := quantity p |}
                 else None
             | None => None
             end)
       selectedProducts.

(** [handleSubmit]; [linesError] is the [error] the store answers to
    [from("delivery_lines").insert(lines)], thrown when it is there. *)
Definition handleSubmit (new_id : uuid) (epoch_ms : string) (f : Form)
    (selectedProducts : list SelectedProduct) (linesError : option string)
    (st : Store) : Store * Toast :=
  let deliveryNumber := "DEL-" +:+ epoch_ms in
  match insert_delivery new_id deliveryNumber f st with
  | inl message => (st, toast_error message)
  | inr st1 =>
      let lines := new_lines new_id selectedProducts in
      match lines with
      | [] => (st1, toast_success "Delivery created successfully")
      | _ :: _ =>
          match linesError with
          | Some message => (st1, toast_error message)
          | None =>
              (set_delivery_lines (delivery_lines st1 ++ lines) st1,
               toast_success "Delivery created successfully")
          end
      end
  end.

Definition mark_done (now : string) (d : Delivery) : Delivery :=
  {| d_id := d_id d; d_delivery_number := d_delivery_number d;
     d_customer_name := d_customer_name d; d_warehouse_id := d_warehouse_id d;
     d_status := done; d_validated_at := Some now |}.

(** [from("delivery_lines").select("*").eq("delivery_id", delivery.id)] *)
Definition select_lines (did : uuid) (st : Store) : option (list DeliveryLine) :=
  Some (filter (λ l, dl_delivery_id l = did) (delivery_lines st)).

Definition movement_of (dlv : Delivery) (line : DeliveryLine) : StockMovement :=
  {| mv_product_id := dl_product_id line;
     mv_warehouse_id := d_warehouse_id dlv;
     mv_movement_type := mt_delivery;
     mv_quantity := - dl_quantity line;
     mv_reference_id := d_id dlv;
     mv_reference_type := "delivery";
     mv_notes := None;
     mv_created_by := user |}.

(** The [for (const line of lines)] loop.  [inl st] is the early
    [return] after [toast.error("Insufficient stock for this delivery")],
    taken in the store as the earlier iterations left it; [inr st] is the
    loop running to its end. *)
Fixpoint post_lines (dlv : Delivery) (lines : list DeliveryLine) (st : Store)
    : Store + Store :=
  match lines with
  | [] => inr st
  | line :: rest =>
      let key := (dl_product_id line, d_warehouse_id dlv) in
      match stock_levels st !! key with
      | None => inl st
      | Some existing =>
          if existing <? dl_quantity line then inl st
          else
            let st1 := write_stock_level key (existing - dl_quantity line) st in
            let st2 := insert_movements [movement_of dlv line] st1 in
            post_lines dlv rest st2
      end
  end.

Definition validate_with (lines : option (list DeliveryLine))
    (now : string) (dlv : Delivery) (st : Store) : Store * Toast :=
  match lines with
  | None | Some [] => (st, toast_error "Cannot validate delivery without products")
  | Some ls =>
      match post_lines dlv ls st with
      | inl st1 => (st1, toast_error "Insufficient stock for this delivery")
      | inr st1 =>
          let st2 := set_deliveries (alter (mark_done now) (d_id dlv) (deliveries st1)) st1 in
          (st2, toast_success "Delivery validated and stock updated")
      end
  end.

Definition handleValidateDelivery (now : string) (dlv : Delivery) (st : Store)
    : Store * Toast :=
  validate_with (select_lines (d_id dlv) st) now dlv st.

(** [{delivery.status !== "done" && <Button onClick=...>}] *)
Definition row_action (now : string) (dlv : Delivery) : option (Store → Store * Toast) :=
  if decide (d_status dlv ≠ done) then Some (handleValidateDelivery now dlv) else None.

End WithSession.
End Deliveries.

(** ** Transfers.tsx (unnamed/part_002) *)

Module Transfers.

(** The fields of the creation form as [handleSubmit] reads them:
    [formData.get(..)] is [null] for a select left empty;
    [f_quantity] is the value of [parseInt(formData.get("quantity"))]. *)
Record Form := {
  f_source_warehouse_id : option uuid;
  f_destination_warehouse_id : option uuid;
  f_product_id : option uuid;
  f_quantity : Z;
  f_notes : string
}.

Section WithSession.

Variable user : option uuid.

(** [from("internal_transfers").insert({...})]: the columns are NOT NULL,
    [created_by] must be the session's user, and [id] is the primary key
    drawn by [gen_random_uuid()] (here [new_id]). *)
Definition insert_transfer (new_id : uuid) (number : string) (f : Form) (st : Store)
    : string + Store :=
  match f_source_warehouse_id f, f_destination_warehouse_id f, f_product_id f, user with
  | Some src, Some dst, Some p, Some _ =>
      match internal_transfers st !! new_id with
      | Some _ => inl duplicate_key
      | None =>
          let row := {| t_id := new_id; t_transfer_number := number;
                        t_source_warehouse_id := src;
                        t_destination_warehouse_id := dst;
                        t_product_id := p; t_quantity := f_quantity f;
                        t_status := draft; t_validated_at := None |} in
          inr (set_internal_transfers (<[new_id := row]> (internal_transfers st)) st)
      end
  | _, _, _, _ => inl not_null_violation
  end.

(** [handleSubmit]; [epoch_ms] is the decimal rendering of [Date.now()]. *)
Definition handleSubmit (new_id : uuid) (epoch_ms : string) (f : Form) (st : Store)
    : Store * Toast :=
  let sourceId := f_source_warehouse_id f in
  let destId := f_destination_warehouse_id f in
  if decide (sourceId = destId) then
    (st, toast_error "Source and destination warehouses must be different")
  else
    let transferNumber := "TRF-" +:+ epoch_ms in
    match insert_transfer new_id transferNumber f st with
    | inl message => (st, toast_error message)
    | inr st1 => (st1, toast_success "Transfer created successfully")
    end.

Definition mark_done (now : string) (t : Transfer) : Transfer :=
  {| t_id := t_id t; t_transfer_number := t_transfer_number t;
     t_source_warehouse_id := t_source_warehouse_id t;
     t_destination_warehouse_id := t_destination_warehouse_id t;
     t_product_id := t_product_id t; t_quantity := t_quantity t;
     t_status := done; t_validated_at := Some now |}.

Definition movement_out (trf : Transfer) : StockMovement :=
  {| mv_product_id := t_product_id trf;
     mv_warehouse_id := t_source_warehouse_id trf;
     mv_movement_type := mt_transfer_out;
     mv_quantity := - t_quantity trf;
     mv_reference_id := t_id trf;
     mv_reference_type := "transfer";
     mv_notes := None;
     mv_created_by := user |}.

Definition movement_in (trf : Transfer) : StockMovement :=
  {| mv_product_id := t_product_id trf;
     mv_warehouse_id := t_destination_warehouse_id trf;
     mv_movement_type := mt_transfer_in;
     mv_quantity := t_quantity trf;
     mv_reference_id := t_id trf;
     mv_reference_type := "transfer";
     mv_notes := None;
     mv_created_by := user |}.

Definition handleValidateTransfer (now : string) (trf : Transfer) (st : Store)
    : Store * Toast :=
  let src := (t_product_id trf, t_source_warehouse_id trf) in
  let dst := (t_product_id trf, t_destination_warehouse_id trf) in
  match stock_levels st !! src with
  | None => (st, toast_error "Insufficient stock in source warehouse")
  | Some sourceStock =>
      if sourceStock <? t_quantity trf then
        (st, toast_error "Insufficient stock in source warehouse")
      else
        let st1 := write_stock_level src (sourceStock - t_quantity trf) st in
        let st2 :=
          match stock_levels st1 !! dst with
          | Some destStock => write_stock_level dst (destStock + t_quantity trf) st1
          | None => write_stock_level dst (t_quantity trf) st1
          end in
        let st3 := insert_movements [movement_out trf; movement_in trf] st2 in
        let st4 :=
          set_internal_transfers
            (alter (mark_done now) (t_id trf) (internal_transfers st3)) st3 in
        (st4, toast_success "Transfer validated and stock updated")
  end.

(** [{transfer.status !== "done" && <Button onClick=...>}] *)
Definition row_action (now : string) (trf : Transfer) : option (Store → Store * Toast) :=
  if decide (t_status trf ≠ done) then Some (handleValidateTransfer now trf) else None.

End WithSession.
End Transfers.

(** ** Adjustments.tsx *)

Module Adjustments.

(** The component state the creation form works on:
    [selectedProduct], [selectedWarehouse] (empty until chosen) and
    [systemQty]. *)
Record Ui := {
  selectedProduct : option uuid;
  selectedWarehouse : option uuid;
  systemQty : Z
}.

(** [counted_quantity] is the value of [parseFloat(formData.get(..))]. *)
Record Form := {
  f_counted_quantity : Z;
  f_reason : string
}.

(** [loadSystemQuantity]: [setSystemQty(data ? Number(data.quantity) : 0)] *)
Definition loadSystemQuantity (productId warehouseId : uuid) (st : Store) (ui : Ui) : Ui :=
  {| selectedProduct := selectedProduct ui;
     selectedWarehouse := selectedWarehouse ui;
     systemQty := match stock_levels st !! (productId, warehouseId) with
                  | Some q => q
                  | None => 0
                  end |}.

(** Choosing both selects, followed by the effect that reloads the system
    quantity ([useEffect] on [selectedProduct], [selectedWarehouse]). *)
Definition select_pair (productId warehouseId : uuid) (st : Store) (ui : Ui) : Ui :=
  loadSystemQuantity productId warehouseId st
    {| selectedProduct := Some productId; selectedWarehouse := Some warehouseId;
       systemQty := systemQty ui |}.

Definition initial_ui : Ui :=
  {| selectedProduct := None; selectedWarehouse := None; systemQty := 0 |}.

Section WithSession.

Variable user : option uuid.

(** The row [handleSubmit] sends. *)
Definition new_row (new_id : uuid) (number : string) (p w : uuid) (ui : Ui) (f : Form)
    : Adjustment :=
  let countedQty := f_counted_quantity f in
  let difference := countedQty - systemQty ui in
  {| a_id := new_id; a_adjustment_number := number;
     a_product_id := p; a_warehouse_id := w;
     a_counted_quantity := countedQty;
     a_system_quantity := systemQty ui;
     a_difference := difference;
     a_reason := f_reason f;
     a_status := draft; a_validated_at := None |}.

Definition insert_adjustment (new_id : uuid) (number : string) (ui : Ui) (f : Form)
    (st : Store) : string + Store :=
  match selectedProduct ui, selectedWarehouse ui, user with
  | Some p, Some w, Some _ =>
      match stock_adjustments st !! new_id with
      | Some _ => inl duplicate_key
      | None =>
          inr (set_stock_adjustments
                 (<[new_id := new_row new_id number p w ui f]> (stock_adjustments st)) st)
      end
  | _, _, _ => inl not_null_violation
  end.

(** [handleSubmit]: the store as it is left, the form state as it is
    left, and the notification. *)
Definition handleSubmit (new_id : uuid) (epoch_ms : string) (ui : Ui) (f : Form)
    (st : Store) : Store * Ui * Toast :=
  let adjustmentNumber := "ADJ-" +:+ epoch_ms in
  match insert_adjustment new_id adjustmentNumber ui f st with
  | inl message => (st, ui, toast_error message)
  | inr st1 => (st1, initial_ui, toast_success "Adjustment created successfully")
  end.

Definition mark_done (now : string) (a : Adjustment) : Adjustment :=
  {| a_id := a_id a; a_adjustment_number := a_adjustment_number a;
     a_product_id := a_product_id a; a_warehouse_id := a_warehouse_id a;
     a_counted_quantity := a_counted_quantity a;
     a_system_quantity := a_system_quantity a;
     a_difference := a_difference a; a_reason := a_reason a;
     a_status := done; a_validated_at := Some now |}.

Definition movement_of (adj : Adjustment) : StockMovement :=
  {| mv_product_id := a_product_id adj;
     mv_warehouse_id := a_warehouse_id adj;
     mv_movement_type := mt_adjustment;
     mv_quantity := a_difference adj;
     mv_reference_id := a_id adj;
     mv_reference_type := "adjustment";
     mv_notes := Some (a_reason adj);
     mv_created_by := user |}.

Definition handleValidateAdjustment (now : string) (adj : Adjustment) (st : Store)
    : Store * Toast :=
  let key := (a_product_id adj, a_warehouse_id adj) in
  let st1 :=
    match stock_levels st !! key with
    | Some existing => write_stock_level key (a_counted_quantity adj) st
    | None => write_stock_level key (a_counted_quantity adj) st
    end in
  let st2 := insert_movements [movement_of adj] st1 in
  let st3 :=
    set_stock_adjustments
      (alter (mark_done now) (a_id adj) (stock_adjustments st2)) st2 in
  (st3, toast_success "Adjustment validated and stock updated").

(** [{adjustment.status !== "done" && <Button onClick=...>}] *)
Definition row_action (now : string) (adj : Adjustment) : option (Store → Store * Toast) :=
  if decide (a_status adj ≠ done) then Some (handleValidateAdjustment now adj) else None.

End WithSession.
End Adjustments.

(** A click in the Actions cell of a row: the handler runs when the
    button is there, and nothing happens when it is not. *)
Definition click (action : option (Store → Store * Toast)) (st : Store)
    : Store * option Toast :=
  match action with
  | Some handler => let '(st1, t) := handler st in (st1, Some t)
  | None => (st, None)
  end.

(** ** Products.tsx (unnamed/part_001) and Dashboard.tsx *)

(** [interface Product] *)
Record Product := {
  p_id : uuid;
  p_name : string;
  p_sku : string;
  p_reorder_level : Z
}.

(** [interface StockLevel]: a row of [stock_levels] as the pages load it. *)
Record StockLevel := {
  sl_product_id : uuid;
  sl_warehouse_id : uuid;
  sl_quantity : Z
}.

Module Products.

(** [stockLevels.filter(sl => sl.product_id === productId)
       .reduce((sum, sl) => sum + Number(sl.quantity), 0)] *)
Definition getProductStock (stockLevels : list StockLevel) (productId : uuid) : Z :=
  let stock := filter (λ sl, sl_product_id sl = productId) stockLevels in
  foldl (λ sum sl, sum + sl_quantity sl) 0 stock.

(** [const isLowStock = currentStock <= product.reorder_level] *)
Definition isLowStock (stockLevels : list StockLevel) (product : Product) : bool :=
  let currentStock := getProductStock stockLevels (p_id product) in
  currentStock <=? p_reorder_level product.

End Products.

Module Dashboard.

(** [x || 0] on a number that may be [undefined] *)
Definition or_zero (x : option Z) : Z :=
  match x with
  | Some v => if v =? 0 then 0 else v
  | None => 0
  end.

(** [allStockLevels.forEach(sl => stockMap.set(sl.product_id,
       (stockMap.get(sl.product_id) || 0) + Number(sl.quantity)))],
    skipped when [allStockLevels] is [null]. *)
Definition stockMap (allStockLevels : option (list StockLevel)) : gmap uuid Z :=
  match allStockLevels with
  | Some rows =>
      foldl (λ (m : gmap uuid Z) sl,
               <[sl_product_id sl := or_zero (m !! sl_product_id sl) + sl_quantity sl]> m)
            ∅ rows
  | None => ∅
  end.

(** The low-stock counter of [loadDashboardData]. *)
Definition lowStockCount (allProducts : option (list Product))
    (allStockLevels : option (list StockLevel)) : Z :=
  let m := stockMap allStockLevels in
  match allProducts with
  | Some products =>
      foldl (λ count product,
               let totalStock := or_zero (m !! p_id product) in
               if totalStock <=? p_reorder_level product then count + 1 else count)
            0 products
  | None => 0
  end.

End Dashboard.

(** The second dashboard component of the repository (in
    unnamed/part_001, after the Products page). *)
Module Dashboard_part_001.

(** [from("stock_levels").select("*, products!inner(reorder_level)")
       .lte("quantity", 10)]: every stock level has a product, so the
    inner join drops no row. *)
Definition select_low (st_rows : list StockLevel) : option (list StockLevel) :=
  Some (filter (λ sl, sl_quantity sl ≤ 10) st_rows).

(** [lowStockItems: stockLevels?.length || 0] *)
Definition lowStockItems (stockLevels : option (list StockLevel)) : Z :=
  match stockLevels with
  | Some rows => Z.of_nat (length rows)
  | None => 0
  end.

End Dashboard_part_001.

(** The low-stock rule in the specification's words: the total balance
    of a product is the sum of its StockLevel quantities across all
    warehouses, and the product is low on stock when that total is at
    most its reorder level. *)
Fixpoint total_balance (rows : list StockLevel) (productId : uuid) : Z :=
  match rows with
  | [] => 0
  | sl :: rest =>
      (if decide (sl_product_id sl = productId) then sl_quantity sl else 0)
      + total_balance rest productId
  end.

Definition low_stock (rows : list StockLevel) (product : Product) : Prop :=
  total_balance rows (p_id product) ≤ p_reorder_level product.

#[global] Instance low_stock_dec rows product : Decision (low_stock rows product).
Proof. unfold low_stock. apply _. Defined.

(** ** Sequences of validations *)

Inductive Op :=
  | validate_receipt (now : string) (rcp : Receipt)
  | validate_delivery (now : string) (dlv : Delivery)
  | validate_transfer (now : string) (trf : Transfer)
  | validate_adjustment (now : string) (adj : Adjustment).

Definition step (user : option uuid) (st : Store) (op : Op) : Store :=
  match op with
  | validate_receipt now rcp => fst (Receipts.handleValidateReceipt user now rcp st)
  | validate_delivery now dlv => fst (Deliveries.handleValidateDelivery user now dlv st)
  | validate_transfer now trf => fst (Transfers.handleValidateTransfer user now trf st)
  | validate_adjustment now adj => fst (Adjustments.handleValidateAdjustment user now adj st)
  end.

Definition run (user : option uuid) (ops : list Op) (st : Store) : Store :=
  foldl (step user) st ops.

(** No pair holds a negative quantity. *)
Definition non_negative (st : Store) : Prop :=
  ∀ key q, stock_levels st !! key = Some q → 0 ≤ q.

(** ** A worked scenario

    Product [X1], warehouses [WH_MAIN] and [WH_SEC], session user [alice]. *)

Definition X1 : uuid := 1%N.
Definition X2 : uuid := 2%N.
Definition WH_MAIN : uuid := 10%N.
Definition WH_SEC : uuid := 11%N.
Definition alice : option uuid := Some 100%N.

Definition rcp1 : Receipt :=
  {| r_id := 20%N; r_receipt_number := "RCP-1"; r_supplier_name := "Acme";
     r_warehouse_id := WH_MAIN; r_status := draft; r_validated_at := None |}.

Definition dlv1 : Delivery :=
  {| d_id := 30%N; d_delivery_number := "DEL-1"; d_customer_name := "Bob";
     d_warehouse_id := WH_MAIN; d_status := draft; d_validated_at := None |}.

Definition trf1 : Transfer :=
  {| t_id := 40%N; t_transfer_number := "TRF-1";
     t_source_warehouse_id := WH_MAIN; t_destination_warehouse_id := WH_SEC;
     t_product_id := X1; t_quantity := 6; t_status := draft; t_validated_at := None |}.

(** Drafts of a receipt of 10 and a delivery of 4 of [X1] at [WH_MAIN],
    and of a transfer of 6 to [WH_SEC]; nothing on hand yet. *)
Definition scenario0 : Store :=
  {| stock_levels := ∅; stock_movements := [];
     receipts := {[ 20%N := rcp1 ]};
     receipt_lines := [ {| rl_receipt_id := 20%N; rl_product_id := X1; rl_quantity := 10 |} ];
     deliveries := {[ 30%N := dlv1 ]};
     delivery_lines := [ {| dl_delivery_id := 30%N; dl_product_id := X1; dl_quantity := 4 |} ];
     internal_transfers := {[ 40%N := trf1 ]};
     stock_adjustments := ∅ |}.

(** A delivery line is short when its pair has no row or holds less
    than the line asks for. *)
Definition short (st : Store) (warehouseId : uuid) (line : DeliveryLine) : Prop :=
  match stock_levels st !! (dl_product_id line, warehouseId) with
  | Some existing => existing < dl_quantity line
  | None => True
  end.

(** ** The rest of the pages *)

(** The pending counters of [loadDashboardData] (the same in both
    dashboard components):
    [select("*", { count: "exact", head: true })
       .in("status", ["draft", "waiting", "ready"])], then [count || 0]. *)
Module DashboardStats.

Definition pending (s : Status) : Prop := s ∈ [draft; waiting; ready].

#[global] Instance pending_dec s : Decision (pending s).
Proof. unfold pending. apply _. Defined.

Definition pendingReceipts (st : Store) : Z :=
  Z.of_nat (size (filter (λ kv, pending (r_status kv.2)) (receipts st))).

Definition pendingDeliveries (st : Store) : Z :=
  Z.of_nat (size (filter (λ kv, pending (d_status kv.2)) (deliveries st))).

Definition scheduledTransfers (st : Store) : Z :=
  Z.of_nat (size (filter (λ kv, pending (t_status kv.2)) (internal_transfers st))).

End DashboardStats.

(** MoveHistory.tsx *)
Module MoveHistory.

(** [movement.quantity > 0 ? "+" : ""] in front of the quantity *)
Definition quantity_prefix (m : StockMovement) : string :=
  if 0 <? mv_quantity m then "+" else String.EmptyString.

End MoveHistory.

(** ** A session at the pages

    One user working through the pages, one action after the other.  A
    page lists its table as loaded ([loadReceipts] and the like run when
    the page is opened and after every change the page makes), so the
    document a click hands to a handler is the stored row. *)
Inductive Action :=
  | submit_receipt (new_id : uuid) (epoch_ms : string) (f : Receipts.Form)
      (selectedProducts : list SelectedProduct) (linesError : option string)
  | submit_delivery (new_id : uuid) (epoch_ms : string) (f : Deliveries.Form)
      (selectedProducts : list SelectedProduct) (linesError : option string)
  | submit_transfer (new_id : uuid) (epoch_ms : string) (f : Transfers.Form)
  | submit_adjustment (new_id : uuid) (epoch_ms : string)
      (productId warehouseId : uuid) (f : Adjustments.Form)
  | click_receipt (now : string) (id : uuid)
  | click_delivery (now : string) (id : uuid)
  | click_transfer (now : string) (id : uuid)
  | click_adjustment (now : string) (id : uuid).

Definition perform (user : option uuid) (st : Store) (a : Action) : Store :=
  match a with
  | submit_receipt new_id epoch_ms f selectedProducts linesError =>
      fst (Receipts.handleSubmit user new_id epoch_ms f selectedProducts linesError st)
  | submit_delivery new_id epoch_ms f selectedProducts linesError =>
      fst (Deliveries.handleSubmit user new_id epoch_ms f selectedProducts linesError st)
  | submit_transfer new_id epoch_ms f =>
      fst (Transfers.handleSubmit user new_id epoch_ms f st)
  | submit_adjustment new_id epoch_ms productId warehouseId f =>
      let ui := Adjustments.select_pair productId warehouseId st Adjustments.initial_ui in
      (Adjustments.handleSubmit user new_id epoch_ms ui f st).1.1
  | click_receipt now id =>
      match receipts st !! id with
      | Some rcp => fst (click (Receipts.row_action user now rcp) st)
      | None => st
      end
  | click_delivery now id =>
      match deliveries st !! id with
      | Some dlv => fst (click (Deliveries.row_action user now dlv) st)
      | None => st
      end
  | click_transfer now id =>
      match internal_transfers st !! id with
      | Some trf => fst (click (Transfers.row_action user now trf) st)
      | None => st
      end
  | click_adjustment now id =>
      match stock_adjustments st !! id with
      | Some adj => fst (click (Adjustments.row_action user now adj) st)
      | None => st
      end
  end.

Definition session (user : option uuid) (actions : list Action) (st : Store) : Store :=
  foldl (perform user) st actions.

(** What the forms let through: the transfer form asks for a quantity
    of at least 1 ([min="1"]); a physical count is not negative. *)
Definition form_bounds (a : Action) : Prop :=
  match a with
  | submit_transfer _ _ f => 1 ≤ Transfers.f_quantity f
  | submit_adjustment _ _ _ _ f => 0 ≤ Adjustments.f_counted_quantity f
  | _ => True
  end.

(** Every stored row sits under its own identifier. *)
Definition keyed (st : Store) : Prop :=
  (∀ id r, receipts st !! id = Some r → r_id r = id)
  ∧ (∀ id d, deliveries st !! id = Some d → d_id d = id)
  ∧ (∀ id t, internal_transfers st !! id = Some t → t_id t = id)
  ∧ (∀ id a, stock_adjustments st !! id = Some a → a_id a = id).

(** A document is a draft never validated or is done and stamped. *)
Definition stamped (s : Status) (validated_at : option string) : Prop :=
  (s = draft ∧ validated_at = None) ∨ (s = done ∧ is_Some validated_at).

Definition lifecycle (st : Store) : Prop :=
  (∀ id r, receipts st !! id = Some r → stamped (r_status r) (r_validated_at r))
  ∧ (∀ id d, deliveries st !! id = Some d → stamped (d_status d) (d_validated_at d))
  ∧ (∀ id t, internal_transfers st !! id = Some t
             → stamped (t_status t) (t_validated_at t))
  ∧ (∀ id a, stock_adjustments st !! id = Some a
             → stamped (a_status a) (a_validated_at a)).

(** What the creation forms guarantee of the stored documents. *)
Definition created_by_forms (st : Store) : Prop :=
  (∀ l, l ∈ receipt_lines st → 0 < rl_quantity l)
  ∧ (∀ l, l ∈ delivery_lines st → 0 < dl_quantity l)
  ∧ (∀ id t, internal_transfers st !! id = Some t
             → t_source_warehouse_id t ≠ t_destination_warehouse_id t).

(** The same facts row by row, as the session keeps them. *)
Definition good_receipt (id : uuid) (r : Receipt) : Prop :=
  r_id r = id ∧ stamped (r_status r) (r_validated_at r).

Definition good_delivery (id : uuid) (d : Delivery) : Prop :=
  d_id d = id ∧ stamped (d_status d) (d_validated_at d).

Definition good_transfer (id : uuid) (t : Transfer) : Prop :=
  t_id t = id ∧ stamped (t_status t) (t_validated_at t)
  ∧ t_source_warehouse_id t ≠ t_destination_warehouse_id t.

Definition good_adjustment (id : uuid) (a : Adjustment) : Prop :=
  a_id a = id ∧ stamped (a_status a) (a_validated_at a).

Definition well_formed (st : Store) : Prop :=
  map_Forall good_receipt (receipts st)
  ∧ map_Forall good_delivery (deliveries st)
  ∧ map_Forall good_transfer (internal_transfers st)
  ∧ map_Forall good_adjustment (stock_adjustments st)
  ∧ Forall (λ l, 0 < rl_quantity l) (receipt_lines st)
  ∧ Forall (λ l, 0 < dl_quantity l) (delivery_lines st).

(** Quantities within the bounds of the forms. *)
Definition within_bounds (st : Store) : Prop :=
  non_negative st
  ∧ map_Forall (λ _ t, 1 ≤ t_quantity t) (internal_transfers st)
  ∧ map_Forall (λ _ a, 0 ≤ a_counted_quantity a) (stock_adjustments st).

(** The sign a movement of each kind is meant to carry. *)
Definition sign_ok (m : StockMovement) : Prop :=
  match mv_movement_type m with
  | mt_receipt | mt_transfer_in => 0 < mv_quantity m
  | mt_delivery | mt_transfer_out => mv_quantity m < 0
  | mt_adjustment => True
  end.

(** A second scenario: a delivery of 3 of [X1] and 4 of [X2] from
    [WH_MAIN], which holds 10 of [X1] and no [X2]. *)
Definition dlv2 : Delivery :=
  {| d_id := 32%N; d_delivery_number := "DEL-3"; d_customer_name := "Bob";
     d_warehouse_id := WH_MAIN; d_status := draft; d_validated_at := None |}.

Definition scenario_short : Store :=
  {| stock_levels := {[ (X1, WH_MAIN) := 10 ]}; stock_movements := [];
     receipts := ∅; receipt_lines := [];
     deliveries := {[ 32%N := dlv2 ]};
     delivery_lines :=
       [ {| dl_delivery_id := 32%N; dl_product_id := X1; dl_quantity := 3 |};
         {| dl_delivery_id := 32%N; dl_product_id := X2; dl_quantity := 4 |} ];
     internal_transfers := ∅; stock_adjustments := ∅ |}.

(** * Quantities as the handlers compute them

    The handlers read a quantity with [Number(row.quantity)] and compute
    with JavaScript's [+], [-] and [<]: IEEE 754 binary64 arithmetic,
    rounding to nearest.  This part embeds the handlers once more with
    quantities as binary64 numbers (Rocq's primitive [float], which
    computes as the hardware does), for the statements that say what a
    balance or a movement amounts to after the handler has run.

    A [DECIMAL] column holds the decimal digits [JSON.stringify] wrote
    for the number: the shortest digits that read back as the same
    binary64 number.  A stored quantity is therefore modelled by the
    number JavaScript reads back, and two stored quantities are the same
    decimal exactly when they are the same [float].  A literal such as
    [0.14] stands for the binary64 number nearest to it, which is what
    [parseFloat("0.14")] and the reading of a stored [0.14] give. *)

Module F64.

(** What a [DECIMAL NOT NULL] column receives for a number of a request
    body: [JSON.stringify] writes [null] for [NaN] and for the
    infinities (and the column refuses [null]), ["0"] for [-0], and
    round-trip digits for every other number. *)
Definition decimal (x : float) : option float :=
  if is_nan x || is_infinity x then None
  else if is_zero x then Some 0%float
  else Some x.

(** A number that a column can hold, as it reads back. *)
Definition stored (x : float) : Prop := decimal x = Some x.

Record StockMovement := {
  mv_product_id : uuid;
  mv_warehouse_id : uuid;
  mv_movement_type : MovementType;
  mv_quantity : float;
  mv_reference_id : uuid;
  mv_reference_type : string;
  mv_notes : option string;
  mv_created_by : option uuid
}.

Record ReceiptLine := {
  rl_receipt_id : uuid;
  rl_product_id : uuid;
  rl_quantity : float
}.

Record DeliveryLine := {
  dl_delivery_id : uuid;
  dl_product_id : uuid;
  dl_quantity : float
}.

Record Transfer := {
  t_id : uuid;
  t_transfer_number : string;
  t_source_warehouse_id : uuid;
  t_destination_warehouse_id : uuid;
  t_product_id : uuid;
  t_quantity : float;
  t_status : Status;
  t_validated_at : option string
}.

Record Adjustment := {
  a_id : uuid;
  a_adjustment_number : string;
  a_product_id : uuid;
  a_warehouse_id : uuid;
  a_counted_quantity : float;
  a_system_quantity : float;
  a_difference : float;
  a_reason : string;
  a_status : Status;
  a_validated_at : option string
}.

Record Store := {
  stock_levels : gmap (uuid * uuid) float;
  stock_movements : list StockMovement;
  receipts : gmap uuid Receipt;
  receipt_lines : list ReceiptLine;
  deliveries : gmap uuid Delivery;
  delivery_lines : list DeliveryLine;
  internal_transfers : gmap uuid Transfer;
  stock_adjustments : gmap uuid Adjustment
}.

Definition empty_store : Store :=
  {| stock_levels := ∅; stock_movements := []; receipts := ∅; receipt_lines := [];
     deliveries := ∅; delivery_lines := []; internal_transfers := ∅;
     stock_adjustments := ∅ |}.

(** [from("stock_levels").update({quantity}).eq("id", existing.id)] and
    [from("stock_levels").insert({product_id, warehouse_id, quantity})].
    The handlers do not look at the answer: a quantity the column
    refuses leaves the table as it was. *)
Definition write_stock_level (key : uuid * uuid) (q : float) (st : Store) : Store :=
  match decimal q with
  | Some v =>
      {| stock_levels := <[key := v]> (stock_levels st);
         stock_movements := stock_movements st;
         receipts := receipts st; receipt_lines := receipt_lines st;
         deliveries := deliveries st; delivery_lines := delivery_lines st;
         internal_transfers := internal_transfers st;
         stock_adjustments := stock_adjustments st |}
  | None => st
  end.

(** A movement as the ledger stores it. *)
Definition ledger_row (m : StockMovement) : option StockMovement :=
  match decimal (mv_quantity m) with
  | Some v =>
      Some {| mv_product_id := mv_product_id m; mv_warehouse_id := mv_warehouse_id m;
              mv_movement_type := mv_movement_type m; mv_quantity := v;
              mv_reference_id := mv_reference_id m;
              mv_reference_type := mv_reference_type m;
              mv_notes := mv_notes m; mv_created_by := mv_created_by m |}
  | None => None
  end.

(** [from("stock_movements").insert(rows)]: one request, stored whole or
    not at all; the handlers do not look at the answer. *)
Definition insert_movements (ms : list StockMovement) (st : Store) : Store :=
  match mapM ledger_row ms with
  | Some rows =>
      {| stock_levels := stock_levels st;
         stock_movements := stock_movements st ++ rows;
         receipts := receipts st; receipt_lines := receipt_lines st;
         deliveries := deliveries st; delivery_lines := delivery_lines st;
         internal_transfers := internal_transfers st;
         stock_adjustments := stock_adjustments st |}
  | None => st
  end.

Definition set_receipts (rs : gmap uuid Receipt) (st : Store) : Store :=
  {| stock_levels := stock_levels st; stock_movements := stock_movements st;
     receipts := rs; receipt_lines := receipt_lines st;
     deliveries := deliveries st; delivery_lines := delivery_lines st;
     internal_transfers := internal_transfers st;
     stock_adjustments := stock_adjustments st |}.

Definition set_deliveries (ds : gmap uuid Delivery) (st : Store) : Store :=
  {| stock_levels := stock_levels st; stock_movements := stock_movements st;
     receipts := receipts st; receipt_lines := receipt_lines st;
     deliveries := ds; delivery_lines := delivery_lines st;
     internal_transfers := internal_transfers st;
     stock_adjustments := stock_adjustments st |}.

Definition set_internal_transfers (ts : gmap uuid Transfer) (st : Store) : Store :=
  {| stock_levels := stock_levels st; stock_movements := stock_movements st;
     receipts := receipts st; receipt_lines := receipt_lines st;
     deliveries := deliveries st; delivery_lines := delivery_lines st;
     internal_transfers := ts;
     stock_adjustments := stock_adjustments st |}.

Definition set_stock_adjustments (adjs : gmap uuid Adjustment) (st : Store) : Store :=
  {| stock_levels := stock_levels st; stock_movements := stock_movements st;
     receipts := receipts st; receipt_lines := receipt_lines st;
     deliveries := deliveries st; delivery_lines := delivery_lines st;
     internal_transfers := internal_transfers st;
     stock_adjustments := adjs |}.

Definition set_receipt_lines (ls : list ReceiptLine) (st : Store) : Store :=
  {| stock_levels := stock_levels st; stock_movements := stock_movements st;
     receipts := receipts st; receipt_lines := ls;
     deliveries := deliveries st; delivery_lines := delivery_lines st;
     internal_transfers := internal_transfers st;
     stock_adjustments := stock_adjustments st |}.

Definition set_delivery_lines (ls : list DeliveryLine) (st : Store) : Store :=
  {| stock_levels := stock_levels st; stock_movements := stock_movements st;
     receipts := receipts st; receipt_lines := receipt_lines st;
     deliveries := deliveries st; delivery_lines := ls;
     internal_transfers := internal_transfers st;
     stock_adjustments := stock_adjustments st |}.

(** An entry of the [selectedProducts] state of the receipt and delivery
    forms;
    [quantity] is [parseInt(e.target.value) || 0]. *)
Record SelectedProduct := {
  productId : option uuid;
  quantity : float
}.

(** ** Receipts.tsx *)

Module Receipts.

Record Form := {
  f_supplier_name : string;
  f_warehouse_id : option uuid;
  f_notes : string
}.

Section WithSession.

Variable user : option uuid.

(** [from("receipts").insert({...}).select().single()] *)
Definition insert_receipt (new_id : uuid) (number : string) (f : Form) (st : Store)
    : string + Store :=
  match f_warehouse_id f, user with
  | Some w, Some _ =>
      match receipts st !! new_id with
      | Some _ => inl duplicate_key
      | None =>
          let row := {| r_id := new_id; r_receipt_number := number;
                        r_supplier_name := f_supplier_name f;
                        r_warehouse_id := w;
                        r_status := draft; r_validated_at := None |} in
          inr (set_receipts (<[new_id := row]> (receipts st)) st)
      end
  | _, _ => inl not_null_violation
  end.

(** [selectedProducts.filter((p) => p.productId && p.quantity > 0)
       .map((p) => ({ receipt_id, product_id: p.productId, quantity: p.quantity }))] *)
Definition new_lines (rid : uuid) (selectedProducts : list SelectedProduct)
    : list ReceiptLine :=
  omap (λ p, match productId p with
             | Some pid =>
                 if (0 <? quantity p)%float
                 then Some {| rl_receipt_id := rid; rl_product_id := pid;
                              rl_quantity := quantity p |}
                 else None
             | None => None
             end)
       selectedProducts.

(** A line as the table stores it. *)
Definition line_row (l : ReceiptLine) : option ReceiptLine :=
  match decimal (rl_quantity l) with
  | Some v => Some {| rl_receipt_id := rl_receipt_id l;
                      rl_product_id := rl_product_id l; rl_quantity := v |}
  | None => None
  end.

(** [from("receipt_lines").insert(lines)]: the rows are stored together
    or the answer carries an [error].  [linesError] is an error the
    store answers for a reason of its own. *)
Definition insert_lines (lines : list ReceiptLine) (linesError : option string)
    (st : Store) : string + Store :=
  match linesError with
  | Some message => inl message
  | None =>
      match mapM line_row lines with
      | Some rows => inr (set_receipt_lines (receipt_lines st ++ rows) st)
      | None => inl not_null_violation
      end
  end.

(** [handleSubmit]; [epoch_ms] is the decimal rendering of [Date.now()]. *)
Definition handleSubmit (new_id : uuid) (epoch_ms : string) (f : Form)
    (selectedProducts : list SelectedProduct) (linesError : option string)
    (st : Store) : Store * Toast :=
  let receiptNumber := "RCP-" +:+ epoch_ms in
  match insert_receipt new_id receiptNumber f st with
  | inl message => (st, toast_error message)
  | inr st1 =>
      let lines := new_lines new_id selectedProducts in
      match lines with
      | [] => (st1, toast_success "Receipt created successfully")
      | _ :: _ =>
          match insert_lines lines linesError st1 with
          | inl message => (st1, toast_error message)
          | inr st2 => (st2, toast_success "Receipt created successfully")
          end
      end
  end.

(** [.update({ status: "done", validated_at: new Date().toISOString() })] *)
Definition mark_done (now : string) (r : Receipt) : Receipt :=
  {| r_id := r_id r; r_receipt_number := r_receipt_number r;
     r_supplier_name := r_supplier_name r; r_warehouse_id := r_warehouse_id r;
     r_status := done; r_validated_at := Some now |}.

(** [from("receipt_lines").select("*").eq("receipt_id", receipt.id)] *)
Definition select_lines (rid : uuid) (st : Store) : option (list ReceiptLine) :=
  Some (filter (λ l, rl_receipt_id l = rid) (receipt_lines st)).

Definition movement_of (rcp : Receipt) (line : ReceiptLine) : StockMovement :=
  {| mv_product_id := rl_product_id line;
     mv_warehouse_id := r_warehouse_id rcp;
     mv_movement_type := mt_receipt;
     mv_quantity := rl_quantity line;
     mv_reference_id := r_id rcp;
     mv_reference_type := "receipt";
     mv_notes := None;
     mv_created_by := user |}.

(** The body of [for (const line of lines)]:
    [quantity: Number(existing.quantity) + Number(line.quantity)] when the
    pair has a row, [quantity: line.quantity] when it has none. *)
Definition post_line (rcp : Receipt) (st : Store) (line : ReceiptLine) : Store :=
  let key := (rl_product_id line, r_warehouse_id rcp) in
  let st1 :=
    match stock_levels st !! key with
    | Some existing => write_stock_level key (existing + rl_quantity line)%float st
    | None => write_stock_level key (rl_quantity line) st
    end in
  insert_movements [movement_of rcp line] st1.

Definition validate_with (lines : option (list ReceiptLine))
    (now : string) (rcp : Receipt) (st : Store) : Store * Toast :=
  match lines with
  | None | Some [] => (st, toast_error "Cannot validate receipt without products")
  | Some ls =>
      let st1 := foldl (post_line rcp) st ls in
      let st2 :=
        set_receipts (alter (mark_done now) (r_id rcp) (receipts st1)) st1 in
      (st2, toast_success "Receipt validated and stock updated")
  end.

Definition handleValidateReceipt (now : string) (rcp : Receipt) (st : Store)
    : Store * Toast :=
  validate_with (select_lines (r_id rcp) st) now rcp st.

(** [{receipt.status !== "done" && <Button onClick=...>}] *)
Definition row_action (now : string) (rcp : Receipt) : option (Store → Store * Toast) :=
  if decide (r_status rcp ≠ done) then Some (handleValidateReceipt now rcp) else None.

End WithSession.
End Receipts.

(** ** Deliveries.tsx (unnamed/part_000) *)

Module Deliveries.

Record Form := {
  f_customer_name : string;
  f_warehouse_id : option uuid;
  f_notes : string
}.

Section WithSession.

Variable user : option uuid.

(** [from("deliveries").insert({...}).select().single()] *)
Definition insert_delivery (new_id : uuid) (number : string) (f : Form) (st : Store)
    : string + Store :=
  match f_warehouse_id f, user with
  | Some w, Some _ =>
      match deliveries st !! new_id with
      | Some _ => inl duplicate_key
      | None =>
          let row := {| d_id := new_id; d_delivery_number := number;
                        d_customer_name := f_customer_name f;
                        d_warehouse_id := w;
                        d_status := draft; d_validated_at := None |} in
          inr (set_deliveries (<[new_id := row]> (deliveries st)) st)
      end
  | _, _ => inl not_null_violation
  end.

(** [selectedProducts.filter((p) => p.productId && p.quantity > 0).map(...)] *)
Definition new_lines (did : uuid) (selectedProducts : list SelectedProduct)
    : list DeliveryLine :=
  omap (λ p, match productId p with
             | Some pid =>
                 if (0 <? quantity p)%float
                 then Some {| dl_delivery_id := did; dl_product_id := pid;
                              dl_quantity := quantity p |}
                 else None
             | None => None
             end)
       selectedProducts.

Definition line_row (l : DeliveryLine) : option DeliveryLine :=
  match decimal (dl_quantity l) with
  | Some v => Some {| dl_delivery_id := dl_delivery_id l;
                      dl_product_id := dl_product_id l; dl_quantity := v |}
  | None => None
  end.

(** [from("delivery_lines").insert(lines)] *)
Definition insert_lines (lines : list DeliveryLine) (linesError : option string)
    (st : Store) : string + Store :=
  match linesError with
  | Some message => inl message
  | None =>
      match mapM line_row lines with
      | Some rows => inr (set_delivery_lines (delivery_lines st ++ rows) st)
      | None => inl not_null_violation
      end
  end.

Definition handleSubmit (new_id : uuid) (epoch_ms : string) (f : Form)
    (selectedProducts : list SelectedProduct) (linesError : option string)
    (st : Store) : Store * Toast :=
  let deliveryNumber := "DEL-" +:+ epoch_ms in
  match insert_delivery new_id deliveryNumber f st with
  | inl message => (st, toast_error message)
  | inr st1 =>
      let lines := new_lines new_id selectedProducts in
      match lines with
      | [] => (st1, toast_success "Delivery created successfully")
      | _ :: _ =>
          match insert_lines lines linesError st1 with
          | inl message => (st1, toast_error message)
          | inr st2 => (st2, toast_success "Delivery created successfully")
          end
      end
  end.

Definition mark_done (now : string) (d : Delivery) : Delivery :=
  {| d_id := d_id d; d_delivery_number := d_delivery_number d;
     d_customer_name := d_customer_name d; d_warehouse_id := d_warehouse_id d;
     d_status := done; d_validated_at := Some now |}.

(** [from("delivery_lines").select("*").eq("delivery_id", delivery.id)] *)
Definition select_lines (did : uuid) (st : Store) : option (list DeliveryLine) :=
  Some (filter (λ l, dl_delivery_id l = did) (delivery_lines st)).

Definition movement_of (dlv : Delivery) (line : DeliveryLine) : StockMovement :=
  {| mv_product_id := dl_product_id line;
     mv_warehouse_id := d_warehouse_id dlv;
     mv_movement_type := mt_delivery;
     mv_quantity := (- dl_quantity line)%float;
     mv_reference_id := d_id dlv;
     mv_reference_type := "delivery";
     mv_notes := None;
     mv_created_by := user |}.

(** The body of [for (const line of lines)]; [None] is the [return]
    after [toast.error("Insufficient stock for this delivery")]. *)
Definition post_line (dlv : Delivery) (st : Store) (line : DeliveryLine)
    : option Store :=
  let key := (dl_product_id line, d_warehouse_id dlv) in
  match stock_levels st !! key with
  | None => None
  | Some existing =>
      if (existing <? dl_quantity line)%float then None
      else
        let st1 := write_stock_level key (existing - dl_quantity line)%float st in
        Some (insert_movements [movement_of dlv line] st1)
  end.

(** The loop: [inl st] is the early [return], taken in the store as the
    earlier iterations left it; [inr st] is the loop running to its
    end. *)
Fixpoint post_lines (dlv : Delivery) (lines : list DeliveryLine) (st : Store)
    : Store + Store :=
  match lines with
  | [] => inr st
  | line :: rest =>
      match post_line dlv st line with
      | None => inl st
      | Some st1 => post_lines dlv rest st1
      end
  end.

Definition validate_with (lines : option (list DeliveryLine))
    (now : string) (dlv : Delivery) (st : Store) : Store * Toast :=
  match lines with
  | None | Some [] => (st, toast_error "Cannot validate delivery without products")
  | Some ls =>
      match post_lines dlv ls st with
      | inl st1 => (st1, toast_error "Insufficient stock for this delivery")
      | inr st1 =>
          let st2 :=
            set_deliveries
              (alter (mark_done now) (d_id dlv) (deliveries st1)) st1 in
          (st2, toast_success "Delivery validated and stock updated")
      end
  end.

Definition handleValidateDelivery (now : string) (dlv : Delivery) (st : Store)
    : Store * Toast :=
  validate_with (select_lines (d_id dlv) st) now dlv st.

Definition row_action (now : string) (dlv : Delivery) : option (Store → Store * Toast) :=
  if decide (d_status dlv ≠ done) then Some (handleValidateDelivery now dlv) else None.

End WithSession.
End Deliveries.

(** ** Transfers.tsx (unnamed/part_002) *)

Module Transfers.

(** [f_quantity] is the value of [parseInt(formData.get("quantity"))]. *)
Record Form := {
  f_source_warehouse_id : option uuid;
  f_destination_warehouse_id : option uuid;
  f_product_id : option uuid;
  f_quantity : float;
  f_notes : string
}.

Section WithSession.

Variable user : option uuid.

Definition insert_transfer (new_id : uuid) (number : string) (f : Form) (st : Store)
    : string + Store :=
  match f_source_warehouse_id f, f_destination_warehouse_id f, f_product_id f, user,
        decimal (f_quantity f) with
  | Some src, Some dst, Some p, Some _, Some q =>
      match internal_transfers st !! new_id with
      | Some _ => inl duplicate_key
      | None =>
          let row := {| t_id := new_id; t_transfer_number := number;
                        t_source_warehouse_id := src;
                        t_destination_warehouse_id := dst;
                        t_product_id := p; t_quantity := q;
                        t_status := draft; t_validated_at := None |} in
          inr (set_internal_transfers (<[new_id := row]> (internal_transfers st)) st)
      end
  | _, _, _, _, _ => inl not_null_violation
  end.

Definition handleSubmit (new_id : uuid) (epoch_ms : string) (f : Form) (st : Store)
    : Store * Toast :=
  let sourceId := f_source_warehouse_id f in
  let destId := f_destination_warehouse_id f in
  if decide (sourceId = destId) then
    (st, toast_error "Source and destination warehouses must be different")
  else
    let transferNumber := "TRF-" +:+ epoch_ms in
    match insert_transfer new_id transferNumber f st with
    | inl message => (st, toast_error message)
    | inr st1 => (st1, toast_success "Transfer created successfully")
    end.

Definition mark_done (now : string) (t : Transfer) : Transfer :=
  {| t_id := t_id t; t_transfer_number := t_transfer_number t;
     t_source_warehouse_id := t_source_warehouse_id t;
     t_destination_warehouse_id := t_destination_warehouse_id t;
     t_product_id := t_product_id t; t_quantity := t_quantity t;
     t_status := done; t_validated_at := Some now |}.

Definition movement_out (trf : Transfer) : StockMovement :=
  {| mv_product_id := t_product_id trf;
     mv_warehouse_id := t_source_warehouse_id trf;
     mv_movement_type := mt_transfer_out;
     mv_quantity := (- t_quantity trf)%float;
     mv_reference_id := t_id trf;
     mv_reference_type := "transfer";
     mv_notes := None;
     mv_created_by := user |}.

Definition movement_in (trf : Transfer) : StockMovement :=
  {| mv_product_id := t_product_id trf;
     mv_warehouse_id := t_destination_warehouse_id trf;
     mv_movement_type := mt_transfer_in;
     mv_quantity := t_quantity trf;
     mv_reference_id := t_id trf;
     mv_reference_type := "transfer";
     mv_notes := None;
     mv_created_by := user |}.

Definition handleValidateTransfer (now : string) (trf : Transfer) (st : Store)
    : Store * Toast :=
  let src := (t_product_id trf, t_source_warehouse_id trf) in
  let dst := (t_product_id trf, t_destination_warehouse_id trf) in
  match stock_levels st !! src with
  | None => (st, toast_error "Insufficient stock in source warehouse")
  | Some sourceStock =>
      if (sourceStock <? t_quantity trf)%float then
        (st, toast_error "Insufficient stock in source warehouse")
      else
        let st1 := write_stock_level src (sourceStock - t_quantity trf)%float st in
        let st2 :=
          match stock_levels st1 !! dst with
          | Some destStock =>
              write_stock_level dst (destStock + t_quantity trf)%float st1
          | None => write_stock_level dst (t_quantity trf) st1
          end in
        let st3 := insert_movements [movement_out trf; movement_in trf] st2 in
        let st4 :=
          set_internal_transfers
            (alter (mark_done now) (t_id trf) (internal_transfers st3)) st3 in
        (st4, toast_success "Transfer validated and stock updated")
  end.

Definition row_action (now : string) (trf : Transfer) : option (Store → Store * Toast) :=
  if decide (t_status trf ≠ done) then Some (handleValidateTransfer now trf) else None.

End WithSession.
End Transfers.

(** ** Adjustments.tsx *)

Module Adjustments.

Record Ui := {
  selectedProduct : option uuid;
  selectedWarehouse : option uuid;
  systemQty : float
}.

(** [f_counted_quantity] is the value of
    [parseFloat(formData.get("counted_quantity"))]; the input steps by
    hundredths ([step="0.01"]). *)
Record Form := {
  f_counted_quantity : float;
  f_reason : string
}.

(** [loadSystemQuantity]: [setSystemQty(data ? Number(data.quantity) : 0)] *)
Definition loadSystemQuantity (productId warehouseId : uuid) (st : Store) (ui : Ui) : Ui :=
  {| selectedProduct := selectedProduct ui;
     selectedWarehouse := selectedWarehouse ui;
     systemQty := match stock_levels st !! (productId, warehouseId) with
                  | Some q => q
                  | None => 0%float
                  end |}.

Definition select_pair (productId warehouseId : uuid) (st : Store) (ui : Ui) : Ui :=
  loadSystemQuantity productId warehouseId st
    {| selectedProduct := Some productId; selectedWarehouse := Some warehouseId;
       systemQty := systemQty ui |}.

Definition initial_ui : Ui :=
  {| selectedProduct := None; selectedWarehouse := None; systemQty := 0%float |}.

Section WithSession.

Variable user : option uuid.

(** The row [handleSubmit] sends, as the table stores it:
    [const difference = countedQty - systemQty]. *)
Definition new_row (new_id : uuid) (number : string) (p w : uuid) (ui : Ui) (f : Form)
    : option Adjustment :=
  let countedQty := f_counted_quantity f in
  let difference := (countedQty - systemQty ui)%float in
  match decimal countedQty, decimal (systemQty ui), decimal difference with
  | Some c, Some s, Some d =>
      Some {| a_id := new_id; a_adjustment_number := number;
              a_product_id := p; a_warehouse_id := w;
              a_counted_quantity := c;
              a_system_quantity := s;
              a_difference := d;
              a_reason := f_reason f;
              a_status := draft; a_validated_at := None |}
  | _, _, _ => None
  end.

Definition insert_adjustment (new_id : uuid) (number : string) (ui : Ui) (f : Form)
    (st : Store) : string + Store :=
  match selectedProduct ui, selectedWarehouse ui, user with
  | Some p, Some w, Some _ =>
      match new_row new_id number p w ui f with
      | None => inl not_null_violation
      | Some row =>
          match stock_adjustments st !! new_id with
          | Some _ => inl duplicate_key
          | None =>
              inr (set_stock_adjustments (<[new_id := row]> (stock_adjustments st)) st)
          end
      end
  | _, _, _ => inl not_null_violation
  end.

Definition handleSubmit (new_id : uuid) (epoch_ms : string) (ui : Ui) (f : Form)
    (st : Store) : Store * Ui * Toast :=
  let adjustmentNumber := "ADJ-" +:+ epoch_ms in
  match insert_adjustment new_id adjustmentNumber ui f st with
  | inl message => (st, ui, toast_error message)
  | inr st1 => (st1, initial_ui, toast_success "Adjustment created successfully")
  end.

Definition mark_done (now : string) (a : Adjustment) : Adjustment :=
  {| a_id := a_id a; a_adjustment_number := a_adjustment_number a;
     a_product_id := a_product_id a; a_warehouse_id := a_warehouse_id a;
     a_counted_quantity := a_counted_quantity a;
     a_system_quantity := a_system_quantity a;
     a_difference := a_difference a; a_reason := a_reason a;
     a_status := done; a_validated_at := Some now |}.

Definition movement_of (adj : Adjustment) : StockMovement :=
  {| mv_product_id := a_product_id adj;
     mv_warehouse_id := a_warehouse_id adj;
     mv_movement_type := mt_adjustment;
     mv_quantity := a_difference adj;
     mv_reference_id := a_id adj;
     mv_reference_type := "adjustment";
     mv_notes := Some (a_reason adj);
     mv_created_by := user |}.

Definition handleValidateAdjustment (now : string) (adj : Adjustment) (st : Store)
    : Store * Toast :=
  let key := (a_product_id adj, a_warehouse_id adj) in
  let st1 :=
    match stock_levels st !! key with
    | Some existing => write_stock_level key (a_counted_quantity adj) st
    | None => write_stock_level key (a_counted_quantity adj) st
    end in
  let st2 := insert_movements [movement_of adj] st1 in
  let st3 :=
    set_stock_adjustments
      (alter (mark_done now) (a_id adj) (stock_adjustments st2)) st2 in
  (st3, toast_success "Adjustment validated and stock updated").

Definition row_action (now : string) (adj : Adjustment) : option (Store → Store * Toast) :=
  if decide (a_status adj ≠ done) then Some (handleValidateAdjustment now adj) else None.

End WithSession.
End Adjustments.

(** A click in the Actions cell of a row. *)
Definition click (action : option (Store → Store * Toast)) (st : Store)
    : Store * option Toast :=
  match action with
  | Some handler => let '(st1, t) := handler st in (st1, Some t)
  | None => (st, None)
  end.

(** ** What a balance amounts to

    The balance of a pair once a quantity has come in: JavaScript's sum
    of the two numbers when the pair had a row (the row stays as it was
    when the sum is not a finite number, which the column refuses), the
    quantity itself when it had none. *)
Definition credited (level : option float) (q : float) : option float :=
  match level with
  | Some existing => Some (default existing (decimal (existing + q)%float))
  | None => decimal q
  end.

(** The balance of a row once a quantity has gone out: JavaScript's
    difference of the two numbers (the row stays as it was when the
    difference is not a finite number). *)
Definition debited (existing q : float) : float :=
  default existing (decimal (existing - q)%float).

(** The lines of one product posted in their order. *)
Definition received (productId : uuid) (lines : list ReceiptLine) (level : option float)
    : option float :=
  foldl credited level (rl_quantity <$> filter (λ l, rl_product_id l = productId) lines).

Definition delivered (productId : uuid) (lines : list DeliveryLine) (level : option float)
    : option float :=
  foldl (λ lv q, (λ existing, debited existing q) <$> lv) level
        (dl_quantity <$> filter (λ l, dl_product_id l = productId) lines).

(** ** Sequences of validations *)

Inductive Op :=
  | validate_receipt (now : string) (rcp : Receipt)
  | validate_delivery (now : string) (dlv : Delivery)
  | validate_transfer (now : string) (trf : Transfer)
  | validate_adjustment (now : string) (adj : Adjustment).

Definition step (user : option uuid) (st : Store) (op : Op) : Store :=
  match op with
  | validate_receipt now rcp => fst (Receipts.handleValidateReceipt user now rcp st)
  | validate_delivery now dlv => fst (Deliveries.handleValidateDelivery user now dlv st)
  | validate_transfer now trf => fst (Transfers.handleValidateTransfer user now trf st)
  | validate_adjustment now adj => fst (Adjustments.handleValidateAdjustment user now adj st)
  end.

Definition run (user : option uuid) (ops : list Op) (st : Store) : Store :=
  foldl (step user) st ops.

(** ** Whole quantities

    The whole number a binary64 number is, when it is one of magnitude
    at most 2^53.  [JSON.stringify] writes such a number with all its
    digits, so the column holds that very integer; sums of such numbers
    can be compared with the sums of arithmetic. *)
Definition as_whole (x : float) : option Z :=
  match Prim2SF x with
  | S754_zero _ => Some 0
  | S754_finite s m e =>
      let n := if 0 <=? e then Z.pos m * 2 ^ e else Z.pos m / 2 ^ (- e) in
      let whole := if 0 <=? e then true else Z.pos m mod 2 ^ (- e) =? 0 in
      if whole && (n <=? 2 ^ 53) then Some (if s then - n else n) else None
  | _ => None
  end.

Definition whole_value (x : float) : Z := default 0 (as_whole x).

(** The column receives for [r] a whole number, and it is [n]. *)
Definition exactly (r : float) (n : Z) : bool :=
  match decimal r with
  | Some v => bool_decide (as_whole v = Some n)
  | None => false
  end.

(** The quantity on hand of a pair; a pair without a row holds nothing. *)
Definition on_hand (st : Store) (key : uuid * uuid) : Z :=
  match stock_levels st !! key with
  | Some q => whole_value q
  | None => 0
  end.

(** The sum of the signed quantities the ledger records for a pair. *)
Definition ledger_sum (ms : list StockMovement) (key : uuid * uuid) : Z :=
  foldr (λ m acc,
           (if decide ((mv_product_id m, mv_warehouse_id m) = key)
            then whole_value (mv_quantity m) else 0) + acc)
        0 ms.

(** Every balance and every movement is a whole number. *)
Definition whole_store (st : Store) : Prop :=
  map_Forall (λ _ q, is_Some (as_whole q)) (stock_levels st)
  ∧ Forall (λ m, is_Some (as_whole (mv_quantity m))) (stock_movements st).

(** Ledger and balances agree. *)
Definition reconciled (st : Store) : Prop :=
  whole_store st ∧ ∀ key, ledger_sum (stock_movements st) key = on_hand st key.

(** A store with no movement and nothing on hand. *)
Definition pristine (st : Store) : Prop :=
  stock_movements st = [] ∧ ∀ key q, stock_levels st !! key = Some q → q = 0%float.

(** *** Runs without rounding

    One iteration of the receipt loop computes in whole numbers: the
    line's quantity is a whole number and so is the sum written, which
    is the sum of arithmetic. *)
Definition receipt_line_exact (rcp : Receipt) (st : Store) (line : ReceiptLine) : bool :=
  let q := rl_quantity line in
  exactly q (whole_value q)
  && match stock_levels st !! (rl_product_id line, r_warehouse_id rcp) with
     | Some existing => exactly (existing + q)%float (whole_value existing + whole_value q)
     | None => true
     end.

Fixpoint receipt_exact (user : option uuid) (rcp : Receipt) (lines : list ReceiptLine)
    (st : Store) : bool :=
  match lines with
  | [] => true
  | line :: rest =>
      receipt_line_exact rcp st line
      && receipt_exact user rcp rest (Receipts.post_line user rcp st line)
  end.

(** One iteration of the delivery loop, when it writes. *)
Definition delivery_line_exact (dlv : Delivery) (st : Store) (line : DeliveryLine) : bool :=
  let q := dl_quantity line in
  match stock_levels st !! (dl_product_id line, d_warehouse_id dlv) with
  | None => true
  | Some existing =>
      if (existing <? q)%float then true
      else exactly (- q)%float (- whole_value q)
           && exactly (existing - q)%float (whole_value existing - whole_value q)
  end.

Fixpoint delivery_exact (user : option uuid) (dlv : Delivery) (lines : list DeliveryLine)
    (st : Store) : bool :=
  match lines with
  | [] => true
  | line :: rest =>
      delivery_line_exact dlv st line
      && match Deliveries.post_line user dlv st line with
         | Some st1 => delivery_exact user dlv rest st1
         | None => true
         end
  end.

(** The transfer handler, when it writes. *)
Definition transfer_exact (trf : Transfer) (st : Store) : bool :=
  let src := (t_product_id trf, t_source_warehouse_id trf) in
  let dst := (t_product_id trf, t_destination_warehouse_id trf) in
  let q := t_quantity trf in
  match stock_levels st !! src with
  | None => true
  | Some sourceStock =>
      if (sourceStock <? q)%float then true
      else
        exactly q (whole_value q)
        && exactly (- q)%float (- whole_value q)
        && exactly (sourceStock - q)%float (whole_value sourceStock - whole_value q)
        && match stock_levels (write_stock_level src (sourceStock - q)%float st) !! dst with
           | Some destStock =>
               exactly (destStock + q)%float (whole_value destStock + whole_value q)
           | None => true
           end
  end.

(** An adjustment is validated while current: the difference it carries
    is the counted quantity minus what the pair holds now. *)
Definition adjustment_current (adj : Adjustment) (st : Store) : bool :=
  exactly (a_difference adj)
    (whole_value (a_counted_quantity adj)
     - on_hand st (a_product_id adj, a_warehouse_id adj)).

Definition adjustment_exact (adj : Adjustment) (st : Store) : bool :=
  exactly (a_counted_quantity adj) (whole_value (a_counted_quantity adj))
  && adjustment_current adj st.

Definition exact_step (user : option uuid) (st : Store) (op : Op) : bool :=
  match op with
  | validate_receipt _ rcp =>
      receipt_exact user rcp (default [] (Receipts.select_lines (r_id rcp) st)) st
  | validate_delivery _ dlv =>
      delivery_exact user dlv (default [] (Deliveries.select_lines (d_id dlv) st)) st
  | validate_transfer _ trf => transfer_exact trf st
  | validate_adjustment _ adj => adjustment_exact adj st
  end.

(** Along a run, every quantity read and written is a whole number of
    magnitude at most 2^53, every sum and difference the handlers form
    is the sum or difference of arithmetic, and every adjustment is
    validated while current. *)
Fixpoint exact_run (user : option uuid) (ops : list Op) (st : Store) : bool :=
  match ops with
  | [] => true
  | op :: rest => exact_step user st op && exact_run user rest (step user st op)
  end.

(** ** A session at the pages *)

Inductive Action :=
  | submit_receipt (new_id : uuid) (epoch_ms : string) (f : Receipts.Form)
      (selectedProducts : list SelectedProduct) (linesError : option string)
  | submit_delivery (new_id : uuid) (epoch_ms : string) (f : Deliveries.Form)
      (selectedProducts : list SelectedProduct) (linesError : option string)
  | submit_transfer (new_id : uuid) (epoch_ms : string) (f : Transfers.Form)
  | submit_adjustment (new_id : uuid) (epoch_ms : string)
      (productId warehouseId : uuid) (f : Adjustments.Form)
  | click_receipt (now : string) (id : uuid)
  | click_delivery (now : string) (id : uuid)
  | click_transfer (now : string) (id : uuid)
  | click_adjustment (now : string) (id : uuid).

Definition perform (user : option uuid) (st : Store) (a : Action) : Store :=
  match a with
  | submit_receipt new_id epoch_ms f selectedProducts linesError =>
      fst (Receipts.handleSubmit user new_id epoch_ms f selectedProducts linesError st)
  | submit_delivery new_id epoch_ms f selectedProducts linesError =>
      fst (Deliveries.handleSubmit user new_id epoch_ms f selectedProducts linesError st)
  | submit_transfer new_id epoch_ms f =>
      fst (Transfers.handleSubmit user new_id epoch_ms f st)
  | submit_adjustment new_id epoch_ms productId warehouseId f =>
      let ui := Adjustments.select_pair productId warehouseId st Adjustments.initial_ui in
      (Adjustments.handleSubmit user new_id epoch_ms ui f st).1.1
  | click_receipt now id =>
      match receipts st !! id with
      | Some rcp => fst (click (Receipts.row_action user now rcp) st)
      | None => st
      end
  | click_delivery now id =>
      match deliveries st !! id with
      | Some dlv => fst (click (Deliveries.row_action user now dlv) st)
      | None => st
      end
  | click_transfer now id =>
      match internal_transfers st !! id with
      | Some trf => fst (click (Transfers.row_action user now trf) st)
      | None => st
      end
  | click_adjustment now id =>
      match stock_adjustments st !! id with
      | Some adj => fst (click (Adjustments.row_action user now adj) st)
      | None => st
      end
  end.

Definition session (user : option uuid) (actions : list Action) (st : Store) : Store :=
  foldl (perform user) st actions.

(** ** Worked scenarios

    The adjustment form filled for a pair with the count [q]. *)
Definition enter_count (new_id : uuid) (p w : uuid) (q : float) : Action :=
  submit_adjustment new_id "1763783598000" p w
    {| Adjustments.f_counted_quantity := q; Adjustments.f_reason := "count" |}.

(** Counting [q] of a product in a warehouse: the form is submitted and
    the draft is validated at once. *)
Definition count (new_id : uuid) (p w : uuid) (q : float) : list Action :=
  [ enter_count new_id p w q; click_adjustment "2025-11-22T03:53:18.000Z" new_id ].

(** The receipt form filled with one entry. *)
Definition enter_receipt (new_id : uuid) (p w : uuid) (q : float) : Action :=
  submit_receipt new_id "1763783598001"
    {| Receipts.f_supplier_name := "Acme"; Receipts.f_warehouse_id := Some w;
       Receipts.f_notes := "none" |}
    [ {| productId := Some p; quantity := q |} ] None.

(** Receiving [q] of a product in a warehouse. *)
Definition receive (new_id : uuid) (p w : uuid) (q : float) : list Action :=
  [ enter_receipt new_id p w q; click_receipt "2025-11-22T03:53:19.000Z" new_id ].

(** The transfer form filled. *)
Definition enter_transfer (new_id : uuid) (p source dest : uuid) (q : float) : Action :=
  submit_transfer new_id "1763783598002"
    {| Transfers.f_source_warehouse_id := Some source;
       Transfers.f_destination_warehouse_id := Some dest;
       Transfers.f_product_id := Some p;
       Transfers.f_quantity := q;
       Transfers.f_notes := "restock" |}.

(** Moving [q] of a product from one warehouse to another. *)
Definition move (new_id : uuid) (p source dest : uuid) (q : float) : list Action :=
  [ enter_transfer new_id p source dest q;
    click_transfer "2025-11-22T03:53:20.000Z" new_id ].

(** The drafts of the first scenario: a receipt of 10 and a delivery of
    4 of [X1] at [WH_MAIN], and a transfer of 6 to [WH_SEC]; nothing on
    hand yet. *)
Definition trf1 : Transfer :=
  {| t_id := 40%N; t_transfer_number := "TRF-1";
     t_source_warehouse_id := WH_MAIN; t_destination_warehouse_id := WH_SEC;
     t_product_id := X1; t_quantity := 6%float;
     t_status := draft; t_validated_at := None |}.

Definition scenario0 : Store :=
  {| stock_levels := ∅; stock_movements := [];
     receipts := {[ 20%N := rcp1 ]};
     receipt_lines :=
       [ {| rl_receipt_id := 20%N; rl_product_id := X1; rl_quantity := 10%float |} ];
     deliveries := {[ 30%N := dlv1 ]};
     delivery_lines :=
       [ {| dl_delivery_id := 30%N; dl_product_id := X1; dl_quantity := 4%float |} ];
     internal_transfers := {[ 40%N := trf1 ]};
     stock_adjustments := ∅ |}.

(** ** Dashboard.tsx

    The pending-receipts counter of [loadDashboardData]:
    [from("receipts").select("*", { count: "exact", head: true })
       .in("status", ["draft", "waiting", "ready"])], then [count || 0]. *)
Definition pendingReceipts (st : Store) : Z :=
  Z.of_nat (size (filter (λ kv, DashboardStats.pending (r_status kv.2)) (receipts st))).

End F64.

(** * Properties *)

(** ** Documents without lines *)

(** C8. A receipt or a delivery whose lines query answers nothing
    ([null] or the empty array) is rejected with an error notification
    and the store is returned as it was: the document keeps its status,
    no balance and no movement is written. *)
Theorem validation_without_lines_rejected
    (user : option uuid) (now : string) (st : Store)
    (rcp : Receipt) (rlines : option (list ReceiptLine))
    (dlv : Delivery) (dlines : option (list DeliveryLine)) :
  rlines = None ∨ rlines = Some [] →
  dlines = None ∨ dlines = Some [] →
  Receipts.validate_with user rlines now rcp st
    = (st, toast_error "Cannot validate receipt without products")
  ∧ Deliveries.validate_with user dlines now dlv st
    = (st, toast_error "Cannot validate delivery without products").
Proof.
  intros [-> | ->] [-> | ->]; split; reflexivity.
Qed.

(** The handlers of two drafts that have no line in [scenario0]. *)
Lemma validation_without_lines_rejected_witness :
  let rcp := {| r_id := 21%N; r_receipt_number := "RCP-2"; r_supplier_name := "Acme";
                r_warehouse_id := WH_MAIN; r_status := draft; r_validated_at := None |} in
  let dlv := {| d_id := 31%N; d_delivery_number := "DEL-2"; d_customer_name := "Bob";
                d_warehouse_id := WH_MAIN; d_status := draft; d_validated_at := None |} in
  Receipts.handleValidateReceipt alice "t" rcp scenario0
    = (scenario0, toast_error "Cannot validate receipt without products")
  ∧ Deliveries.handleValidateDelivery alice "t" dlv scenario0
    = (scenario0, toast_error "Cannot validate delivery without products").
Proof.
  intros rcp dlv.
  exact (validation_without_lines_rejected alice "t" scenario0
           rcp (Some []) dlv (Some []) (or_intror eq_refl) (or_intror eq_refl)).
Defined.

(** ** Creating a transfer *)

(** C10. A transfer form whose source and destination warehouse are the
    same is rejected with an error and nothing is inserted. *)
Theorem same_warehouse_transfer_rejected
    (user : option uuid) (new_id : uuid) (epoch_ms : string)
    (f : Transfers.Form) (st : Store) :
  Transfers.f_source_warehouse_id f = Transfers.f_destination_warehouse_id f →
  Transfers.handleSubmit user new_id epoch_ms f st
  = (st, toast_error "Source and destination warehouses must be different").
Proof.
  intros Heq. unfold Transfers.handleSubmit.
  destruct (decide _) as [_ | Hne]; [reflexivity | contradiction].
Qed.

Lemma same_warehouse_transfer_rejected_witness :
  let f := {| Transfers.f_source_warehouse_id := Some WH_MAIN;
              Transfers.f_destination_warehouse_id := Some WH_MAIN;
              Transfers.f_product_id := Some X1;
              Transfers.f_quantity := 3;
              Transfers.f_notes := "restock" |} in
  Transfers.handleSubmit alice 41%N "1763783598000" f scenario0
  = (scenario0, toast_error "Source and destination warehouses must be different").
Proof.
  intros f.
  apply (same_warehouse_transfer_rejected alice 41%N "1763783598000" f scenario0).
  reflexivity.
Defined.

(** With two different warehouses the same form is stored as a draft. *)
Example different_warehouse_transfer_created :
  let f := {| Transfers.f_source_warehouse_id := Some WH_MAIN;
              Transfers.f_destination_warehouse_id := Some WH_SEC;
              Transfers.f_product_id := Some X1;
              Transfers.f_quantity := 3;
              Transfers.f_notes := "restock" |} in
  let '(st, t) := Transfers.handleSubmit alice 41%N "1763783598000" f scenario0 in
  t = toast_success "Transfer created successfully"
  ∧ t_status <$> internal_transfers st !! 41%N = Some draft
  ∧ t_transfer_number <$> internal_transfers st !! 41%N = Some "TRF-1763783598000".
Proof. vm_compute. done. Qed.

(** ** Documents already done *)

(** C2, as the handlers behave.  A receipt that is [done] and is handed
    to [handleValidateReceipt] again is posted a second time: the balance
    grows again and a second movement is appended. *)
Lemma done_receipt_posted_again :
  let st1 := fst (Receipts.handleValidateReceipt alice "t1" rcp1 scenario0) in
  let done1 := Receipts.mark_done "t1" rcp1 in
  let '(st2, t) := Receipts.handleValidateReceipt alice "t2" done1 st1 in
  receipts st1 !! r_id rcp1 = Some done1
  ∧ r_status done1 = done
  ∧ t = toast_success "Receipt validated and stock updated"
  ∧ balance st1 (X1, WH_MAIN) = 10
  ∧ balance st2 (X1, WH_MAIN) = 20
  ∧ length (stock_movements st1) = 1%nat
  ∧ length (stock_movements st2) = 2%nat.
Proof. vm_compute. done. Qed.

(** C2, amended.  What keeps a [done] document from being validated
    again is the list view: for a receipt, delivery, transfer or
    adjustment whose status is [done] no Validate button is rendered, so
    a click in its Actions cell reaches no handler; the store is
    unchanged and nothing is notified.  The handlers themselves do not
    look at the status. *)
Theorem done_documents_offer_no_validation
    (user : option uuid) (now : string) (st : Store)
    (rcp : Receipt) (dlv : Delivery) (trf : Transfer) (adj : Adjustment) :
  r_status rcp = done → d_status dlv = done →
  t_status trf = done → a_status adj = done →
  click (Receipts.row_action user now rcp) st = (st, None)
  ∧ click (Deliveries.row_action user now dlv) st = (st, None)
  ∧ click (Transfers.row_action user now trf) st = (st, None)
  ∧ click (Adjustments.row_action user now adj) st = (st, None).
Proof.
  intros Hr Hd Ht Ha.
  unfold Receipts.row_action, Deliveries.row_action,
    Transfers.row_action, Adjustments.row_action.
  rewrite Hr, Hd, Ht, Ha.
  repeat split; reflexivity.
Qed.

Lemma done_documents_offer_no_validation_witness :
  let st := fst (Receipts.handleValidateReceipt alice "t1" rcp1 scenario0) in
  click (Receipts.row_action alice "t2" (Receipts.mark_done "t1" rcp1)) st = (st, None)
  ∧ click (Deliveries.row_action alice "t2" (Deliveries.mark_done "t1" dlv1)) st = (st, None)
  ∧ click (Transfers.row_action alice "t2" (Transfers.mark_done "t1" trf1)) st = (st, None)
  ∧ click (Adjustments.row_action alice "t2"
             (Adjustments.mark_done "t1"
                (Adjustments.new_row 50%N "ADJ-1" X1 WH_MAIN Adjustments.initial_ui
                   {| Adjustments.f_counted_quantity := 2;
                      Adjustments.f_reason := "count" |}))) st
    = (st, None).
Proof.
  intros st.
  apply (done_documents_offer_no_validation alice "t2" st); reflexivity.
Defined.

(** ** Receipts *)

Section ReceiptPosting.

Variable user : option uuid.
Variable rcp : Receipt.

Lemma post_line_movements st line :
  stock_movements (Receipts.post_line user rcp st line)
  = stock_movements st ++ [Receipts.movement_of user rcp line].
Proof.
  unfold Receipts.post_line.
  destruct (stock_levels st !! _); reflexivity.
Qed.

Lemma post_line_receipts st line :
  receipts (Receipts.post_line user rcp st line) = receipts st.
Proof.
  unfold Receipts.post_line.
  destruct (stock_levels st !! _); reflexivity.
Qed.

Lemma post_lines_movements ls st :
  stock_movements (foldl (Receipts.post_line user rcp) st ls)
  = stock_movements st ++ (Receipts.movement_of user rcp <$> ls).
Proof.
  revert st. induction ls as [|line ls IH]; intros st; simpl.
  - by rewrite app_nil_r.
  - rewrite IH, post_line_movements, <- app_assoc. reflexivity.
Qed.

Lemma post_lines_receipts ls st :
  receipts (foldl (Receipts.post_line user rcp) st ls) = receipts st.
Proof.
  revert st. induction ls as [|line ls IH]; intros st; simpl; [done|].
  by rewrite IH, post_line_receipts.
Qed.

End ReceiptPosting.

(** ** Low stock *)

Lemma getProductStock_from acc rows p :
  foldl (λ sum sl, sum + sl_quantity sl) acc
        (filter (λ sl, sl_product_id sl = p) rows)
  = acc + total_balance rows p.
Proof.
  revert acc. induction rows as [|sl rows IH]; intros acc; simpl; [lia|].
  rewrite filter_cons. destruct (decide (sl_product_id sl = p)); simpl.
  - rewrite IH. lia.
  - rewrite IH. lia.
Qed.

(** The Products page totals a product as the specification does. *)
Lemma getProductStock_total rows p :
  Products.getProductStock rows p = total_balance rows p.
Proof. unfold Products.getProductStock. by rewrite getProductStock_from. Qed.

Lemma or_zero_Some v : Dashboard.or_zero (Some v) = v.
Proof. simpl. destruct (v =? 0) eqn:E; [apply Z.eqb_eq in E; lia | reflexivity]. Qed.

Lemma stockMap_from rows (m : gmap uuid Z) p :
  Dashboard.or_zero
    (foldl (λ (m : gmap uuid Z) sl,
              <[sl_product_id sl
                := Dashboard.or_zero (m !! sl_product_id sl) + sl_quantity sl]> m)
           m rows !! p)
  = Dashboard.or_zero (m !! p) + total_balance rows p.
Proof.
  revert m. induction rows as [|sl rows IH]; intros m; [simpl; lia|].
  cbn [foldl total_balance]. rewrite IH.
  destruct (decide (sl_product_id sl = p)) as [<- | Hne].
  - rewrite lookup_insert_eq, or_zero_Some. lia.
  - rewrite lookup_insert_ne by done. lia.
Qed.

(** The dashboard's map holds, for a product, the same total. *)
Lemma stockMap_total rows p :
  Dashboard.or_zero (Dashboard.stockMap (Some rows) !! p) = total_balance rows p.
Proof.
  unfold Dashboard.stockMap. rewrite stockMap_from, lookup_empty. simpl. lia.
Qed.

Lemma lowStockCount_from (m : gmap uuid Z) rows products count :
  (∀ p, Dashboard.or_zero (m !! p) = total_balance rows p) →
  foldl (λ count product,
           if Dashboard.or_zero (m !! p_id product) <=? p_reorder_level product
           then count + 1 else count)
        count products
  = count + Z.of_nat (length (filter (low_stock rows) products)).
Proof.
  intros Hm. revert count.
  induction products as [|product products IH]; intros count; simpl; [lia|].
  rewrite IH, Hm, filter_cons. unfold low_stock at 2.
  destruct (Z.leb_spec (total_balance rows (p_id product)) (p_reorder_level product));
    destruct (decide _); simpl; lia.
Qed.

(** The rule on the two pages that follow it.  On the Products page a
    product is flagged low on stock exactly when the sum of its StockLevel
    quantities over all warehouses is at most its reorder level, and the
    low-stock counter of Dashboard.tsx is the number of products for which
    that same rule holds. *)
Theorem low_stock_rule
    (rows : list StockLevel) (products : list Product) (product : Product) :
  Products.isLowStock rows product = bool_decide (low_stock rows product)
  ∧ Dashboard.lowStockCount (Some products) (Some rows)
    = Z.of_nat (length (filter (low_stock rows) products)).
Proof.
  split.
  - unfold Products.isLowStock, low_stock. rewrite getProductStock_total.
    destruct (Z.leb_spec (total_balance rows (p_id product)) (p_reorder_level product)).
    + by rewrite bool_decide_eq_true_2.
    + rewrite bool_decide_eq_false_2; [done | lia].
  - unfold Dashboard.lowStockCount.
    rewrite (lowStockCount_from _ rows); [lia|].
    intros p. apply stockMap_total.
Qed.

(** Three products against the same rows: one below its reorder level
    in total over two warehouses, one exactly at it, one above it. *)
Example low_stock_sample :
  let rows := [ {| sl_product_id := X1; sl_warehouse_id := WH_MAIN; sl_quantity := 3 |};
                {| sl_product_id := X2; sl_warehouse_id := WH_MAIN; sl_quantity := 10 |};
                {| sl_product_id := X1; sl_warehouse_id := WH_SEC; sl_quantity := 4 |};
                {| sl_product_id := 3%N; sl_warehouse_id := WH_SEC; sl_quantity := 11 |} ] in
  let mk id lvl := {| p_id := id; p_name := "item"; p_sku := "sku"; p_reorder_level := lvl |} in
  Products.getProductStock rows X1 = 7
  ∧ Products.isLowStock rows (mk X1 10) = true
  ∧ Products.isLowStock rows (mk X2 10) = true
  ∧ Products.isLowStock rows (mk 3%N 10) = false
  ∧ Dashboard.lowStockCount (Some [mk X1 10; mk X2 10; mk 3%N 10]) (Some rows) = 2.
Proof. vm_compute. done. Qed.


(** ** The scenario of the specification, step by step *)

Example scenario_balances :
  let adj := Adjustments.new_row 50%N "ADJ-1" X1 WH_SEC
               {| Adjustments.selectedProduct := Some X1;
                  Adjustments.selectedWarehouse := Some WH_SEC;
                  Adjustments.systemQty := 6 |}
               {| Adjustments.f_counted_quantity := 2;
                  Adjustments.f_reason := "count" |} in
  let s1 := run alice [validate_receipt "t1" rcp1] scenario0 in
  let s2 := run alice [validate_delivery "t2" dlv1] s1 in
  let s3 := run alice [validate_transfer "t3" trf1] s2 in
  let s4 := run alice [validate_adjustment "t4" adj] s3 in
  balance s1 (X1, WH_MAIN) = 10
  ∧ balance s2 (X1, WH_MAIN) = 6
  ∧ balance s3 (X1, WH_MAIN) = 0 ∧ balance s3 (X1, WH_SEC) = 6
  ∧ balance s4 (X1, WH_SEC) = 2
  ∧ (λ m, (mv_movement_type m, mv_quantity m)) <$> stock_movements s4
    = [(mt_receipt, 10); (mt_delivery, -4); (mt_transfer_out, -6);
       (mt_transfer_in, 6); (mt_adjustment, -4)].
Proof. vm_compute. done. Qed.

(** ** Deliveries short of stock *)

(** C1, where the code departs from it.  A delivery of 3 of [X1] and 4 of
    [X2] from a warehouse holding 10 of [X1] and no [X2]: the first line
    is posted before the second is found short.  The failure is reported
    and the delivery stays a draft, but the balance of [X1] has gone from
    10 to 7 and a movement of -3 is in the ledger. *)
Theorem delivery_rejected_after_partial_posting :
  let dlv := {| d_id := 32%N; d_delivery_number := "DEL-3"; d_customer_name := "Bob";
                d_warehouse_id := WH_MAIN; d_status := draft; d_validated_at := None |} in
  let st :=
    {| stock_levels := {[ (X1, WH_MAIN) := 10 ]}; stock_movements := [];
       receipts := ∅; receipt_lines := [];
       deliveries := {[ 32%N := dlv ]};
       delivery_lines :=
         [ {| dl_delivery_id := 32%N; dl_product_id := X1; dl_quantity := 3 |};
           {| dl_delivery_id := 32%N; dl_product_id := X2; dl_quantity := 4 |} ];
       internal_transfers := ∅; stock_adjustments := ∅ |} in
  let '(st', t) := Deliveries.handleValidateDelivery alice "t" dlv st in
  stock_levels st !! (X2, WH_MAIN) = None
  ∧ t = toast_error "Insufficient stock for this delivery"
  ∧ deliveries st' !! 32%N = Some dlv
  ∧ stock_levels st !! (X1, WH_MAIN) = Some 10
  ∧ stock_levels st' !! (X1, WH_MAIN) = Some 7
  ∧ (λ m, (mv_product_id m, mv_movement_type m, mv_quantity m)) <$> stock_movements st'
    = [(X1, mt_delivery, -3)].
Proof. vm_compute. done. Qed.

(** ** Negative quantities *)

(** C6, where the code departs from it.  The adjustment form takes any
    number as counted quantity; a count of -5 is stored and validated,
    and the pair then holds -5. *)
Theorem adjustment_sets_negative_quantity :
  let ui := Adjustments.select_pair X1 WH_MAIN empty_store Adjustments.initial_ui in
  let f := {| Adjustments.f_counted_quantity := -5; Adjustments.f_reason := "count" |} in
  let '(st0, _, t0) := Adjustments.handleSubmit alice 50%N "1763783598000" ui f empty_store in
  let adj := Adjustments.new_row 50%N "ADJ-1763783598000" X1 WH_MAIN ui f in
  let '(st1, t1) := Adjustments.handleValidateAdjustment alice "t" adj st0 in
  t0 = toast_success "Adjustment created successfully"
  ∧ stock_adjustments st0 !! 50%N = Some adj
  ∧ stock_levels st0 = ∅
  ∧ t1 = toast_success "Adjustment validated and stock updated"
  ∧ stock_levels st1 !! (X1, WH_MAIN) = Some (-5)
  ∧ ¬ non_negative st1.
Proof.
  vm_compute. repeat split; try reflexivity.
  intros H. specialize (H (X1, WH_MAIN) (-5) eq_refl). apply H. reflexivity.
Qed.

(** The other three validations keep quantities non-negative: the
    delivery and the transfer by their stock check, the receipt because
    its lines carry positive quantities (the creation form keeps only
    lines with [quantity > 0]), and the transfer's destination because the
    creation form asks for a quantity of at least 1. *)

Lemma non_negative_write key q st :
  non_negative st → 0 ≤ q → non_negative (write_stock_level key q st).
Proof.
  intros Hnn Hq k v. simpl. rewrite lookup_insert.
  destruct (decide (key = k)); [intros [= <-]; done | apply Hnn].
Qed.

Lemma non_negative_same_stock st st' :
  stock_levels st' = stock_levels st → non_negative st → non_negative st'.
Proof. intros Hl Hnn k v. rewrite Hl. apply Hnn. Qed.

Lemma non_negative_receipt user now rcp st :
  non_negative st →
  (∀ line, line ∈ receipt_lines st → 0 ≤ rl_quantity line) →
  non_negative (fst (Receipts.handleValidateReceipt user now rcp st)).
Proof.
  intros Hnn Hpos. unfold Receipts.handleValidateReceipt, Receipts.select_lines.
  assert (Hls : ∀ line, line ∈ filter (λ l, rl_receipt_id l = r_id rcp) (receipt_lines st)
                        → 0 ≤ rl_quantity line).
  { intros line Hin. apply list_elem_of_filter in Hin as [_ Hin]. by apply Hpos. }
  destruct (filter _ _) as [|l0 ls0]; [exact Hnn|].
  unfold Receipts.validate_with. cbn [fst].
  apply (non_negative_same_stock (foldl (Receipts.post_line user rcp) st (l0 :: ls0)));
    [reflexivity|].
  revert Hls. generalize (l0 :: ls0). clear l0 ls0 Hpos. intros ls.
  revert st Hnn. induction ls as [|l ls IH]; intros st Hnn Hls; simpl; [done|].
  apply IH; [|intros line Hin; apply Hls; by right].
  assert (0 ≤ rl_quantity l) by (apply Hls; by left).
  unfold Receipts.post_line.
  destruct (stock_levels st !! _) as [existing|] eqn:E;
    (eapply non_negative_same_stock; [reflexivity|]);
    apply non_negative_write; try done.
  pose proof (Hnn _ _ E). lia.
Qed.

Lemma non_negative_delivery_lines user dlv ls st :
  non_negative st →
  match Deliveries.post_lines user dlv ls st with
  | inl st' | inr st' => non_negative st'
  end.
Proof.
  revert st. induction ls as [|line ls IH]; intros st Hnn; simpl; [done|].
  destruct (stock_levels st !! _) as [existing|] eqn:E; [|done].
  destruct (Z.ltb_spec existing (dl_quantity line)); [done|].
  apply IH. eapply non_negative_same_stock; [reflexivity|].
  apply non_negative_write; [done|].
  pose proof (Hnn _ _ E). lia.
Qed.

Lemma non_negative_delivery user now dlv st :
  non_negative st →
  non_negative (fst (Deliveries.handleValidateDelivery user now dlv st)).
Proof.
  intros Hnn. unfold Deliveries.handleValidateDelivery, Deliveries.select_lines.
  destruct (filter _ _) as [|l0 ls0]; [exact Hnn|].
  unfold Deliveries.validate_with.
  pose proof (non_negative_delivery_lines user dlv (l0 :: ls0) st Hnn) as H.
  destruct (Deliveries.post_lines user dlv (l0 :: ls0) st) as [st1 | st1]; cbn [fst];
    [exact H|].
  by apply (non_negative_same_stock st1).
Qed.

Lemma non_negative_transfer user now trf st :
  non_negative st → 0 ≤ t_quantity trf →
  non_negative (fst (Transfers.handleValidateTransfer user now trf st)).
Proof.
  intros Hnn Hq. unfold Transfers.handleValidateTransfer. cbv zeta.
  destruct (stock_levels st !! _) as [sourceStock|] eqn:Esrc; [|exact Hnn].
  destruct (Z.ltb_spec sourceStock (t_quantity trf)); [exact Hnn|].
  cbn [fst].
  set (st1 := write_stock_level _ (sourceStock - t_quantity trf) st).
  assert (Hnn1 : non_negative st1) by (apply non_negative_write; [done | lia]).
  destruct (stock_levels st1 !! _) as [destStock|] eqn:Edst;
    (eapply non_negative_same_stock; [reflexivity|]);
    apply non_negative_write; try done.
  pose proof (Hnn1 _ _ Edst). lia.
Qed.

Lemma non_negative_adjustment user now adj st :
  non_negative st → 0 ≤ a_counted_quantity adj →
  non_negative (fst (Adjustments.handleValidateAdjustment user now adj st)).
Proof.
  intros Hnn Hq. unfold Adjustments.handleValidateAdjustment. cbv zeta. cbn [fst].
  destruct (stock_levels st !! _);
    (eapply non_negative_same_stock; [reflexivity|]);
    by apply non_negative_write.
Qed.

(** The lines the creation forms store carry positive quantities. *)
Lemma receipt_new_lines_positive rid selectedProducts line :
  line ∈ Receipts.new_lines rid selectedProducts → 0 < rl_quantity line.
Proof.
  unfold Receipts.new_lines. intros Hin.
  apply list_elem_of_omap in Hin as (p & _ & Hp).
  destruct (productId p); [|discriminate].
  destruct (Z.ltb_spec 0 (quantity p)); [|discriminate].
  injection Hp as <-. done.
Qed.

Lemma delivery_new_lines_positive did selectedProducts line :
  line ∈ Deliveries.new_lines did selectedProducts → 0 < dl_quantity line.
Proof.
  unfold Deliveries.new_lines. intros Hin.
  apply list_elem_of_omap in Hin as (p & _ & Hp).
  destruct (productId p); [|discriminate].
  destruct (Z.ltb_spec 0 (quantity p)); [|discriminate].
  injection Hp as <-. done.
Qed.

(** ** What the handlers do with a document already done *)

(** The handlers read the identifier, the warehouses, the product and
    the quantities of the document they are handed, never its status: a
    document marked [done] is handled exactly as it was as a draft. *)
Lemma handlers_ignore_done user now earlier st rcp dlv trf adj :
  Receipts.handleValidateReceipt user now (Receipts.mark_done earlier rcp) st
  = Receipts.handleValidateReceipt user now rcp st
  ∧ Deliveries.handleValidateDelivery user now (Deliveries.mark_done earlier dlv) st
    = Deliveries.handleValidateDelivery user now dlv st
  ∧ Transfers.handleValidateTransfer user now (Transfers.mark_done earlier trf) st
    = Transfers.handleValidateTransfer user now trf st
  ∧ Adjustments.handleValidateAdjustment user now (Adjustments.mark_done earlier adj) st
    = Adjustments.handleValidateAdjustment user now adj st.
Proof.
  split; [reflexivity|]. split; [|split; reflexivity].
  unfold Deliveries.handleValidateDelivery, Deliveries.validate_with.
  change (d_id (Deliveries.mark_done earlier dlv)) with (d_id dlv).
  destruct (Deliveries.select_lines (d_id dlv) st) as [[|l0 ls0]|]; try reflexivity.
  assert (Hloop : ∀ ls st0, Deliveries.post_lines user (Deliveries.mark_done earlier dlv) ls st0
                            = Deliveries.post_lines user dlv ls st0).
  { induction ls as [|line ls IH]; intros st0; simpl; [reflexivity|].
    destruct (stock_levels st0 !! _); [|reflexivity].
    destruct (_ <? _); [reflexivity|]. apply IH. }
  rewrite Hloop. reflexivity.
Qed.

(** ** What a delivery short of stock does in general *)

(** When the first line is the short one, nothing has been written. *)
Lemma delivery_short_first_line user now dlv st line rest :
  Deliveries.select_lines (d_id dlv) st = Some (line :: rest) →
  short st (d_warehouse_id dlv) line →
  Deliveries.handleValidateDelivery user now dlv st
  = (st, toast_error "Insufficient stock for this delivery").
Proof.
  intros Hsel Hshort. unfold Deliveries.handleValidateDelivery. rewrite Hsel.
  unfold Deliveries.validate_with, short in *. simpl.
  destruct (stock_levels st !! _) as [existing|]; [|reflexivity].
  destruct (Z.ltb_spec existing (dl_quantity line)); [reflexivity | lia].
Qed.

(** A line that is short stays short while the loop posts other lines of
    non-negative quantity: rows are only ever lowered, never created. *)
Lemma short_after_posting user dlv st line existing l :
  stock_levels st !! (dl_product_id line, d_warehouse_id dlv) = Some existing →
  0 ≤ dl_quantity line →
  short st (d_warehouse_id dlv) l →
  short (insert_movements [Deliveries.movement_of user dlv line]
           (write_stock_level (dl_product_id line, d_warehouse_id dlv)
              (existing - dl_quantity line) st))
        (d_warehouse_id dlv) l.
Proof.
  intros E Hq. unfold short. simpl.
  rewrite lookup_insert.
  destruct (decide _) as [Heq | Hne].
  - injection Heq as Hp. rewrite <- Hp, E. lia.
  - done.
Qed.

Lemma short_line_stops_loop user dlv ls st :
  (∀ l, l ∈ ls → 0 ≤ dl_quantity l) →
  (∃ l, l ∈ ls ∧ short st (d_warehouse_id dlv) l) →
  ∃ st', Deliveries.post_lines user dlv ls st = inl st'.
Proof.
  revert st. induction ls as [|line ls IH]; intros st Hpos (l & Hin & Hshort).
  - by apply elem_of_nil in Hin.
  - simpl.
    destruct (stock_levels st !! (dl_product_id line, d_warehouse_id dlv))
      as [existing|] eqn:E; [|by eexists].
    destruct (Z.ltb_spec existing (dl_quantity line)) as [Hlt | Hge]; [by eexists|].
    apply IH; [intros l' Hl'; apply Hpos; by right|].
    apply elem_of_cons in Hin as [-> | Hin].
    + unfold short in Hshort. rewrite E in Hshort. lia.
    + exists l. split; [done|].
      apply short_after_posting; [done | apply Hpos; by left | done].
Qed.

(** What does hold of a delivery short of stock: when some line of a delivery is short in
    the store as validation finds it (lines carrying non-negative
    quantities, as the creation form stores them), the failure is
    reported and no delivery is marked done. *)
Lemma short_delivery_reports_failure user now dlv st ls :
  Deliveries.select_lines (d_id dlv) st = Some ls →
  (∀ l, l ∈ ls → 0 ≤ dl_quantity l) →
  (∃ l, l ∈ ls ∧ short st (d_warehouse_id dlv) l) →
  snd (Deliveries.handleValidateDelivery user now dlv st)
  = toast_error "Insufficient stock for this delivery"
  ∧ deliveries (fst (Deliveries.handleValidateDelivery user now dlv st)) = deliveries st.
Proof.
  intros Hsel Hpos Hshort.
  unfold Deliveries.handleValidateDelivery. rewrite Hsel.
  destruct (short_line_stops_loop user dlv ls st Hpos Hshort) as [st' Hst'].
  assert (Hd : ∀ ls st st', Deliveries.post_lines user dlv ls st = inl st'
                            → deliveries st' = deliveries st).
  { clear. induction ls as [|line ls IH]; intros st st'; simpl; [discriminate|].
    destruct (stock_levels st !! _); [|by intros [= <-]].
    destruct (_ <? _); [by intros [= <-]|].
    intros H. by rewrite (IH _ _ H). }
  destruct ls as [|l0 ls0].
  - destruct Hshort as (l & Hin & _). by apply elem_of_nil in Hin.
  - unfold Deliveries.validate_with. rewrite Hst'. simpl. split; [done|].
    by apply (Hd _ _ _ Hst').
Qed.

(** * Further properties of the pages *)

(** ** Deliveries: what the loop posts *)

Section DeliveryPosting.

Variable user : option uuid.
Variable dlv : Delivery.

(** The document tables are out of the loop's reach. *)
Lemma delivery_loop_frame ls st :
  match Deliveries.post_lines user dlv ls st with
  | inl st' | inr st' =>
      deliveries st' = deliveries st ∧ delivery_lines st' = delivery_lines st
      ∧ receipts st' = receipts st ∧ receipt_lines st' = receipt_lines st
      ∧ internal_transfers st' = internal_transfers st
      ∧ stock_adjustments st' = stock_adjustments st
  end.
Proof.
  revert st. induction ls as [|line ls IH]; intros st; simpl; [done|].
  destruct (stock_levels st !! _); [|done].
  destruct (_ <? _); [done|].
  match goal with |- match Deliveries.post_lines _ _ _ ?s with _ => _ end =>
    specialize (IH s); destruct (Deliveries.post_lines user dlv ls s) end;
    exact IH.
Qed.

(** A loop that runs to its end has appended one movement per line. *)
Lemma delivery_loop_movements ls st st' :
  Deliveries.post_lines user dlv ls st = inr st' →
  stock_movements st'
  = stock_movements st ++ (Deliveries.movement_of user dlv <$> ls).
Proof.
  revert st. induction ls as [|line ls IH]; intros st; simpl.
  - intros [= <-]. by rewrite app_nil_r.
  - destruct (stock_levels st !! _); [|discriminate].
    destruct (_ <? _); [discriminate|].
    intros H. rewrite (IH _ H). simpl. by rewrite <- app_assoc.
Qed.

(** A loop that stops has run to the end of the lines before the one it
    stops at, and that line is short in the store as those lines left
    it. *)
Lemma delivery_loop_stops_at ls st st' :
  Deliveries.post_lines user dlv ls st = inl st' →
  ∃ posted line rest,
    ls = posted ++ line :: rest
    ∧ Deliveries.post_lines user dlv posted st = inr st'
    ∧ short st' (d_warehouse_id dlv) line.
Proof.
  revert st. induction ls as [|line ls IH]; intros st; simpl; [discriminate|].
  destruct (stock_levels st !! (dl_product_id line, d_warehouse_id dlv))
    as [existing|] eqn:E.
  - destruct (Z.ltb_spec existing (dl_quantity line)) as [Hlt | Hge].
    + intros [= <-]. exists [], line, ls. repeat split.
      unfold short. by rewrite E.
    + intros H. destruct (IH _ H) as (posted & l & rest & -> & Hp & Hs).
      exists (line :: posted), l, rest. repeat split; [|done].
      simpl. rewrite E.
      destruct (Z.ltb_spec existing (dl_quantity line)); [lia | done].
  - intros [= <-]. exists [], line, ls. repeat split.
    unfold short. by rewrite E.
Qed.

End DeliveryPosting.



(** X3. When some line of a delivery is short in the store as validation
    finds it, the lines carrying non-negative quantities, the handler
    reports the failure and marks no delivery done, whichever line is the
    short one and whatever the lines before it. *)
Theorem short_delivery_is_rejected
    (user : option uuid) (now : string) (dlv : Delivery) (st : Store)
    (ls : list DeliveryLine) :
  Deliveries.select_lines (d_id dlv) st = Some ls →
  (∀ l, l ∈ ls → 0 ≤ dl_quantity l) →
  (∃ l, l ∈ ls ∧ short st (d_warehouse_id dlv) l) →
  snd (Deliveries.handleValidateDelivery user now dlv st)
  = toast_error "Insufficient stock for this delivery"
  ∧ deliveries (fst (Deliveries.handleValidateDelivery user now dlv st)) = deliveries st.
Proof. apply short_delivery_reports_failure. Qed.

Lemma short_delivery_is_rejected_witness :
  snd (Deliveries.handleValidateDelivery alice "t" dlv2 scenario_short)
  = toast_error "Insufficient stock for this delivery".
Proof.
  refine (proj1 (short_delivery_is_rejected alice "t" dlv2 scenario_short
                   [ {| dl_delivery_id := 32%N; dl_product_id := X1; dl_quantity := 3 |};
                     {| dl_delivery_id := 32%N; dl_product_id := X2; dl_quantity := 4 |} ]
                   eq_refl _ _)).
  - intros l Hl. repeat (apply elem_of_cons in Hl as [-> | Hl]; [simpl; lia|]).
    by apply elem_of_nil in Hl.
  - exists {| dl_delivery_id := 32%N; dl_product_id := X2; dl_quantity := 4 |}.
    split; [right; left | exact I].
Defined.

(** X4. Validating a delivery never takes a balance below zero, whatever
    its lines and whether it runs to the end or is rejected part-way:
    in a store without negative quantities the handler leaves none. *)
Theorem delivery_never_overdraws
    (user : option uuid) (now : string) (dlv : Delivery) (st : Store) :
  non_negative st →
  non_negative (fst (Deliveries.handleValidateDelivery user now dlv st)).
Proof. apply non_negative_delivery. Qed.

Lemma delivery_never_overdraws_witness :
  non_negative (fst (Deliveries.handleValidateDelivery alice "t" dlv2 scenario_short)).
Proof.
  apply delivery_never_overdraws.
  intros key q. unfold scenario_short. simpl.
  intros H. apply lookup_singleton_Some in H as [_ <-]. lia.
Defined.

(** ** Transfers *)

(** X5. A transfer is rejected exactly when its source pair has no row
    or holds less than the transfer quantity; a rejected transfer leaves
    the whole store as it was, and a transfer that is not rejected is
    notified as validated. *)
Theorem transfer_rejected_iff_source_short
    (user : option uuid) (now : string) (trf : Transfer) (st : Store) :
  let short_source :=
    match stock_levels st !! (t_product_id trf, t_source_warehouse_id trf) with
    | Some sourceStock => sourceStock < t_quantity trf
    | None => True
    end in
  (short_source →
     Transfers.handleValidateTransfer user now trf st
     = (st, toast_error "Insufficient stock in source warehouse"))
  ∧ (¬ short_source →
     snd (Transfers.handleValidateTransfer user now trf st)
     = toast_success "Transfer validated and stock updated")
  ∧ (snd (Transfers.handleValidateTransfer user now trf st)
     = toast_error "Insufficient stock in source warehouse" → short_source).
Proof.
  cbv zeta. unfold Transfers.handleValidateTransfer.
  destruct (stock_levels st !! _) as [sourceStock|]; [|by repeat split].
  destruct (Z.ltb_spec sourceStock (t_quantity trf)); cbn [fst snd];
    repeat split; try done; try lia.
Qed.

(** X6. Validating a transfer of a non-negative quantity never takes a
    balance below zero, at the source or at the destination. *)
Theorem transfer_never_overdraws
    (user : option uuid) (now : string) (trf : Transfer) (st : Store) :
  non_negative st → 0 ≤ t_quantity trf →
  non_negative (fst (Transfers.handleValidateTransfer user now trf st)).
Proof. apply non_negative_transfer. Qed.

Lemma transfer_never_overdraws_witness :
  non_negative
    (fst (Transfers.handleValidateTransfer alice "t3" trf1
            (run alice [validate_receipt "t1" rcp1; validate_delivery "t2" dlv1]
               scenario0))).
Proof.
  apply transfer_never_overdraws; [|vm_compute; congruence].
  intros key q H.
  assert (Hm : stock_levels
                 (run alice [validate_receipt "t1" rcp1; validate_delivery "t2" dlv1]
                    scenario0)
               = {[ (X1, WH_MAIN) := 6 ]}) by (vm_compute; reflexivity).
  rewrite Hm in H. apply lookup_singleton_Some in H as [_ <-]. lia.
Defined.

(** ** Creating documents *)

(** X9. Creating a document moves no stock: whatever the form holds and
    whether the store accepts the row or not, the four creation handlers
    leave every balance and the ledger as they were. *)
Theorem creation_moves_no_stock
    (user : option uuid) (new_id : uuid) (epoch_ms : string) (st : Store)
    (fr : Receipts.Form) (fd : Deliveries.Form) (selectedProducts : list SelectedProduct)
    (linesError : option string)
    (ft : Transfers.Form) (ui : Adjustments.Ui) (fa : Adjustments.Form) :
  let keeps st' :=
    stock_levels st' = stock_levels st ∧ stock_movements st' = stock_movements st in
  keeps (fst (Receipts.handleSubmit user new_id epoch_ms fr selectedProducts linesError st))
  ∧ keeps (fst (Deliveries.handleSubmit user new_id epoch_ms fd selectedProducts linesError st))
  ∧ keeps (fst (Transfers.handleSubmit user new_id epoch_ms ft st))
  ∧ keeps (Adjustments.handleSubmit user new_id epoch_ms ui fa st).1.1.
Proof.
  cbv zeta. repeat split.
  all: unfold Receipts.handleSubmit, Receipts.insert_receipt,
         Deliveries.handleSubmit, Deliveries.insert_delivery,
         Transfers.handleSubmit, Transfers.insert_transfer,
         Adjustments.handleSubmit, Adjustments.insert_adjustment.
  all: repeat case_match; simplify_eq; reflexivity.
Qed.

Lemma no_lines_of_receipt rid (ls : list ReceiptLine) :
  (∀ l, l ∈ ls → rl_receipt_id l ≠ rid) →
  filter (λ l, rl_receipt_id l = rid) ls = [].
Proof.
  induction ls as [|l ls IH]; intros H; [reflexivity|].
  rewrite filter_cons_False by (apply H; by left).
  apply IH. intros; apply H; by right.
Qed.

(** X11. A receipt submitted without any complete entry (every entry
    lacks a product or has a quantity of zero or less) is stored as a
    draft all the same, and validating that draft is rejected for having
    no products, the store staying as creation left it. *)
Theorem receipt_without_entries_cannot_be_validated
    (user : option uuid) (new_id : uuid) (epoch_ms now msg : string)
    (f : Receipts.Form) (selectedProducts : list SelectedProduct)
    (linesError : option string) (st st1 : Store) :
  Receipts.handleSubmit user new_id epoch_ms f selectedProducts linesError st
  = (st1, toast_success msg) →
  (∀ l, l ∈ receipt_lines st → rl_receipt_id l ≠ new_id) →
  (∀ p, p ∈ selectedProducts → productId p = None ∨ quantity p ≤ 0) →
  ∃ rcp,
    receipts st1 !! new_id = Some rcp
    ∧ r_status rcp = draft
    ∧ receipt_lines st1 = receipt_lines st
    ∧ Receipts.handleValidateReceipt user now rcp st1
      = (st1, toast_error "Cannot validate receipt without products").
Proof.
  intros Hsub Hfresh Hempty.
  assert (Hnone : Receipts.new_lines new_id selectedProducts = []).
  { clear Hsub. unfold Receipts.new_lines.
    induction selectedProducts as [|p sp IH]; [reflexivity|].
    simpl. destruct (Hempty p) as [-> | Hq]; [by left | |].
    - apply IH. intros; apply Hempty; by right.
    - destruct (productId p); [|apply IH; intros; apply Hempty; by right].
      destruct (Z.ltb_spec 0 (quantity p)); [lia|].
      apply IH. intros; apply Hempty; by right. }
  unfold Receipts.handleSubmit, Receipts.insert_receipt in Hsub.
  destruct (Receipts.f_warehouse_id f) as [w|]; [|discriminate].
  destruct user as [u|]; [|discriminate].
  destruct (receipts st !! new_id); [discriminate|].
  rewrite Hnone in Hsub. injection Hsub as <- _.
  eexists. split; [cbn; apply lookup_insert_eq|].
  split; [done|]. split; [done|].
  unfold Receipts.handleValidateReceipt, Receipts.select_lines.
  cbn [r_id set_receipts receipt_lines].
  by rewrite (no_lines_of_receipt _ _ Hfresh).
Qed.

Lemma receipt_without_entries_cannot_be_validated_witness :
  let f := {| Receipts.f_supplier_name := "Acme"; Receipts.f_warehouse_id := Some WH_SEC;
              Receipts.f_notes := "none" |} in
  let entries := [ {| productId := None; quantity := 0 |} ] in
  let st1 :=
    fst (Receipts.handleSubmit alice 22%N "1763783598000" f entries None scenario0) in
  ∃ rcp,
    receipts st1 !! 22%N = Some rcp
    ∧ Receipts.handleValidateReceipt alice "t" rcp st1
      = (st1, toast_error "Cannot validate receipt without products").
Proof.
  intros f entries st1.
  destruct (receipt_without_entries_cannot_be_validated alice 22%N "1763783598000" "t"
              "Receipt created successfully" f entries None scenario0 st1)
    as (rcp & Hrow & _ & _ & Hval).
  - reflexivity.
  - intros l Hl. apply list_elem_of_singleton in Hl as ->. simpl. discriminate.
  - intros p Hp. apply list_elem_of_singleton in Hp as ->. by left.
  - by exists rcp.
Defined.

(** X12. The transfer form either stores exactly one new draft or
    changes nothing.  On an error notification the store is as it was.
    On success all three selects were filled, the two warehouses differ,
    the identifier was not in use, and the store differs only by the new
    row, a draft never validated that carries the form's warehouses,
    product and quantity under the number ["TRF-"] followed by the
    clock. *)
Theorem transfer_submit_all_or_nothing
    (user : option uuid) (new_id : uuid) (epoch_ms : string)
    (f : Transfers.Form) (st st' : Store) (t : Toast) :
  Transfers.handleSubmit user new_id epoch_ms f st = (st', t) →
  match t with
  | toast_error _ => st' = st
  | toast_success _ =>
      ∃ src dst p,
        Transfers.f_source_warehouse_id f = Some src
        ∧ Transfers.f_destination_warehouse_id f = Some dst
        ∧ Transfers.f_product_id f = Some p
        ∧ src ≠ dst
        ∧ is_Some user
        ∧ internal_transfers st !! new_id = None
        ∧ st' = set_internal_transfers
                  (<[new_id := {| t_id := new_id;
                                  t_transfer_number := "TRF-" +:+ epoch_ms;
                                  t_source_warehouse_id := src;
                                  t_destination_warehouse_id := dst;
                                  t_product_id := p;
                                  t_quantity := Transfers.f_quantity f;
                                  t_status := draft;
                                  t_validated_at := None |}]>
                     (internal_transfers st)) st
  end.
Proof.
  unfold Transfers.handleSubmit, Transfers.insert_transfer.
  destruct (decide _) as [Heq | Hne]; [by intros [= <- <-]|].
  destruct (Transfers.f_source_warehouse_id f) as [src|]; [|by intros [= <- <-]].
  destruct (Transfers.f_destination_warehouse_id f) as [dst|]; [|by intros [= <- <-]].
  destruct (Transfers.f_product_id f) as [p|]; [|by intros [= <- <-]].
  destruct user as [u|]; [|by intros [= <- <-]].
  destruct (internal_transfers st !! new_id) eqn:E; [by intros [= <- <-]|].
  intros [= <- <-]. exists src, dst, p. repeat split; try done.
  congruence.
Qed.

Lemma transfer_submit_all_or_nothing_witness :
  let f := {| Transfers.f_source_warehouse_id := Some WH_MAIN;
              Transfers.f_destination_warehouse_id := Some WH_SEC;
              Transfers.f_product_id := Some X1;
              Transfers.f_quantity := 3;
              Transfers.f_notes := "restock" |} in
  (* the identifier 40 is taken by [trf1]: nothing is stored *)
  fst (Transfers.handleSubmit alice 40%N "1763783598000" f scenario0) = scenario0.
Proof.
  intros f.
  exact (transfer_submit_all_or_nothing alice 40%N "1763783598000" f scenario0
           (fst (Transfers.handleSubmit alice 40%N "1763783598000" f scenario0))
           (toast_error duplicate_key) eq_refl).
Defined.

(** ** Dashboard and Products page side by side *)

Lemma dashboard_counts_flagged_products_aux rows products :
  Dashboard.lowStockCount (Some products) (Some rows)
  = Z.of_nat (length (filter (λ product, Products.isLowStock rows product = true) products)).
Proof.
  destruct (low_stock_rule rows products
              {| p_id := 0%N; p_name := "none"; p_sku := "none"; p_reorder_level := 0 |})
    as [_ ->].
  do 2 f_equal. apply list_filter_iff. intros product.
  destruct (low_stock_rule rows products product) as [-> _].
  by rewrite bool_decide_eq_true.
Qed.

(** X14. Given the same products and the same stock-level rows, the
    low-stock counter of Dashboard.tsx is the number of products the
    Products page flags as low on stock. *)
Theorem dashboard_counts_flagged_products
    (rows : list StockLevel) (products : list Product) :
  Dashboard.lowStockCount (Some products) (Some rows)
  = Z.of_nat (length (filter (λ product, Products.isLowStock rows product = true) products)).
Proof. apply dashboard_counts_flagged_products_aux. Qed.

(** X15. The counter at its edges.  It lies between zero and the number
    of products; without a products answer it is zero; and without a
    stock-levels answer every product is taken to hold nothing, so
    exactly the products whose reorder level is not negative are
    counted. *)
Theorem dashboard_counter_edges
    (allProducts : option (list Product)) (allStockLevels : option (list StockLevel))
    (products : list Product) :
  0 ≤ Dashboard.lowStockCount allProducts allStockLevels
      ≤ Z.of_nat (length (default [] allProducts))
  ∧ Dashboard.lowStockCount None allStockLevels = 0
  ∧ Dashboard.lowStockCount (Some products) None
    = Z.of_nat (length (filter (λ product, 0 ≤ p_reorder_level product) products)).
Proof.
  assert (Hnone : ∀ ps, Dashboard.lowStockCount (Some ps) None
                        = Z.of_nat (length (filter (λ product, 0 ≤ p_reorder_level product) ps))).
  { intros ps. unfold Dashboard.lowStockCount.
    rewrite (lowStockCount_from _ [] ps 0).
    - reflexivity.
    - intros p. simpl. by rewrite lookup_empty. }
  split; [|split; [reflexivity | apply Hnone]].
  destruct allProducts as [ps|]; [|simpl; lia].
  destruct allStockLevels as [rows|].
  - destruct (low_stock_rule rows ps
                {| p_id := 0%N; p_name := "none"; p_sku := "none"; p_reorder_level := 0 |})
      as [_ ->].
    pose proof (length_filter (low_stock rows) ps). simpl. lia.
  - rewrite Hnone.
    pose proof (length_filter (λ product, 0 ≤ p_reorder_level product) ps). simpl. lia.
Qed.

(** ** The pending counters of the dashboard *)

(** Marking one counted row as no longer counted lowers a count by one;
    marking a row that was not counted changes nothing. *)
Lemma size_filter_alter {A} (P : N * A → Prop) `{!∀ kv, Decision (P kv)}
    (f : A → A) (m : gmap N A) (id : N) (x : A) :
  m !! id = Some x →
  ¬ P (id, f x) →
  size (filter P (alter f id m))
  = if decide (P (id, x)) then pred (size (filter P m)) else size (filter P m).
Proof.
  intros Hx Hnot.
  assert (Halter : alter f id m = <[id := f x]> m).
  { apply map_eq. intros j. rewrite lookup_alter, lookup_insert.
    destruct (decide (id = j)) as [<- | Hne]; [by rewrite Hx | done]. }
  rewrite Halter, map_filter_insert_False, map_filter_delete by done.
  destruct (decide (P (id, x))) as [HP | HP].
  - apply map_size_delete_Some. exists x. by apply map_lookup_filter_Some.
  - apply map_size_delete_None. apply map_lookup_filter_None. right.
    intros y Hy. rewrite Hx in Hy. by injection Hy as <-.
Qed.

(** X17. Validating a stored receipt that has a line takes it out of the
    dashboard's pending receipts: the counter drops by exactly one when
    the receipt was pending (draft, waiting or ready) and stays put when
    it was not, and the counters of pending deliveries and scheduled
    transfers do not move. *)
Theorem validated_receipt_leaves_pending
    (user : option uuid) (now : string) (rcp : Receipt) (st : Store)
    (l0 : ReceiptLine) (ls : list ReceiptLine) :
  receipts st !! r_id rcp = Some rcp →
  Receipts.select_lines (r_id rcp) st = Some (l0 :: ls) →
  let st' := fst (Receipts.handleValidateReceipt user now rcp st) in
  DashboardStats.pendingReceipts st'
  = DashboardStats.pendingReceipts st
    - (if decide (DashboardStats.pending (r_status rcp)) then 1 else 0)
  ∧ DashboardStats.pendingDeliveries st' = DashboardStats.pendingDeliveries st
  ∧ DashboardStats.scheduledTransfers st' = DashboardStats.scheduledTransfers st.
Proof.
  intros Hrow Hsel st'. subst st'.
  unfold Receipts.handleValidateReceipt. rewrite Hsel.
  unfold Receipts.validate_with. cbn [fst].
  unfold DashboardStats.pendingReceipts, DashboardStats.pendingDeliveries,
    DashboardStats.scheduledTransfers.
  cbn [set_receipts receipts deliveries internal_transfers].
  rewrite post_lines_receipts.
  split; [|split].
  - rewrite (size_filter_alter _ _ _ _ rcp Hrow).
    + destruct (decide (DashboardStats.pending (r_status rcp))) as [Hp | Hp].
      * rewrite decide_True by done.
        assert (size (filter (λ kv : N * Receipt, DashboardStats.pending (r_status kv.2))
                        (receipts st)) ≠ 0%nat).
        { intros H0. apply map_size_empty_iff in H0.
          assert (Hin : filter (λ kv : N * Receipt, DashboardStats.pending (r_status kv.2))
                          (receipts st) !! r_id rcp = Some rcp)
            by (by apply map_lookup_filter_Some).
          rewrite H0, lookup_empty in Hin. discriminate. }
        lia.
      * rewrite decide_False by done. lia.
    + simpl. unfold DashboardStats.pending. intros Hin.
      repeat (apply elem_of_cons in Hin as [Hin | Hin]; [discriminate|]).
      by apply elem_of_nil in Hin.
  - f_equal. f_equal. f_equal.
    clear. generalize (l0 :: ls). intros lines. revert st.
    induction lines as [|l lines IH]; intros st; simpl; [done|].
    rewrite IH. unfold Receipts.post_line. by destruct (stock_levels st !! _).
  - f_equal. f_equal. f_equal.
    clear. generalize (l0 :: ls). intros lines. revert st.
    induction lines as [|l lines IH]; intros st; simpl; [done|].
    rewrite IH. unfold Receipts.post_line. by destruct (stock_levels st !! _).
Qed.

Lemma validated_receipt_leaves_pending_witness :
  DashboardStats.pendingReceipts scenario0 = 1
  ∧ DashboardStats.pendingReceipts
      (fst (Receipts.handleValidateReceipt alice "t1" rcp1 scenario0)) = 0.
Proof.
  destruct (validated_receipt_leaves_pending alice "t1" rcp1 scenario0
              {| rl_receipt_id := 20%N; rl_product_id := X1; rl_quantity := 10 |} [])
    as (H & _); [reflexivity | reflexivity |].
  split; [vm_compute; reflexivity|].
  rewrite H. vm_compute. reflexivity.
Defined.

(** ** What each handler can touch *)

Lemma receipt_loop_frame user rcp ls st :
  let st' := foldl (Receipts.post_line user rcp) st ls in
  receipts st' = receipts st ∧ receipt_lines st' = receipt_lines st
  ∧ deliveries st' = deliveries st ∧ delivery_lines st' = delivery_lines st
  ∧ internal_transfers st' = internal_transfers st
  ∧ stock_adjustments st' = stock_adjustments st.
Proof.
  cbv zeta. revert st. induction ls as [|l ls IH]; intros st; simpl; [done|].
  destruct (IH (Receipts.post_line user rcp st l)) as (-> & -> & -> & -> & -> & ->).
  unfold Receipts.post_line. by destruct (stock_levels st !! _).
Qed.

Lemma receipt_validate_tables user now rcp st :
  let st' := fst (Receipts.handleValidateReceipt user now rcp st) in
  (st' = st
   ∨ (is_Some (head (default [] (Receipts.select_lines (r_id rcp) st)))
      ∧ receipts st' = alter (Receipts.mark_done now) (r_id rcp) (receipts st)))
  ∧ receipt_lines st' = receipt_lines st
  ∧ deliveries st' = deliveries st ∧ delivery_lines st' = delivery_lines st
  ∧ internal_transfers st' = internal_transfers st
  ∧ stock_adjustments st' = stock_adjustments st.
Proof.
  cbv zeta. unfold Receipts.handleValidateReceipt.
  destruct (Receipts.select_lines (r_id rcp) st) as [[|l0 ls0]|] eqn:Hsel;
    [by repeat split; try left | | by repeat split; try left].
  unfold Receipts.validate_with. cbn [fst].
  destruct (receipt_loop_frame user rcp (l0 :: ls0) st) as (Hr & Hrl & Hd & Hdl & Ht & Ha).
  cbn [set_receipts receipts receipt_lines deliveries delivery_lines
         internal_transfers stock_adjustments].
  rewrite Hr. repeat split; try done.
  right. split; [by eexists | done].
Qed.

Lemma delivery_validate_tables user now dlv st :
  let st' := fst (Deliveries.handleValidateDelivery user now dlv st) in
  (deliveries st' = deliveries st
   ∨ (snd (Deliveries.handleValidateDelivery user now dlv st)
      = toast_success "Delivery validated and stock updated"
      ∧ deliveries st' = alter (Deliveries.mark_done now) (d_id dlv) (deliveries st)))
  ∧ delivery_lines st' = delivery_lines st
  ∧ receipts st' = receipts st ∧ receipt_lines st' = receipt_lines st
  ∧ internal_transfers st' = internal_transfers st
  ∧ stock_adjustments st' = stock_adjustments st.
Proof.
  cbv zeta. unfold Deliveries.handleValidateDelivery.
  destruct (Deliveries.select_lines (d_id dlv) st) as [[|l0 ls0]|] eqn:Hsel;
    [by repeat split; try left | | by repeat split; try left].
  unfold Deliveries.validate_with.
  pose proof (delivery_loop_frame user dlv (l0 :: ls0) st) as Hframe.
  destruct (Deliveries.post_lines user dlv (l0 :: ls0) st) as [st1 | st1];
    destruct Hframe as (Hd & Hdl & Hr & Hrl & Ht & Ha); cbn [fst snd].
  - repeat split; try done. by left.
  - cbn [set_deliveries receipts receipt_lines deliveries delivery_lines
           internal_transfers stock_adjustments].
    rewrite Hd. repeat split; try done. by right.
Qed.

Lemma transfer_validate_tables user now trf st :
  let st' := fst (Transfers.handleValidateTransfer user now trf st) in
  (st' = st
   ∨ (snd (Transfers.handleValidateTransfer user now trf st)
      = toast_success "Transfer validated and stock updated"
      ∧ internal_transfers st'
        = alter (Transfers.mark_done now) (t_id trf) (internal_transfers st)))
  ∧ receipts st' = receipts st ∧ receipt_lines st' = receipt_lines st
  ∧ deliveries st' = deliveries st ∧ delivery_lines st' = delivery_lines st
  ∧ stock_adjustments st' = stock_adjustments st.
Proof.
  cbv zeta. unfold Transfers.handleValidateTransfer. cbv zeta.
  destruct (stock_levels st !! _) as [sourceStock|]; [|by repeat split; try left].
  destruct (sourceStock <? t_quantity trf); [by repeat split; try left|].
  cbn [fst snd].
  destruct (stock_levels (write_stock_level _ _ st) !! _); simpl;
    repeat split; try done; by right.
Qed.

Lemma adjustment_validate_tables user now adj st :
  let st' := fst (Adjustments.handleValidateAdjustment user now adj st) in
  stock_adjustments st'
  = alter (Adjustments.mark_done now) (a_id adj) (stock_adjustments st)
  ∧ receipts st' = receipts st ∧ receipt_lines st' = receipt_lines st
  ∧ deliveries st' = deliveries st ∧ delivery_lines st' = delivery_lines st
  ∧ internal_transfers st' = internal_transfers st.
Proof.
  cbv zeta. unfold Adjustments.handleValidateAdjustment. cbv zeta. cbn [fst].
  destruct (stock_levels st !! _); simpl; repeat split; done.
Qed.

(** ** What each creation form can touch *)

(** The receipt form stores nothing, or the new draft together with the
    lines of its entries, or (the lines refused) the new draft alone,
    which is the draft of a form without entries. *)
Lemma receipt_submit_store user new_id epoch_ms f selectedProducts linesError st :
  let st' :=
    fst (Receipts.handleSubmit user new_id epoch_ms f selectedProducts linesError st) in
  st' = st
  ∨ ∃ w entries,
      receipts st !! new_id = None
      ∧ (entries = selectedProducts ∨ entries = [])
      ∧ st' = set_receipt_lines
                (receipt_lines st ++ Receipts.new_lines new_id entries)
                (set_receipts
                   (<[new_id := {| r_id := new_id;
                                   r_receipt_number := "RCP-" +:+ epoch_ms;
                                   r_supplier_name := Receipts.f_supplier_name f;
                                   r_warehouse_id := w;
                                   r_status := draft;
                                   r_validated_at := None |}]> (receipts st)) st).
Proof.
  cbv zeta. unfold Receipts.handleSubmit, Receipts.insert_receipt.
  destruct (Receipts.f_warehouse_id f) as [w|]; [|by left].
  destruct user; [|by left].
  destruct (receipts st !! new_id) eqn:E; [by left|].
  right. exists w.
  destruct (Receipts.new_lines new_id selectedProducts) eqn:El;
    [|destruct linesError]; cbn [fst].
  - exists []. split; [done|]. split; [by right|].
    unfold set_receipt_lines, set_receipts. simpl. by rewrite app_nil_r.
  - exists []. split; [done|]. split; [by right|].
    unfold set_receipt_lines, set_receipts. simpl. by rewrite app_nil_r.
  - exists selectedProducts. split; [done|]. split; [by left|]. by rewrite El.
Qed.

Lemma delivery_submit_store user new_id epoch_ms f selectedProducts linesError st :
  let st' :=
    fst (Deliveries.handleSubmit user new_id epoch_ms f selectedProducts linesError st) in
  st' = st
  ∨ ∃ w entries,
      deliveries st !! new_id = None
      ∧ (entries = selectedProducts ∨ entries = [])
      ∧ st' = set_delivery_lines
                (delivery_lines st ++ Deliveries.new_lines new_id entries)
                (set_deliveries
                   (<[new_id := {| d_id := new_id;
                                   d_delivery_number := "DEL-" +:+ epoch_ms;
                                   d_customer_name := Deliveries.f_customer_name f;
                                   d_warehouse_id := w;
                                   d_status := draft;
                                   d_validated_at := None |}]> (deliveries st)) st).
Proof.
  cbv zeta. unfold Deliveries.handleSubmit, Deliveries.insert_delivery.
  destruct (Deliveries.f_warehouse_id f) as [w|]; [|by left].
  destruct user; [|by left].
  destruct (deliveries st !! new_id) eqn:E; [by left|].
  right. exists w.
  destruct (Deliveries.new_lines new_id selectedProducts) eqn:El;
    [|destruct linesError]; cbn [fst].
  - exists []. split; [done|]. split; [by right|].
    unfold set_delivery_lines, set_deliveries. simpl. by rewrite app_nil_r.
  - exists []. split; [done|]. split; [by right|].
    unfold set_delivery_lines, set_deliveries. simpl. by rewrite app_nil_r.
  - exists selectedProducts. split; [done|]. split; [by left|]. by rewrite El.
Qed.

Lemma transfer_submit_store user new_id epoch_ms f st :
  let st' := fst (Transfers.handleSubmit user new_id epoch_ms f st) in
  st' = st
  ∨ ∃ src dst p,
      src ≠ dst
      ∧ internal_transfers st !! new_id = None
      ∧ st' = set_internal_transfers
                (<[new_id := {| t_id := new_id;
                                t_transfer_number := "TRF-" +:+ epoch_ms;
                                t_source_warehouse_id := src;
                                t_destination_warehouse_id := dst;
                                t_product_id := p;
                                t_quantity := Transfers.f_quantity f;
                                t_status := draft;
                                t_validated_at := None |}]>
                   (internal_transfers st)) st.
Proof.
  cbv zeta. unfold Transfers.handleSubmit, Transfers.insert_transfer.
  destruct (decide _) as [Heq | Hne]; [by left|].
  destruct (Transfers.f_source_warehouse_id f) as [src|]; [|by left].
  destruct (Transfers.f_destination_warehouse_id f) as [dst|]; [|by left].
  destruct (Transfers.f_product_id f) as [p|]; [|by left].
  destruct user; [|by left].
  destruct (internal_transfers st !! new_id) eqn:E; [by left|].
  right. exists src, dst, p. split; [congruence|]. split; [done | reflexivity].
Qed.

Lemma adjustment_submit_store user new_id epoch_ms ui f st :
  let st' := (Adjustments.handleSubmit user new_id epoch_ms ui f st).1.1 in
  st' = st
  ∨ ∃ p w,
      stock_adjustments st !! new_id = None
      ∧ st' = set_stock_adjustments
                (<[new_id := Adjustments.new_row new_id ("ADJ-" +:+ epoch_ms) p w ui f]>
                   (stock_adjustments st)) st.
Proof.
  cbv zeta. unfold Adjustments.handleSubmit, Adjustments.insert_adjustment.
  destruct (Adjustments.selectedProduct ui) as [p|]; [|by left].
  destruct (Adjustments.selectedWarehouse ui) as [w|]; [|by left].
  destruct user; [|by left].
  destruct (stock_adjustments st !! new_id) eqn:E; [by left|].
  right. by exists p, w.
Qed.

(** ** Stores a session can reach *)

Lemma map_Forall_alter_keep {A} (G : N → A → Prop) (f : A → A) (m : gmap N A) id :
  map_Forall G m → (∀ i x, G i x → G i (f x)) → map_Forall G (alter f id m).
Proof.
  intros Hm Hf i y. rewrite lookup_alter.
  destruct (decide (id = i)) as [<- | Hne].
  - destruct (m !! id) as [x|] eqn:E; [|discriminate].
    intros [= <-]. apply Hf. by apply Hm.
  - apply Hm.
Qed.

Lemma stamped_done s v now : stamped s v → stamped done (Some now).
Proof. intros _. right. split; [done | by eexists]. Qed.

Lemma well_formed_perform user st a :
  well_formed st → well_formed (perform user st a).
Proof.
  intros (Hr & Hd & Ht & Ha & Hrl & Hdl).
  destruct a as [new_id e f sp le | new_id e f sp le | new_id e f | new_id e p w f
                 | now id | now id | now id | now id]; cbn [perform].
  - destruct (receipt_submit_store user new_id e f sp le st) as [-> | (w & sp' & Hnew & _ & ->)];
      [done|].
    unfold well_formed; cbn; split_and!; try done.
    + apply map_Forall_insert_2; [|done]. split; [done | by left].
    + apply Forall_app. split; [done|]. apply Forall_forall. intros l Hl.
      by apply (receipt_new_lines_positive new_id sp').
  - destruct (delivery_submit_store user new_id e f sp le st) as [-> | (w & sp' & Hnew & _ & ->)];
      [done|].
    unfold well_formed; cbn; split_and!; try done.
    + apply map_Forall_insert_2; [|done]. split; [done | by left].
    + apply Forall_app. split; [done|]. apply Forall_forall. intros l Hl.
      by apply (delivery_new_lines_positive new_id sp').
  - destruct (transfer_submit_store user new_id e f st)
      as [-> | (src & dst & p & Hne & Hnew & ->)]; [done|].
    unfold well_formed; cbn; split_and!; try done.
    apply map_Forall_insert_2; [|done]. split; [done|]. split; [by left | done].
  - destruct (adjustment_submit_store user new_id e
                (Adjustments.select_pair p w st Adjustments.initial_ui) f st)
      as [-> | (p' & w' & Hnew & ->)]; [done|].
    unfold well_formed; cbn; split_and!; try done.
    apply map_Forall_insert_2; [|done]. split; [done | by left].
  - destruct (receipts st !! id) as [rcp|]; [|done].
    unfold click, Receipts.row_action. destruct (decide _); [|done].
    destruct (Receipts.handleValidateReceipt user now rcp st) as [st1 t] eqn:E.
    pose proof (receipt_validate_tables user now rcp st) as Htab.
    rewrite E in Htab. cbn [fst] in *.
    destruct Htab as ([-> | [_ Hr1]] & Hrl1 & Hd1 & Hdl1 & Ht1 & Ha1); [done|].
    unfold well_formed. rewrite Hr1, Hrl1, Hd1, Hdl1, Ht1, Ha1.
    split_and!; try done.
    apply map_Forall_alter_keep; [done|].
    intros i x [Hid Hst]. split; [done|]. by eapply stamped_done.
  - destruct (deliveries st !! id) as [dlv|]; [|done].
    unfold click, Deliveries.row_action. destruct (decide _); [|done].
    destruct (Deliveries.handleValidateDelivery user now dlv st) as [st1 t] eqn:E.
    pose proof (delivery_validate_tables user now dlv st) as Htab.
    rewrite E in Htab. cbn [fst snd] in *.
    destruct Htab as (Hd1 & Hdl1 & Hr1 & Hrl1 & Ht1 & Ha1).
    unfold well_formed. rewrite Hr1, Hrl1, Hdl1, Ht1, Ha1.
    split_and!; try done.
    destruct Hd1 as [-> | [_ ->]]; [done|].
    apply map_Forall_alter_keep; [done|].
    intros i x [Hid Hst]. split; [done|]. by eapply stamped_done.
  - destruct (internal_transfers st !! id) as [trf|]; [|done].
    unfold click, Transfers.row_action. destruct (decide _); [|done].
    destruct (Transfers.handleValidateTransfer user now trf st) as [st1 t] eqn:E.
    pose proof (transfer_validate_tables user now trf st) as Htab.
    rewrite E in Htab. cbn [fst snd] in *.
    destruct Htab as ([-> | [_ Ht1]] & Hr1 & Hrl1 & Hd1 & Hdl1 & Ha1); [done|].
    unfold well_formed. rewrite Hr1, Hrl1, Hd1, Hdl1, Ht1, Ha1.
    split_and!; try done.
    apply map_Forall_alter_keep; [done|].
    intros i x (Hid & Hst & Hne). split; [done|]. split; [by eapply stamped_done | done].
  - destruct (stock_adjustments st !! id) as [adj|]; [|done].
    unfold click, Adjustments.row_action. destruct (decide _); [|done].
    destruct (Adjustments.handleValidateAdjustment user now adj st) as [st1 t] eqn:E.
    pose proof (adjustment_validate_tables user now adj st) as Htab.
    rewrite E in Htab. cbn [fst] in *.
    destruct Htab as (Ha1 & Hr1 & Hrl1 & Hd1 & Hdl1 & Ht1).
    unfold well_formed. rewrite Hr1, Hrl1, Hd1, Hdl1, Ht1, Ha1.
    split_and!; try done.
    apply map_Forall_alter_keep; [done|].
    intros i x (Hid & Hst). split; [done|]. by eapply stamped_done.
Qed.

Lemma session_keeps user (I : Store → Prop) :
  (∀ st a, I st → I (perform user st a)) →
  ∀ actions st, I st → I (session user actions st).
Proof.
  intros Hstep actions. induction actions as [|a actions IH]; intros st Hst; [done|].
  apply IH. by apply Hstep.
Qed.

Lemma well_formed_session user actions :
  well_formed (session user actions empty_store).
Proof.
  apply session_keeps; [apply well_formed_perform|].
  unfold well_formed; cbn; split_and!; try apply map_Forall_empty; apply Forall_nil_2.
Qed.

(** X19. In every store a session can reach from the empty store, each
    receipt, delivery, transfer and adjustment is either a draft that
    was never validated or is done and carries its validation time.  The
    statuses [waiting], [ready] and [canceled], which the schema allows
    and the dashboard counts as pending, are never produced. *)
Theorem session_lifecycle (user : option uuid) (actions : list Action) :
  lifecycle (session user actions empty_store).
Proof.
  destruct (well_formed_session user actions) as (Hr & Hd & Ht & Ha & _).
  unfold lifecycle. split_and!.
  - intros id r H. by destruct (Hr _ _ H).
  - intros id d H. by destruct (Hd _ _ H).
  - intros id t H. by destruct (Ht _ _ H) as (_ & ? & _).
  - intros id a H. by destruct (Ha _ _ H) as (_ & ?).
Qed.

(** X20. In every store a session can reach from the empty store, every
    stored receipt line and delivery line carries a positive quantity,
    every stored transfer runs between two different warehouses, and
    every document sits under its own identifier. *)
Theorem session_documents_come_from_forms (user : option uuid) (actions : list Action) :
  created_by_forms (session user actions empty_store)
  ∧ keyed (session user actions empty_store).
Proof.
  destruct (well_formed_session user actions) as (Hr & Hd & Ht & Ha & Hrl & Hdl).
  rewrite Forall_forall in Hrl. rewrite Forall_forall in Hdl.
  unfold created_by_forms, keyed. split_and!; try done.
  - intros id t H. by destruct (Ht _ _ H) as (_ & _ & ?).
  - intros id r H. by destruct (Hr _ _ H).
  - intros id d H. by destruct (Hd _ _ H).
  - intros id t H. by destruct (Ht _ _ H).
  - intros id a H. by destruct (Ha _ _ H).
Qed.

(** ** Quantities along a session *)

Lemma within_bounds_perform user st a :
  well_formed st → within_bounds st → form_bounds a →
  within_bounds (perform user st a).
Proof.
  intros (Hr & Hd & Ht & Ha & Hrl & Hdl) (Hnn & Hbt & Hba) Hform.
  destruct a as [new_id e f sp le | new_id e f sp le | new_id e f | new_id e p w f
                 | now id | now id | now id | now id]; cbn [perform].
  - destruct (receipt_submit_store user new_id e f sp le st) as [-> | (w & sp' & Hnew & _ & ->)];
      [done|]. by unfold within_bounds.
  - destruct (delivery_submit_store user new_id e f sp le st) as [-> | (w & sp' & Hnew & _ & ->)];
      [done|]. by unfold within_bounds.
  - destruct (transfer_submit_store user new_id e f st)
      as [-> | (src & dst & p & Hne & Hnew & ->)]; [done|].
    unfold within_bounds; cbn; split_and!; try done.
    by apply map_Forall_insert_2.
  - destruct (adjustment_submit_store user new_id e
                (Adjustments.select_pair p w st Adjustments.initial_ui) f st)
      as [-> | (p' & w' & Hnew & ->)]; [done|].
    unfold within_bounds; cbn; split_and!; try done.
    by apply map_Forall_insert_2.
  - destruct (receipts st !! id) as [rcp|]; [|done].
    unfold click, Receipts.row_action. destruct (decide _); [|done].
    destruct (Receipts.handleValidateReceipt user now rcp st) as [st1 t] eqn:E.
    pose proof (receipt_validate_tables user now rcp st) as Htab.
    pose proof (non_negative_receipt user now rcp st Hnn) as Hnn1.
    rewrite E in Htab, Hnn1. cbn [fst] in *.
    destruct Htab as (_ & _ & _ & _ & Ht1 & Ha1).
    unfold within_bounds. rewrite Ht1, Ha1. split_and!; try done.
    apply Hnn1. intros line Hin. rewrite Forall_forall in Hrl.
    specialize (Hrl _ Hin). lia.
  - destruct (deliveries st !! id) as [dlv|]; [|done].
    unfold click, Deliveries.row_action. destruct (decide _); [|done].
    destruct (Deliveries.handleValidateDelivery user now dlv st) as [st1 t] eqn:E.
    pose proof (delivery_validate_tables user now dlv st) as Htab.
    pose proof (non_negative_delivery user now dlv st Hnn) as Hnn1.
    rewrite E in Htab, Hnn1. cbn [fst] in *.
    destruct Htab as (_ & _ & _ & _ & Ht1 & Ha1).
    unfold within_bounds. rewrite Ht1, Ha1. split_and!; done.
  - destruct (internal_transfers st !! id) as [trf|] eqn:Erow; [|done].
    unfold click, Transfers.row_action. destruct (decide _); [|done].
    destruct (Transfers.handleValidateTransfer user now trf st) as [st1 t] eqn:E.
    pose proof (transfer_validate_tables user now trf st) as Htab.
    pose proof (non_negative_transfer user now trf st Hnn) as Hnn1.
    rewrite E in Htab, Hnn1. cbn [fst snd] in *.
    destruct Htab as ([-> | [_ Ht1]] & _ & _ & _ & _ & Ha1); [done|].
    unfold within_bounds. rewrite Ht1, Ha1. split_and!; try done.
    + apply Hnn1. specialize (Hbt _ _ Erow). simpl in Hbt. lia.
    + apply map_Forall_alter_keep; [done|]. by intros i x.
  - destruct (stock_adjustments st !! id) as [adj|] eqn:Erow; [|done].
    unfold click, Adjustments.row_action. destruct (decide _); [|done].
    destruct (Adjustments.handleValidateAdjustment user now adj st) as [st1 t] eqn:E.
    pose proof (adjustment_validate_tables user now adj st) as Htab.
    pose proof (non_negative_adjustment user now adj st Hnn) as Hnn1.
    rewrite E in Htab, Hnn1. cbn [fst] in *.
    destruct Htab as (Ha1 & _ & _ & _ & _ & Ht1).
    unfold within_bounds. rewrite Ht1, Ha1. split_and!; try done.
    + apply Hnn1. by apply (Hba _ _ Erow).
    + apply map_Forall_alter_keep; [done|]. by intros i x.
Qed.

Lemma within_bounds_session user actions st :
  well_formed st → within_bounds st → Forall form_bounds actions →
  within_bounds (session user actions st).
Proof.
  revert st. induction actions as [|a actions IH]; intros st Hwf Hb Hforms; [done|].
  apply Forall_cons in Hforms as [Ha Hforms].
  apply IH; [by apply well_formed_perform | by apply within_bounds_perform | done].
Qed.

(** X21. Along a session that starts from the empty store, in which the
    transfer forms hold a quantity of at least 1 (as the form's input
    demands) and the adjustment forms a counted quantity that is not
    negative, no stock level ever holds a negative quantity, whatever is
    created, validated, rejected or clicked again. *)
Theorem session_keeps_stock_non_negative (user : option uuid) (actions : list Action) :
  Forall form_bounds actions →
  non_negative (session user actions empty_store).
Proof.
  intros Hforms.
  apply (within_bounds_session user actions empty_store); [| |done].
  - unfold well_formed; cbn; split_and!; try apply map_Forall_empty; apply Forall_nil_2.
  - unfold within_bounds; cbn; split_and!; try apply map_Forall_empty.
Qed.

(** A receipt of 10 is entered and validated, then 14 are to be
    delivered: the delivery is rejected and 10 stay on hand. *)
Lemma session_keeps_stock_non_negative_witness :
  let fr := {| Receipts.f_supplier_name := "Acme"; Receipts.f_warehouse_id := Some WH_MAIN;
               Receipts.f_notes := "none" |} in
  let fd := {| Deliveries.f_customer_name := "Bob"; Deliveries.f_warehouse_id := Some WH_MAIN;
               Deliveries.f_notes := "none" |} in
  let actions :=
    [ submit_receipt 20%N "1" fr [ {| productId := Some X1; quantity := 10 |} ] None;
      click_receipt "t1" 20%N;
      submit_delivery 30%N "2" fd [ {| productId := Some X1; quantity := 14 |} ] None;
      click_delivery "t2" 30%N ] in
  non_negative (session alice actions empty_store)
  ∧ stock_levels (session alice actions empty_store) !! (X1, WH_MAIN) = Some 10.
Proof.
  intros fr fd actions. split.
  - apply session_keeps_stock_non_negative. repeat constructor.
  - vm_compute. reflexivity.
Defined.

(** ** The ledger along a session *)

Lemma perform_appends user st a :
  stock_movements st `prefix_of` stock_movements (perform user st a).
Proof.
  destruct a as [new_id e f sp le | new_id e f sp le | new_id e f | new_id e p w f
                 | now id | now id | now id | now id]; cbn [perform].
  - destruct (receipt_submit_store user new_id e f sp le st) as [-> | (w & sp' & _ & _ & ->)]; done.
  - destruct (delivery_submit_store user new_id e f sp le st) as [-> | (w & sp' & _ & _ & ->)]; done.
  - destruct (transfer_submit_store user new_id e f st)
      as [-> | (src & dst & p & _ & _ & ->)]; done.
  - destruct (adjustment_submit_store user new_id e
                (Adjustments.select_pair p w st Adjustments.initial_ui) f st)
      as [-> | (p' & w' & _ & ->)]; done.
  - destruct (receipts st !! id) as [rcp|]; [|done].
    unfold click, Receipts.row_action. destruct (decide _); [|done].
    unfold Receipts.handleValidateReceipt.
    destruct (Receipts.select_lines (r_id rcp) st) as [[|l0 ls0]|]; [done | | done].
    unfold Receipts.validate_with. cbn [fst set_receipts stock_movements].
    rewrite (post_lines_movements user rcp (l0 :: ls0)). by eexists.
  - destruct (deliveries st !! id) as [dlv|]; [|done].
    unfold click, Deliveries.row_action. destruct (decide _); [|done].
    unfold Deliveries.handleValidateDelivery.
    destruct (Deliveries.select_lines (d_id dlv) st) as [[|l0 ls0]|]; [done | | done].
    unfold Deliveries.validate_with.
    destruct (Deliveries.post_lines user dlv (l0 :: ls0) st) as [st1 | st1] eqn:Hrun.
    + destruct (delivery_loop_stops_at user dlv _ _ _ Hrun)
        as (posted & line & rest & _ & Hposted & _).
      cbn [fst]. rewrite (delivery_loop_movements user dlv _ _ _ Hposted). by eexists.
    + cbn [fst set_deliveries stock_movements].
      rewrite (delivery_loop_movements user dlv _ _ _ Hrun). by eexists.
  - destruct (internal_transfers st !! id) as [trf|]; [|done].
    unfold click, Transfers.row_action. destruct (decide _); [|done].
    unfold Transfers.handleValidateTransfer. cbv zeta.
    destruct (stock_levels st !! _) as [sourceStock|]; [|done].
    destruct (sourceStock <? t_quantity trf); [done|].
    destruct (stock_levels (write_stock_level _ _ st) !! _); cbn; by eexists.
  - destruct (stock_adjustments st !! id) as [adj|]; [|done].
    unfold click, Adjustments.row_action. destruct (decide _); [|done].
    unfold Adjustments.handleValidateAdjustment. cbv zeta.
    destruct (stock_levels st !! _); cbn; by eexists.
Qed.

(** X22. The ledger is append-only.  Whatever a session does from
    whatever store (creating, validating, being rejected, clicking a
    document that is done), the movements that were in the ledger stay
    where they were, unchanged and in the same order; new ones only come
    after them. *)
Theorem session_ledger_append_only
    (user : option uuid) (actions : list Action) (st : Store) :
  stock_movements st `prefix_of` stock_movements (session user actions st).
Proof.
  revert st. induction actions as [|a actions IH]; intros st; [done|].
  cbn. etrans; [apply perform_appends | apply IH].
Qed.

(** ** Clicking Validate twice *)

(** A transfer is either rejected, whatever the clock, or not. *)
Lemma transfer_rejected_or_not user now now' trf st :
  Transfers.handleValidateTransfer user now trf st
    = (st, toast_error "Insufficient stock in source warehouse")
    ∧ Transfers.handleValidateTransfer user now' trf st
      = (st, toast_error "Insufficient stock in source warehouse")
  ∨ (snd (Transfers.handleValidateTransfer user now trf st)
     = toast_success "Transfer validated and stock updated").
Proof.
  unfold Transfers.handleValidateTransfer. cbv zeta.
  destruct (stock_levels st !! _) as [sourceStock|]; [|by left].
  destruct (sourceStock <? t_quantity trf); [by left | by right].
Qed.

Lemma receipt_validated_grows user now rcp st l0 ls0 :
  Receipts.select_lines (r_id rcp) st = Some (l0 :: ls0) →
  fst (Receipts.handleValidateReceipt user now rcp st) ≠ st.
Proof.
  intros Hsel Heq. apply (f_equal stock_movements) in Heq. revert Heq.
  unfold Receipts.handleValidateReceipt. rewrite Hsel.
  unfold Receipts.validate_with. cbn [fst set_receipts stock_movements].
  rewrite post_lines_movements. intros E. apply (f_equal length) in E.
  rewrite length_app, length_fmap in E. simpl in E. lia.
Qed.

Lemma transfer_validated_grows user now trf st :
  snd (Transfers.handleValidateTransfer user now trf st)
  = toast_success "Transfer validated and stock updated" →
  fst (Transfers.handleValidateTransfer user now trf st) ≠ st.
Proof.
  intros Hok Heq. apply (f_equal stock_movements) in Heq. revert Hok Heq.
  unfold Transfers.handleValidateTransfer. cbv zeta.
  destruct (stock_levels st !! _) as [sourceStock|]; [|done].
  destruct (sourceStock <? t_quantity trf); [done|].
  intros _.
  destruct (stock_levels (write_stock_level _ _ st) !! _); cbn;
    intros E; apply (f_equal length) in E; rewrite length_app in E;
    simpl in E; lia.
Qed.

Lemma click_receipt_unfold user now id st :
  perform user st (click_receipt now id)
  = match receipts st !! id with
    | Some rcp =>
        if decide (r_status rcp ≠ done)
        then fst (Receipts.handleValidateReceipt user now rcp st) else st
    | None => st
    end.
Proof.
  cbn [perform]. destruct (receipts st !! id) as [rcp|]; [|done].
  unfold click, Receipts.row_action. destruct (decide _); [|done].
  by destruct (Receipts.handleValidateReceipt user now rcp st).
Qed.

Lemma click_transfer_unfold user now id st :
  perform user st (click_transfer now id)
  = match internal_transfers st !! id with
    | Some trf =>
        if decide (t_status trf ≠ done)
        then fst (Transfers.handleValidateTransfer user now trf st) else st
    | None => st
    end.
Proof.
  cbn [perform]. destruct (internal_transfers st !! id) as [trf|]; [|done].
  unfold click, Transfers.row_action. destruct (decide _); [|done].
  by destruct (Transfers.handleValidateTransfer user now trf st).
Qed.

Lemma click_adjustment_unfold user now id st :
  perform user st (click_adjustment now id)
  = match stock_adjustments st !! id with
    | Some adj =>
        if decide (a_status adj ≠ done)
        then fst (Adjustments.handleValidateAdjustment user now adj st) else st
    | None => st
    end.
Proof.
  cbn [perform]. destruct (stock_adjustments st !! id) as [adj|]; [|done].
  unfold click, Adjustments.row_action. destruct (decide _); [|done].
  by destruct (Adjustments.handleValidateAdjustment user now adj st).
Qed.

(** X23. For receipts, transfers and adjustments, a second click on
    Validate changes nothing, whatever the first one did: validated, the
    document is done and its button is gone; rejected, the store is as
    it was and the second attempt is rejected alike.  (Every document
    sitting under its own identifier, as in the stores a session
    reaches.) *)
Theorem second_click_changes_nothing
    (user : option uuid) (now now' : string) (id : uuid) (st : Store) :
  keyed st →
  let again a a' := perform user (perform user st a) a' = perform user st a in
  again (click_receipt now id) (click_receipt now' id)
  ∧ again (click_transfer now id) (click_transfer now' id)
  ∧ again (click_adjustment now id) (click_adjustment now' id).
Proof.
  intros (Hkr & _ & Hkt & Hka). cbv zeta. split_and!.
  - rewrite (click_receipt_unfold user now id st).
    destruct (receipts st !! id) as [rcp|] eqn:Erow.
    2:{ by rewrite click_receipt_unfold, Erow. }
    pose proof (Hkr _ _ Erow) as Hid.
    destruct (decide (r_status rcp ≠ done)) as [Hs | Hs].
    2:{ by rewrite click_receipt_unfold, Erow, decide_False. }
    pose proof (receipt_validate_tables user now rcp st) as Htab. cbv zeta in Htab.
    destruct Htab as ([Hsame | [_ Hr1]] & _).
    + rewrite Hsame, click_receipt_unfold, Erow, decide_True by done.
      unfold Receipts.handleValidateReceipt.
      destruct (Receipts.select_lines (r_id rcp) st) as [[|l0 ls0]|] eqn:Hsel; try done.
      exfalso. by apply (receipt_validated_grows user now rcp st l0 ls0 Hsel).
    + rewrite click_receipt_unfold, Hr1, Hid, lookup_alter_eq, Erow. cbn.
      rewrite decide_False; [done|]. by intros H; apply H.
  - rewrite (click_transfer_unfold user now id st).
    destruct (internal_transfers st !! id) as [trf|] eqn:Erow.
    2:{ by rewrite click_transfer_unfold, Erow. }
    pose proof (Hkt _ _ Erow) as Hid.
    destruct (decide (t_status trf ≠ done)) as [Hs | Hs].
    2:{ by rewrite click_transfer_unfold, Erow, decide_False. }
    pose proof (transfer_validate_tables user now trf st) as Htab. cbv zeta in Htab.
    destruct Htab as ([Hsame | [_ Ht1]] & _).
    + rewrite Hsame, click_transfer_unfold, Erow, decide_True by done.
      destruct (transfer_rejected_or_not user now now' trf st) as [[_ Hrej] | Hok].
      * by rewrite Hrej.
      * exfalso. by apply (transfer_validated_grows user now trf st Hok).
    + rewrite click_transfer_unfold, Ht1, Hid, lookup_alter_eq, Erow. cbn.
      rewrite decide_False; [done|]. by intros H; apply H.
  - rewrite (click_adjustment_unfold user now id st).
    destruct (stock_adjustments st !! id) as [adj|] eqn:Erow.
    2:{ by rewrite click_adjustment_unfold, Erow. }
    pose proof (Hka _ _ Erow) as Hid.
    destruct (decide (a_status adj ≠ done)) as [Hs | Hs].
    2:{ by rewrite click_adjustment_unfold, Erow, decide_False. }
    pose proof (adjustment_validate_tables user now adj st) as Htab. cbv zeta in Htab.
    destruct Htab as (Ha1 & _).
    rewrite click_adjustment_unfold, Ha1, Hid, lookup_alter_eq, Erow. cbn.
    rewrite decide_False; [done|]. by intros H; apply H.
Qed.

Lemma keyed_scenario0 : keyed scenario0.
Proof.
  unfold keyed, scenario0; cbn; split_and!; intros id x H;
    try (apply lookup_singleton_Some in H as [<- <-]; reflexivity).
  by rewrite lookup_empty in H.
Qed.

Lemma second_click_changes_nothing_witness :
  perform alice (perform alice scenario0 (click_receipt "t1" 20%N)) (click_receipt "t2" 20%N)
  = perform alice scenario0 (click_receipt "t1" 20%N).
Proof.
  exact (proj1 (second_click_changes_nothing alice "t1" "t2" 20%N scenario0 keyed_scenario0)).
Defined.


(** ** Stored documents along a session *)

Lemma click_delivery_unfold user now id st :
  perform user st (click_delivery now id)
  = match deliveries st !! id with
    | Some dlv =>
        if decide (d_status dlv ≠ done)
        then fst (Deliveries.handleValidateDelivery user now dlv st) else st
    | None => st
    end.
Proof.
  cbn [perform]. destruct (deliveries st !! id) as [dlv|]; [|done].
  unfold click, Deliveries.row_action. destruct (decide _); [|done].
  by destruct (Deliveries.handleValidateDelivery user now dlv st).
Qed.

(** The tables an action of another page leaves alone. *)
Lemma perform_frame user st a :
  match a with
  | submit_receipt _ _ _ _ _ | click_receipt _ _ =>
      deliveries (perform user st a) = deliveries st
      ∧ internal_transfers (perform user st a) = internal_transfers st
      ∧ stock_adjustments (perform user st a) = stock_adjustments st
  | submit_delivery _ _ _ _ _ | click_delivery _ _ =>
      receipts (perform user st a) = receipts st
      ∧ internal_transfers (perform user st a) = internal_transfers st
      ∧ stock_adjustments (perform user st a) = stock_adjustments st
  | submit_transfer _ _ _ | click_transfer _ _ =>
      receipts (perform user st a) = receipts st
      ∧ deliveries (perform user st a) = deliveries st
      ∧ stock_adjustments (perform user st a) = stock_adjustments st
  | submit_adjustment _ _ _ _ _ | click_adjustment _ _ =>
      receipts (perform user st a) = receipts st
      ∧ deliveries (perform user st a) = deliveries st
      ∧ internal_transfers (perform user st a) = internal_transfers st
  end.
Proof.
  destruct a as [new_id e f sp le | new_id e f sp le | new_id e f | new_id e p w f
                 | now id | now id | now id | now id].
  - cbn [perform].
    by destruct (receipt_submit_store user new_id e f sp le st) as [-> | (w & sp' & _ & _ & ->)].
  - cbn [perform].
    by destruct (delivery_submit_store user new_id e f sp le st) as [-> | (w & sp' & _ & _ & ->)].
  - cbn [perform].
    by destruct (transfer_submit_store user new_id e f st)
      as [-> | (src & dst & p & _ & _ & ->)].
  - cbn [perform].
    by destruct (adjustment_submit_store user new_id e
                   (Adjustments.select_pair p w st Adjustments.initial_ui) f st)
      as [-> | (p' & w' & _ & ->)].
  - rewrite click_receipt_unfold.
    destruct (receipts st !! id) as [rcp|]; [|done]. destruct (decide _); [|done].
    by destruct (receipt_validate_tables user now rcp st) as (_ & _ & ? & _ & ? & ?).
  - rewrite click_delivery_unfold.
    destruct (deliveries st !! id) as [dlv|]; [|done]. destruct (decide _); [|done].
    by destruct (delivery_validate_tables user now dlv st) as (_ & _ & ? & _ & ? & ?).
  - rewrite click_transfer_unfold.
    destruct (internal_transfers st !! id) as [trf|]; [|done]. destruct (decide _); [|done].
    by destruct (transfer_validate_tables user now trf st) as (_ & ? & _ & ? & _ & ?).
  - rewrite click_adjustment_unfold.
    destruct (stock_adjustments st !! id) as [adj|]; [|done]. destruct (decide _); [|done].
    by destruct (adjustment_validate_tables user now adj st) as (_ & ? & _ & ? & _ & ?).
Qed.

Lemma perform_receipt_row user st a id r :
  well_formed st → receipts st !! id = Some r →
  receipts (perform user st a) !! id = Some r
  ∨ (r_status r ≠ done
     ∧ ∃ now, receipts (perform user st a) !! id = Some (Receipts.mark_done now r)).
Proof.
  intros (Hr & _) Hrow.
  pose proof (perform_frame user st a) as Hframe.
  destruct a as [new_id e f sp le | new_id e f sp le | new_id e f | new_id e p w f
                 | now id' | now id' | now id' | now id'];
    try (destruct Hframe as (-> & _); by left).
  - cbn [perform].
    destruct (receipt_submit_store user new_id e f sp le st) as [-> | (w & sp' & Hnew & _ & ->)];
      [by left|].
    left. cbn. rewrite lookup_insert_ne; [done|]. intros ->. congruence.
  - rewrite click_receipt_unfold.
    destruct (receipts st !! id') as [rcp|] eqn:Erow; [|by left].
    destruct (decide (r_status rcp ≠ done)) as [Hs | Hs]; [|by left].
    destruct (Hr _ _ Erow) as [Hid _].
    destruct (receipt_validate_tables user now rcp st) as ([-> | [_ ->]] & _); [by left|].
    rewrite Hid. destruct (decide (id' = id)) as [-> | Hne].
    + right. rewrite Hrow in Erow. injection Erow as <-.
      split; [done|]. exists now. by rewrite lookup_alter_eq, Hrow.
    + left. by rewrite lookup_alter_ne.
Qed.

Lemma perform_delivery_row user st a id d :
  well_formed st → deliveries st !! id = Some d →
  deliveries (perform user st a) !! id = Some d
  ∨ (d_status d ≠ done
     ∧ ∃ now, deliveries (perform user st a) !! id = Some (Deliveries.mark_done now d)).
Proof.
  intros (_ & Hd & _) Hrow.
  pose proof (perform_frame user st a) as Hframe.
  destruct a as [new_id e f sp le | new_id e f sp le | new_id e f | new_id e p w f
                 | now id' | now id' | now id' | now id'];
    try (destruct Hframe as (Hf1 & Hf2 & Hf3); rewrite ?Hf1, ?Hf2; by left).
  - cbn [perform].
    destruct (delivery_submit_store user new_id e f sp le st) as [-> | (w & sp' & Hnew & _ & ->)];
      [by left|].
    left. cbn. rewrite lookup_insert_ne; [done|]. intros ->. congruence.
  - rewrite click_delivery_unfold.
    destruct (deliveries st !! id') as [dlv|] eqn:Erow; [|by left].
    destruct (decide (d_status dlv ≠ done)) as [Hs | Hs]; [|by left].
    destruct (Hd _ _ Erow) as [Hid _].
    destruct (delivery_validate_tables user now dlv st) as ([-> | [_ ->]] & _); [by left|].
    rewrite Hid. destruct (decide (id' = id)) as [-> | Hne].
    + right. rewrite Hrow in Erow. injection Erow as <-.
      split; [done|]. exists now. by rewrite lookup_alter_eq, Hrow.
    + left. by rewrite lookup_alter_ne.
Qed.

Lemma perform_transfer_row user st a id t :
  well_formed st → internal_transfers st !! id = Some t →
  internal_transfers (perform user st a) !! id = Some t
  ∨ (t_status t ≠ done
     ∧ ∃ now, internal_transfers (perform user st a) !! id
              = Some (Transfers.mark_done now t)).
Proof.
  intros (_ & _ & Ht & _) Hrow.
  pose proof (perform_frame user st a) as Hframe.
  destruct a as [new_id e f sp le | new_id e f sp le | new_id e f | new_id e p w f
                 | now id' | now id' | now id' | now id'];
    try (destruct Hframe as (Hf1 & Hf2 & Hf3); rewrite ?Hf2, ?Hf3; by left).
  - cbn [perform].
    destruct (transfer_submit_store user new_id e f st)
      as [-> | (src & dst & p & _ & Hnew & ->)]; [by left|].
    left. cbn. rewrite lookup_insert_ne; [done|]. intros ->. congruence.
  - rewrite click_transfer_unfold.
    destruct (internal_transfers st !! id') as [trf|] eqn:Erow; [|by left].
    destruct (decide (t_status trf ≠ done)) as [Hs | Hs]; [|by left].
    destruct (Ht _ _ Erow) as [Hid _].
    destruct (transfer_validate_tables user now trf st) as ([-> | [_ ->]] & _); [by left|].
    rewrite Hid. destruct (decide (id' = id)) as [-> | Hne].
    + right. rewrite Hrow in Erow. injection Erow as <-.
      split; [done|]. exists now. by rewrite lookup_alter_eq, Hrow.
    + left. by rewrite lookup_alter_ne.
Qed.

Lemma perform_adjustment_row user st a id adj :
  well_formed st → stock_adjustments st !! id = Some adj →
  stock_adjustments (perform user st a) !! id = Some adj
  ∨ (a_status adj ≠ done
     ∧ ∃ now, stock_adjustments (perform user st a) !! id
              = Some (Adjustments.mark_done now adj)).
Proof.
  intros (_ & _ & _ & Ha & _) Hrow.
  pose proof (perform_frame user st a) as Hframe.
  destruct a as [new_id e f sp le | new_id e f sp le | new_id e f | new_id e p w f
                 | now id' | now id' | now id' | now id'];
    try (destruct Hframe as (Hf1 & Hf2 & Hf3); rewrite ?Hf3; by left).
  - cbn [perform].
    destruct (adjustment_submit_store user new_id e
                (Adjustments.select_pair p w st Adjustments.initial_ui) f st)
      as [-> | (p' & w' & Hnew & ->)]; [by left|].
    left. cbn. rewrite lookup_insert_ne; [done|]. intros ->. congruence.
  - rewrite click_adjustment_unfold.
    destruct (stock_adjustments st !! id') as [adj'|] eqn:Erow; [|by left].
    destruct (decide (a_status adj' ≠ done)) as [Hs | Hs]; [|by left].
    destruct (Ha _ _ Erow) as [Hid _].
    destruct (adjustment_validate_tables user now adj' st) as (-> & _).
    rewrite Hid. destruct (decide (id' = id)) as [-> | Hne].
    + right. rewrite Hrow in Erow. injection Erow as <-.
      split; [done|]. exists now. by rewrite lookup_alter_eq, Hrow.
    + left. by rewrite lookup_alter_ne.
Qed.

(** A row either stays as it is or is marked done once, and then stays. *)
Lemma session_row {A} (table : Store → gmap N A) (status : A → Status)
    (mark : string → A → A) user :
  (∀ now x, status (mark now x) = done) →
  (∀ st a id x, well_formed st → table st !! id = Some x →
     table (perform user st a) !! id = Some x
     ∨ (status x ≠ done ∧ ∃ now, table (perform user st a) !! id = Some (mark now x))) →
  ∀ actions st id x, well_formed st → table st !! id = Some x →
    table (session user actions st) !! id = Some x
    ∨ (status x ≠ done ∧ ∃ now, table (session user actions st) !! id = Some (mark now x)).
Proof.
  intros Hmark Hstep actions.
  induction actions as [|a actions IH]; intros st id x Hwf Hrow; [by left|].
  cbn [session foldl]. fold (session user actions (perform user st a)).
  pose proof (well_formed_perform user st a Hwf) as Hwf1.
  destruct (Hstep st a id x Hwf Hrow) as [H1 | (Hs & now & H1)].
  - by apply IH.
  - right. split; [done|]. exists now.
    destruct (IH _ _ _ Hwf1 H1) as [H2 | (Hs2 & _)]; [done|].
    by rewrite Hmark in Hs2.
Qed.

(** X24. No document is ever deleted or edited.  Along a session, from
    any store a session has reached, a stored receipt, delivery,
    transfer or adjustment either stays exactly as it is or, if it was
    not done, becomes the same row marked done and stamped; in
    particular a document that is done is never touched again and keeps
    its validation time. *)
Theorem session_only_marks_done
    (user : option uuid) (earlier later : list Action) (id : uuid) :
  let st := session user earlier empty_store in
  let st' := session user later st in
  (∀ r, receipts st !! id = Some r →
     receipts st' !! id = Some r
     ∨ (r_status r ≠ done ∧ ∃ now, receipts st' !! id = Some (Receipts.mark_done now r)))
  ∧ (∀ d, deliveries st !! id = Some d →
     deliveries st' !! id = Some d
     ∨ (d_status d ≠ done
        ∧ ∃ now, deliveries st' !! id = Some (Deliveries.mark_done now d)))
  ∧ (∀ t, internal_transfers st !! id = Some t →
     internal_transfers st' !! id = Some t
     ∨ (t_status t ≠ done
        ∧ ∃ now, internal_transfers st' !! id = Some (Transfers.mark_done now t)))
  ∧ (∀ a, stock_adjustments st !! id = Some a →
     stock_adjustments st' !! id = Some a
     ∨ (a_status a ≠ done
        ∧ ∃ now, stock_adjustments st' !! id = Some (Adjustments.mark_done now a))).
Proof.
  cbv zeta. pose proof (well_formed_session user earlier) as Hwf.
  split_and!; intros x Hrow.
  - apply (session_row receipts r_status Receipts.mark_done user); try done.
    intros. by apply perform_receipt_row.
  - apply (session_row deliveries d_status Deliveries.mark_done user); try done.
    intros. by apply perform_delivery_row.
  - apply (session_row internal_transfers t_status Transfers.mark_done user); try done.
    intros. by apply perform_transfer_row.
  - apply (session_row stock_adjustments a_status Adjustments.mark_done user); try done.
    intros. by apply perform_adjustment_row.
Qed.


(** ** The sign of what the ledger records *)

Lemma perform_signs user st a :
  well_formed st → within_bounds st →
  Forall sign_ok (stock_movements st) →
  Forall sign_ok (stock_movements (perform user st a)).
Proof.
  intros (Hr & Hd & Ht & Ha & Hrl & Hdl) (Hnn & Hbt & Hba) Hsigns.
  rewrite Forall_forall in Hrl. rewrite Forall_forall in Hdl.
  destruct a as [new_id e f sp le | new_id e f sp le | new_id e f | new_id e p w f
                 | now id | now id | now id | now id].
  - cbn [perform].
    by destruct (receipt_submit_store user new_id e f sp le st) as [-> | (w & sp' & _ & _ & ->)].
  - cbn [perform].
    by destruct (delivery_submit_store user new_id e f sp le st) as [-> | (w & sp' & _ & _ & ->)].
  - cbn [perform].
    by destruct (transfer_submit_store user new_id e f st)
      as [-> | (src & dst & p & _ & _ & ->)].
  - cbn [perform].
    by destruct (adjustment_submit_store user new_id e
                   (Adjustments.select_pair p w st Adjustments.initial_ui) f st)
      as [-> | (p' & w' & _ & ->)].
  - rewrite click_receipt_unfold.
    destruct (receipts st !! id) as [rcp|]; [|done]. destruct (decide _); [|done].
    unfold Receipts.handleValidateReceipt, Receipts.select_lines.
    assert (Hls : ∀ l, l ∈ filter (λ l, rl_receipt_id l = r_id rcp) (receipt_lines st)
                       → 0 < rl_quantity l).
    { intros l Hl. apply list_elem_of_filter in Hl as [_ Hl]. by apply Hrl. }
    destruct (filter _ (receipt_lines st)) as [|l0 ls0]; [done|].
    unfold Receipts.validate_with. cbn [fst set_receipts stock_movements].
    rewrite post_lines_movements. apply Forall_app. split; [done|].
    apply Forall_fmap, Forall_forall. intros l Hl. unfold sign_ok. simpl. by apply Hls.
  - rewrite click_delivery_unfold.
    destruct (deliveries st !! id) as [dlv|]; [|done]. destruct (decide _); [|done].
    unfold Deliveries.handleValidateDelivery, Deliveries.select_lines.
    assert (Hls : ∀ l, l ∈ filter (λ l, dl_delivery_id l = d_id dlv) (delivery_lines st)
                       → 0 < dl_quantity l).
    { intros l Hl. apply list_elem_of_filter in Hl as [_ Hl]. by apply Hdl. }
    destruct (filter _ (delivery_lines st)) as [|l0 ls0]; [done|].
    unfold Deliveries.validate_with.
    destruct (Deliveries.post_lines user dlv (l0 :: ls0) st) as [st1 | st1] eqn:Hrun.
    + destruct (delivery_loop_stops_at user dlv _ _ _ Hrun)
        as (posted & line & rest & Hsplit & Hposted & _).
      cbn [fst]. rewrite (delivery_loop_movements user dlv _ _ _ Hposted).
      apply Forall_app. split; [done|].
      apply Forall_fmap, Forall_forall. intros l Hl. unfold sign_ok. simpl.
      assert (0 < dl_quantity l); [|lia].
      apply Hls. rewrite Hsplit. apply elem_of_app. by left.
    + cbn [fst set_deliveries stock_movements].
      rewrite (delivery_loop_movements user dlv _ _ _ Hrun).
      apply Forall_app. split; [done|].
      apply Forall_fmap, Forall_forall. intros l Hl. unfold sign_ok. simpl.
      assert (0 < dl_quantity l); [by apply Hls | lia].
  - rewrite click_transfer_unfold.
    destruct (internal_transfers st !! id) as [trf|] eqn:Erow; [|done].
    destruct (decide _); [|done].
    pose proof (Hbt _ _ Erow) as Hq. simpl in Hq.
    unfold Transfers.handleValidateTransfer. cbv zeta.
    destruct (stock_levels st !! _) as [sourceStock|]; [|done].
    destruct (sourceStock <? t_quantity trf); [done|].
    destruct (stock_levels (write_stock_level _ _ st) !! _); cbn;
      (apply Forall_app; split; [done|]);
      repeat constructor; unfold sign_ok; simpl; lia.
  - rewrite click_adjustment_unfold.
    destruct (stock_adjustments st !! id) as [adj|]; [|done]. destruct (decide _); [|done].
    unfold Adjustments.handleValidateAdjustment. cbv zeta.
    destruct (stock_levels st !! _); cbn;
      (apply Forall_app; split; [done|]); by repeat constructor.
Qed.

Lemma session_signs user actions st :
  well_formed st → within_bounds st → Forall sign_ok (stock_movements st) →
  Forall form_bounds actions →
  Forall sign_ok (stock_movements (session user actions st)).
Proof.
  revert st. induction actions as [|a actions IH]; intros st Hwf Hb Hs Hforms; [done|].
  apply Forall_cons in Hforms as [Ha Hforms].
  apply IH; [by apply well_formed_perform | by apply within_bounds_perform
            | by apply perform_signs | done].
Qed.

(** X26. Along a session from the empty store in which the forms are
    filled within their bounds, every movement in the ledger carries
    the sign of its kind: receipts and transfers in are positive,
    deliveries and transfers out are negative.  On the Move History page
    the former are therefore shown with a leading plus and the latter
    without one. *)
Theorem session_movements_are_signed
    (user : option uuid) (actions : list Action) (m : StockMovement) :
  Forall form_bounds actions →
  m ∈ stock_movements (session user actions empty_store) →
  sign_ok m
  ∧ (mv_movement_type m = mt_receipt ∨ mv_movement_type m = mt_transfer_in
     → MoveHistory.quantity_prefix m = "+")
  ∧ (mv_movement_type m = mt_delivery ∨ mv_movement_type m = mt_transfer_out
     → MoveHistory.quantity_prefix m = String.EmptyString).
Proof.
  intros Hforms Hin.
  assert (Hs : Forall sign_ok (stock_movements (session user actions empty_store))).
  { apply session_signs; [| | by constructor | done].
    - unfold well_formed; cbn; split_and!; try apply map_Forall_empty; apply Forall_nil_2.
    - unfold within_bounds; cbn; split_and!; try apply map_Forall_empty. }
  rewrite Forall_forall in Hs. specialize (Hs m Hin).
  split; [done|]. unfold sign_ok in Hs. unfold MoveHistory.quantity_prefix.
  split; intros [Ht | Ht]; rewrite Ht in Hs.
  - by destruct (Z.ltb_spec 0 (mv_quantity m)); [|lia].
  - by destruct (Z.ltb_spec 0 (mv_quantity m)); [|lia].
  - by destruct (Z.ltb_spec 0 (mv_quantity m)); [lia|].
  - by destruct (Z.ltb_spec 0 (mv_quantity m)); [lia|].
Qed.

Lemma session_movements_are_signed_witness :
  let fr := {| Receipts.f_supplier_name := "Acme"; Receipts.f_warehouse_id := Some WH_MAIN;
               Receipts.f_notes := "none" |} in
  let actions :=
    [ submit_receipt 20%N "1" fr [ {| productId := Some X1; quantity := 10 |} ] None;
      click_receipt "t1" 20%N ] in
  let m := {| mv_product_id := X1; mv_warehouse_id := WH_MAIN;
              mv_movement_type := mt_receipt; mv_quantity := 10;
              mv_reference_id := 20%N; mv_reference_type := "receipt";
              mv_notes := None; mv_created_by := alice |} in
  MoveHistory.quantity_prefix m = "+".
Proof.
  intros fr actions m.
  refine (proj1 (proj2 (session_movements_are_signed alice actions m _ _)) _).
  - repeat constructor.
  - vm_compute. by left.
  - by left.
Defined.

(** * Balances and movements as the handlers compute them

    The statements of this part are about the handlers of [F64]: what a
    stock level and a movement hold after a validation, number for
    number.  Decimal literals stand for the binary64 numbers nearest to
    them. *)

Section Doubles.

Import F64.

Set Warnings "-inexact-float".

(** ** The column and binary64 *)

(** What a column received reads back as itself. *)
Lemma decimal_stored x v : decimal x = Some v → stored v.
Proof.
  unfold stored, decimal.
  destruct (is_nan x || is_infinity x) eqn:E1; [discriminate|].
  destruct (is_zero x) eqn:E2; intros [= <-].
  - reflexivity.
  - by rewrite E1, E2.
Qed.

(** Two numbers that differ are two different column values. *)
Lemma differ (x y : float) : Prim2SF x ≠ Prim2SF y → Some x ≠ Some y.
Proof.
  intros H E. apply H.
  exact (f_equal (λ o, match o with Some v => Prim2SF v | None => S754_nan end) E).
Qed.

Lemma SFeqb_refl x : SFeqb x x = match x with S754_nan => false | _ => true end.
Proof.
  destruct x as [s|s| |s m e]; unfold SFeqb; simpl; try done.
  - by destruct s.
  - destruct s; rewrite Z.compare_refl, ?Pos.compare_cont_refl; simpl; try done.
Qed.

Lemma is_nan_spec x : is_nan x = match Prim2SF x with S754_nan => true | _ => false end.
Proof.
  unfold is_nan. rewrite eqb_spec, SFeqb_refl. by destruct (Prim2SF x).
Qed.

Lemma is_infinity_spec x :
  is_infinity x = match Prim2SF x with S754_infinity _ => true | _ => false end.
Proof.
  unfold is_infinity. rewrite eqb_spec, abs_spec.
  change (Prim2SF infinity) with (S754_infinity false).
  by destruct (Prim2SF x).
Qed.

Lemma is_zero_spec x :
  is_zero x = match Prim2SF x with S754_zero _ => true | _ => false end.
Proof.
  unfold is_zero. rewrite eqb_spec.
  change (Prim2SF zero) with (S754_zero false).
  destruct (Prim2SF x) as [s|s| |s m e]; try done; by destruct s.
Qed.

(** The opposite of a stored number other than zero is a stored number. *)
Lemma stored_opp q : stored q → is_zero q = false → stored (- q).
Proof.
  unfold stored, decimal. intros Hq Hz.
  rewrite is_nan_spec, is_infinity_spec, is_zero_spec in *.
  rewrite !opp_spec.
  destruct (Prim2SF q); simpl in *; done.
Qed.

(** A stored number and its opposite add up to zero, without rounding. *)
Lemma opp_add_self q : stored q → (- q + q)%float = 0%float.
Proof.
  unfold stored, decimal. intros Hq.
  rewrite is_nan_spec, is_infinity_spec, is_zero_spec in Hq.
  apply Prim2SF_inj. rewrite add_spec, opp_spec.
  change (Prim2SF 0) with (S754_zero false).
  destruct (Prim2SF q) as [s|s| |s m e] eqn:E; simpl in Hq; try done.
  - injection Hq as <-. vm_compute in E. by injection E as <-.
  - unfold SF64add, SFadd. cbn [SFopp].
    rewrite Z.min_id. unfold shl_align. rewrite Z.sub_diag. cbn [fst].
    destruct s; cbn [negb cond_Zopp Z.opp];
      rewrite ?Z.add_opp_diag_r, ?Z.add_opp_diag_l; reflexivity.
Qed.

(** A number above zero that the column accepts is stored as it is. *)
Lemma positive_stored q v : (0 <? q)%float = true → decimal q = Some v → v = q.
Proof.
  unfold decimal. intros Hpos.
  destruct (is_nan q || is_infinity q); [discriminate|].
  destruct (is_zero q) eqn:Ez; [|by intros [= <-]].
  rewrite ltb_spec in Hpos. rewrite is_zero_spec in Ez.
  change (Prim2SF 0) with (S754_zero false) in Hpos.
  by destruct (Prim2SF q).
Qed.

(** ** Store primitives *)

Lemma write_stock_level_levels key q st key' :
  stock_levels (write_stock_level key q st) !! key'
  = if decide (key = key')
    then match decimal q with Some v => Some v | None => stock_levels st !! key' end
    else stock_levels st !! key'.
Proof.
  unfold write_stock_level.
  destruct (decimal q) as [v|]; simpl.
  - destruct (decide _) as [<- | Hne];
      [by rewrite lookup_insert_eq | by rewrite lookup_insert_ne].
  - by destruct (decide _).
Qed.

Lemma write_stock_level_frame key q st :
  stock_movements (write_stock_level key q st) = stock_movements st
  ∧ receipts (write_stock_level key q st) = receipts st
  ∧ receipt_lines (write_stock_level key q st) = receipt_lines st
  ∧ deliveries (write_stock_level key q st) = deliveries st
  ∧ delivery_lines (write_stock_level key q st) = delivery_lines st
  ∧ internal_transfers (write_stock_level key q st) = internal_transfers st
  ∧ stock_adjustments (write_stock_level key q st) = stock_adjustments st.
Proof. unfold write_stock_level. by destruct (decimal q). Qed.

Lemma insert_movements_frame ms st :
  stock_levels (insert_movements ms st) = stock_levels st
  ∧ receipts (insert_movements ms st) = receipts st
  ∧ receipt_lines (insert_movements ms st) = receipt_lines st
  ∧ deliveries (insert_movements ms st) = deliveries st
  ∧ delivery_lines (insert_movements ms st) = delivery_lines st
  ∧ internal_transfers (insert_movements ms st) = internal_transfers st
  ∧ stock_adjustments (insert_movements ms st) = stock_adjustments st.
Proof. unfold insert_movements. by destruct (mapM _ _). Qed.

(** Movements of stored quantities are appended as they are. *)
Lemma insert_movements_stored ms st :
  Forall (λ m, stored (mv_quantity m)) ms →
  stock_movements (insert_movements ms st) = stock_movements st ++ ms.
Proof.
  intros Hms. unfold insert_movements.
  assert (mapM ledger_row ms = Some ms) as ->; [|done].
  apply mapM_Some. induction Hms as [|m ms Hm Hms IH]; constructor; [|done].
  unfold ledger_row. rewrite Hm. by destruct m.
Qed.

Lemma insert_movement_stored m st :
  stored (mv_quantity m) →
  stock_movements (insert_movements [m] st) = stock_movements st ++ [m].
Proof. intros Hq. apply insert_movements_stored. by constructor. Qed.

(** The update-or-insert that brings a quantity in. *)
Lemma credit_levels key q st key' :
  stock_levels
    (match stock_levels st !! key with
     | Some existing => write_stock_level key (existing + q)%float st
     | None => write_stock_level key q st
     end) !! key'
  = if decide (key = key') then credited (stock_levels st !! key) q
    else stock_levels st !! key'.
Proof.
  destruct (stock_levels st !! key) as [existing|] eqn:E;
    rewrite write_stock_level_levels;
    (destruct (decide _) as [<- | Hne]; [|done]); simpl.
  - rewrite E. by destruct (decimal _).
  - rewrite E. by destruct (decimal _).
Qed.

(** ** Receipts *)

Lemma receipt_line_levels user rcp st line key :
  stock_levels (Receipts.post_line user rcp st line) !! key
  = if decide (key = (rl_product_id line, r_warehouse_id rcp))
    then credited (stock_levels st !! key) (rl_quantity line)
    else stock_levels st !! key.
Proof.
  unfold Receipts.post_line. cbv zeta.
  rewrite (proj1 (insert_movements_frame _ _)), credit_levels.
  destruct (decide (key = _)) as [-> | Hne].
  - by rewrite decide_True.
  - by rewrite decide_False.
Qed.

Lemma receipt_line_movements user rcp st line :
  stored (rl_quantity line) →
  stock_movements (Receipts.post_line user rcp st line)
  = stock_movements st ++ [Receipts.movement_of user rcp line].
Proof.
  intros Hq. unfold Receipts.post_line. cbv zeta.
  rewrite insert_movement_stored by done.
  by destruct (stock_levels st !! _);
    rewrite (proj1 (write_stock_level_frame _ _ _)).
Qed.

Lemma receipt_line_keeps_receipts user rcp st line :
  receipts (Receipts.post_line user rcp st line) = receipts st.
Proof.
  unfold Receipts.post_line. cbv zeta.
  rewrite (proj1 (proj2 (insert_movements_frame _ _))).
  by destruct (stock_levels st !! _);
    rewrite (proj1 (proj2 (write_stock_level_frame _ _ _))).
Qed.

(** The loop, pair by pair: the lines of the pair's product are credited
    in their order, and the pairs of other warehouses are left alone. *)
Lemma receipt_lines_levels user rcp ls st p w :
  stock_levels (foldl (Receipts.post_line user rcp) st ls) !! (p, w)
  = if decide (w = r_warehouse_id rcp)
    then received p ls (stock_levels st !! (p, w))
    else stock_levels st !! (p, w).
Proof.
  revert st. induction ls as [|line ls IH]; intros st.
  - simpl. by destruct (decide _).
  - cbn [foldl]. rewrite IH, receipt_line_levels.
    destruct (decide (w = r_warehouse_id rcp)) as [-> | Hw].
    + unfold received. rewrite filter_cons.
      destruct (decide (rl_product_id line = p)) as [<- | Hp].
      * rewrite decide_True by done. reflexivity.
      * rewrite decide_False by congruence. reflexivity.
    + rewrite decide_False by congruence. reflexivity.
Qed.

Lemma receipt_lines_movements user rcp ls st :
  Forall (λ l, stored (rl_quantity l)) ls →
  stock_movements (foldl (Receipts.post_line user rcp) st ls)
  = stock_movements st ++ (Receipts.movement_of user rcp <$> ls).
Proof.
  intros Hls. revert st. induction Hls as [|line ls Hq Hls IH]; intros st; simpl.
  - by rewrite app_nil_r.
  - rewrite IH, receipt_line_movements, <- app_assoc by done. reflexivity.
Qed.

Lemma receipt_lines_keep_receipts user rcp ls st :
  receipts (foldl (Receipts.post_line user rcp) st ls) = receipts st.
Proof.
  revert st. induction ls as [|line ls IH]; intros st; simpl; [done|].
  by rewrite IH, receipt_line_keeps_receipts.
Qed.

(** C3, as the handler behaves on a balance in hundredths.  A count of
    0.14 of [X1] is entered and validated in [WH_MAIN], then a receipt
    of 1 is entered and validated there.  The balance the claim
    announces is 0.14 + 1 = 1.14; the handler stores
    [Number(0.14) + Number(1)], which is 1.1400000000000001. *)
Lemma receipt_stores_rounded_sum :
  let st := session alice (count 50%N X1 WH_MAIN 0.14) empty_store in
  let st' := session alice (receive 20%N X1 WH_MAIN 1) st in
  stock_levels st !! (X1, WH_MAIN) = Some 0.14%float
  ∧ rl_quantity <$> receipt_lines st' = [1%float]
  ∧ r_status <$> receipts st' !! 20%N = Some done
  ∧ stock_levels st' !! (X1, WH_MAIN) = Some 1.1400000000000001%float
  ∧ stock_levels st' !! (X1, WH_MAIN) ≠ Some 1.14%float.
Proof.
  cbv zeta. split_and!; try (vm_compute; reflexivity).
  vm_compute (stock_levels _ !! _). apply differ. vm_compute. discriminate.
Qed.

(** C3, amended.  Validating a receipt that has at least one line (the
    stored lines that carry its identifier) leaves every pair of the
    receipt's warehouse holding what the lines of the pair's product,
    taken in their order, credit to it: JavaScript's sum of the balance
    and the line's quantity where the pair has a row, the line's
    quantity where it has none; it leaves the pairs of other warehouses
    alone, appends one [receipt] movement of the line's quantity per
    line, in the order of the lines, marks the receipt [done] with
    [validated_at] stamped, and notifies success. *)
Theorem receipt_validation_posts
    (user : option uuid) (now : string) (rcp : Receipt) (st : Store) :
  let ls := filter (λ l, rl_receipt_id l = r_id rcp) (receipt_lines st) in
  ls ≠ [] →
  Forall (λ l, stored (rl_quantity l)) ls →
  is_Some (receipts st !! r_id rcp) →
  let st' := fst (Receipts.handleValidateReceipt user now rcp st) in
  (∀ p w,
     stock_levels st' !! (p, w)
     = if decide (w = r_warehouse_id rcp)
       then received p ls (stock_levels st !! (p, w))
       else stock_levels st !! (p, w))
  ∧ stock_movements st'
    = stock_movements st
      ++ ((λ line, {| mv_product_id := rl_product_id line;
                      mv_warehouse_id := r_warehouse_id rcp;
                      mv_movement_type := mt_receipt;
                      mv_quantity := rl_quantity line;
                      mv_reference_id := r_id rcp;
                      mv_reference_type := "receipt";
                      mv_notes := None;
                      mv_created_by := user |}) <$> ls)
  ∧ (∃ row, receipts st' !! r_id rcp = Some row
            ∧ r_status row = done ∧ r_validated_at row = Some now)
  ∧ snd (Receipts.handleValidateReceipt user now rcp st)
    = toast_success "Receipt validated and stock updated".
Proof.
  intros ls Hne Hstored [row Hrow] st'. subst st'.
  unfold Receipts.handleValidateReceipt, Receipts.select_lines. fold ls.
  destruct ls as [|l0 ls0] eqn:El; [done|]. rewrite <- El in *. clear El.
  assert (Hv : Receipts.validate_with user (Some ls) now rcp st
               = (set_receipts (alter (Receipts.mark_done now) (r_id rcp)
                                  (receipts (foldl (Receipts.post_line user rcp) st ls)))
                    (foldl (Receipts.post_line user rcp) st ls),
                  toast_success "Receipt validated and stock updated")).
  { unfold Receipts.validate_with. destruct ls; [done | reflexivity]. }
  rewrite Hv. cbn [fst snd]. split; [|split; [|split]].
  - intros p w. cbn [set_receipts stock_levels]. apply receipt_lines_levels.
  - cbn [set_receipts stock_movements]. by apply receipt_lines_movements.
  - exists (Receipts.mark_done now row). cbn [set_receipts receipts].
    rewrite receipt_lines_keep_receipts, lookup_alter_eq, Hrow. done.
  - reflexivity.
Qed.

(** The receipt of 1 onto the 0.14 counted: the theorem gives the
    balance the handler stores. *)
Lemma receipt_validation_posts_witness :
  let st := session alice (count 50%N X1 WH_MAIN 0.14
                           ++ [enter_receipt 20%N X1 WH_MAIN 1]) empty_store in
  let rcp := {| r_id := 20%N; r_receipt_number := "RCP-1763783598001";
                r_supplier_name := "Acme"; r_warehouse_id := WH_MAIN;
                r_status := draft; r_validated_at := None |} in
  let st' := fst (Receipts.handleValidateReceipt alice "t" rcp st) in
  receipts st !! 20%N = Some rcp
  ∧ stock_levels st' !! (X1, WH_MAIN) = Some 1.1400000000000001%float
  ∧ stock_levels st' !! (X1, WH_SEC) = None
  ∧ mv_quantity <$> stock_movements st' = [0.14%float; 1%float].
Proof.
  intros st rcp st'.
  destruct (receipt_validation_posts alice "t" rcp st) as (Hl & Hm & _).
  - vm_compute. discriminate.
  - vm_compute. repeat constructor.
  - vm_compute. by eexists.
  - split; [vm_compute; reflexivity|]. subst st'. split; [|split].
    + rewrite (Hl X1 WH_MAIN). vm_compute. reflexivity.
    + rewrite (Hl X1 WH_SEC). vm_compute. reflexivity.
    + rewrite Hm. vm_compute. reflexivity.
Defined.

(** ** Transfers *)




(** ** Adjustments *)

(** What a successful [handleSubmit] stores. *)
Lemma adjustment_submit_stores user new_id epoch_ms ui f st0 st1 ui1 msg :
  Adjustments.handleSubmit user new_id epoch_ms ui f st0 = (st1, ui1, toast_success msg) →
  ∃ p w c s d,
    Adjustments.selectedProduct ui = Some p ∧ Adjustments.selectedWarehouse ui = Some w
    ∧ is_Some user
    ∧ stock_adjustments st0 !! new_id = None
    ∧ decimal (Adjustments.f_counted_quantity f) = Some c
    ∧ decimal (Adjustments.systemQty ui) = Some s
    ∧ decimal (Adjustments.f_counted_quantity f - Adjustments.systemQty ui)%float = Some d
    ∧ ui1 = Adjustments.initial_ui
    ∧ st1 = set_stock_adjustments
              (<[new_id := {| a_id := new_id;
                              a_adjustment_number := "ADJ-" +:+ epoch_ms;
                              a_product_id := p; a_warehouse_id := w;
                              a_counted_quantity := c;
                              a_system_quantity := s;
                              a_difference := d;
                              a_reason := Adjustments.f_reason f;
                              a_status := draft; a_validated_at := None |}]>
                 (stock_adjustments st0)) st0.
Proof.
  unfold Adjustments.handleSubmit, Adjustments.insert_adjustment, Adjustments.new_row.
  destruct (Adjustments.selectedProduct ui) as [p|]; [|discriminate].
  destruct (Adjustments.selectedWarehouse ui) as [w|]; [|discriminate].
  destruct user; [|discriminate].
  destruct (decimal (Adjustments.f_counted_quantity f)) as [c|]; [|discriminate].
  destruct (decimal (Adjustments.systemQty ui)) as [s|]; [|discriminate].
  destruct (decimal (_ - _)%float) as [d|]; [|discriminate].
  destruct (stock_adjustments st0 !! new_id) eqn:E; [discriminate|].
  intros [= <- <- _]. exists p, w, c, s, d. repeat split; try done.
Qed.




(** X27. The adjustment form either stores exactly one new draft and
    resets itself, or changes nothing.  On an error notification the
    store and the form are as they were.  On success a product and a
    warehouse were chosen, the identifier was not in use, the three
    numbers sent (the count entered, the system quantity shown and
    JavaScript's difference of the two) are numbers the columns accept,
    the form is back to no selection, and the store differs only by the
    new row: a draft never validated that carries those three numbers as
    the columns hold them, under the number ["ADJ-"] followed by the
    clock. *)
Theorem adjustment_submit_all_or_nothing
    (user : option uuid) (new_id : uuid) (epoch_ms : string)
    (ui ui' : Adjustments.Ui) (f : Adjustments.Form) (st st' : Store) (t : Toast) :
  Adjustments.handleSubmit user new_id epoch_ms ui f st = (st', ui', t) →
  match t with
  | toast_error _ => st' = st ∧ ui' = ui
  | toast_success _ =>
      ∃ p w c s d,
        Adjustments.selectedProduct ui = Some p
        ∧ Adjustments.selectedWarehouse ui = Some w
        ∧ is_Some user
        ∧ stock_adjustments st !! new_id = None
        ∧ decimal (Adjustments.f_counted_quantity f) = Some c
        ∧ decimal (Adjustments.systemQty ui) = Some s
        ∧ decimal (Adjustments.f_counted_quantity f - Adjustments.systemQty ui)%float
          = Some d
        ∧ ui' = Adjustments.initial_ui
        ∧ st' = set_stock_adjustments
                  (<[new_id := {| a_id := new_id;
                                  a_adjustment_number := "ADJ-" +:+ epoch_ms;
                                  a_product_id := p; a_warehouse_id := w;
                                  a_counted_quantity := c;
                                  a_system_quantity := s;
                                  a_difference := d;
                                  a_reason := Adjustments.f_reason f;
                                  a_status := draft; a_validated_at := None |}]>
                     (stock_adjustments st)) st
  end.
Proof.
  destruct t as [msg | msg].
  - unfold Adjustments.handleSubmit.
    destruct (Adjustments.insert_adjustment _ _ _ _ _ _); [|discriminate].
    by intros [= <- <- _].
  - apply adjustment_submit_stores.
Qed.

(** Submitted before a product and a warehouse are chosen, the form is
    refused and keeps what was entered. *)
Lemma adjustment_submit_all_or_nothing_witness :
  let f := {| Adjustments.f_counted_quantity := 0.3%float;
              Adjustments.f_reason := "count" |} in
  (Adjustments.handleSubmit alice 50%N "1763783598000" Adjustments.initial_ui f
     scenario0).1
  = (scenario0, Adjustments.initial_ui).
Proof.
  intros f.
  destruct (adjustment_submit_all_or_nothing alice 50%N "1763783598000"
              Adjustments.initial_ui
              (Adjustments.handleSubmit alice 50%N "1763783598000"
                 Adjustments.initial_ui f scenario0).1.2
              f scenario0
              (Adjustments.handleSubmit alice 50%N "1763783598000"
                 Adjustments.initial_ui f scenario0).1.1
              (toast_error not_null_violation) eq_refl) as [H1 H2].
  exact (eq_trans (surjective_pairing _) (f_equal2 pair H1 H2)).
Defined.

(** ** Deliveries *)

Lemma delivery_line_posts user dlv st st1 line :
  Deliveries.post_line user dlv st line = Some st1 →
  stored (- dl_quantity line)%float →
  (∀ key, stock_levels st1 !! key
          = if decide (key = (dl_product_id line, d_warehouse_id dlv))
            then (λ existing, debited existing (dl_quantity line)) <$> stock_levels st !! key
            else stock_levels st !! key)
  ∧ stock_movements st1 = stock_movements st ++ [Deliveries.movement_of user dlv line]
  ∧ deliveries st1 = deliveries st.
Proof.
  unfold Deliveries.post_line. cbv zeta.
  set (k := (dl_product_id line, d_warehouse_id dlv)).
  destruct (stock_levels st !! k) as [existing|] eqn:E; [|discriminate].
  destruct (existing <? dl_quantity line)%float; [discriminate|].
  intros [= <-] Hq. split; [|split].
  - intros key. rewrite (proj1 (insert_movements_frame _ _)), write_stock_level_levels.
    destruct (decide (key = k)) as [-> | Hne].
    + rewrite decide_True by done. rewrite E. simpl. unfold debited.
      by destruct (decimal _).
    + by rewrite decide_False.
  - rewrite insert_movement_stored by done.
    by rewrite (proj1 (write_stock_level_frame _ _ _)).
  - destruct (insert_movements_frame [Deliveries.movement_of user dlv line]
                (write_stock_level k (existing - dl_quantity line)%float st))
      as (_ & _ & _ & -> & _).
    by destruct (write_stock_level_frame k (existing - dl_quantity line)%float st)
      as (_ & _ & _ & -> & _).
Qed.

Lemma delivery_lines_post user dlv ls st st' :
  Deliveries.post_lines user dlv ls st = inr st' →
  Forall (λ l, stored (- dl_quantity l)%float) ls →
  (∀ p w, stock_levels st' !! (p, w)
          = if decide (w = d_warehouse_id dlv)
            then delivered p ls (stock_levels st !! (p, w))
            else stock_levels st !! (p, w))
  ∧ stock_movements st'
    = stock_movements st ++ (Deliveries.movement_of user dlv <$> ls)
  ∧ deliveries st' = deliveries st.
Proof.
  intros Hrun Hls. revert st Hrun.
  induction Hls as [|line ls Hq Hls IH]; intros st Hrun.
  - injection Hrun as <-. split; [|split]; [|by rewrite app_nil_r|done].
    intros p w. by destruct (decide _).
  - cbn [Deliveries.post_lines] in Hrun.
    destruct (Deliveries.post_line user dlv st line) as [st1|] eqn:E; [|discriminate].
    destruct (delivery_line_posts _ _ _ _ _ E Hq) as (Hl1 & Hm1 & Hd1).
    destruct (IH _ Hrun) as (Hl & Hm & Hd).
    split; [|split].
    + intros p w. rewrite Hl, Hl1.
      destruct (decide (w = d_warehouse_id dlv)) as [-> | Hw].
      * unfold delivered. rewrite filter_cons.
        destruct (decide (dl_product_id line = p)) as [<- | Hp].
        -- by rewrite decide_True.
        -- by rewrite decide_False by congruence.
      * by rewrite decide_False by congruence.
    + rewrite Hm, Hm1, <- app_assoc. reflexivity.
    + by rewrite Hd, Hd1.
Qed.

(** X1. A delivery that is validated with success has at least one
    line, and leaves every pair of its warehouse holding what is left
    once the lines of the pair's product, taken in their order, have
    been taken off: JavaScript's difference of the balance and the
    line's quantity, line after line.  The pairs of other warehouses
    are left alone, one [delivery] movement of minus the line's quantity
    is appended per line, in the order of the lines, and the delivery is
    marked [done] with [validated_at] stamped. *)
Theorem delivery_validation_posts
    (user : option uuid) (now : string) (dlv : Delivery) (st : Store) :
  let ls := filter (λ l, dl_delivery_id l = d_id dlv) (delivery_lines st) in
  snd (Deliveries.handleValidateDelivery user now dlv st)
  = toast_success "Delivery validated and stock updated" →
  Forall (λ l, stored (dl_quantity l) ∧ is_zero (dl_quantity l) = false) ls →
  is_Some (deliveries st !! d_id dlv) →
  let st' := fst (Deliveries.handleValidateDelivery user now dlv st) in
  ls ≠ []
  ∧ (∀ p w,
       stock_levels st' !! (p, w)
       = if decide (w = d_warehouse_id dlv)
         then delivered p ls (stock_levels st !! (p, w))
         else stock_levels st !! (p, w))
  ∧ stock_movements st'
    = stock_movements st
      ++ ((λ line, {| mv_product_id := dl_product_id line;
                      mv_warehouse_id := d_warehouse_id dlv;
                      mv_movement_type := mt_delivery;
                      mv_quantity := (- dl_quantity line)%float;
                      mv_reference_id := d_id dlv;
                      mv_reference_type := "delivery";
                      mv_notes := None;
                      mv_created_by := user |}) <$> ls)
  ∧ (∃ row, deliveries st' !! d_id dlv = Some row
            ∧ d_status row = done ∧ d_validated_at row = Some now).
Proof.
  intros ls Hok Hstored [row Hrow] st'. subst st'. revert Hok.
  unfold Deliveries.handleValidateDelivery, Deliveries.select_lines. fold ls.
  assert (Hneg : Forall (λ l, stored (- dl_quantity l)%float) ls).
  { eapply Forall_impl; [exact Hstored|]. intros l [H1 H2]. by apply stored_opp. }
  destruct ls as [|l0 ls0] eqn:El; [discriminate|]. rewrite <- El in *.
  assert (Hv : Deliveries.validate_with user (Some ls) now dlv st
               = match Deliveries.post_lines user dlv ls st with
                 | inl st1 => (st1, toast_error "Insufficient stock for this delivery")
                 | inr st1 =>
                     (set_deliveries
                        (alter (Deliveries.mark_done now) (d_id dlv) (deliveries st1)) st1,
                      toast_success "Delivery validated and stock updated")
                 end).
  { unfold Deliveries.validate_with. rewrite El. reflexivity. }
  rewrite Hv. clear Hv.
  destruct (Deliveries.post_lines user dlv ls st) as [st1 | st1] eqn:E; [discriminate|].
  intros _. destruct (delivery_lines_post _ _ _ _ _ E Hneg) as (Hl & Hm & Hd).
  cbn [fst set_deliveries stock_levels stock_movements deliveries].
  split; [by rewrite El|]. split; [done|]. split; [done|].
  exists (Deliveries.mark_done now row). rewrite Hd, lookup_alter_eq, Hrow. done.
Qed.

(** A delivery of 1 out of the 1.01 counted leaves
    0.010000000000000009. *)
Lemma delivery_validation_posts_witness :
  let st0 := session alice (count 50%N X1 WH_MAIN 1.01) empty_store in
  let form := {| Deliveries.f_customer_name := "Bob";
                 Deliveries.f_warehouse_id := Some WH_MAIN;
                 Deliveries.f_notes := "none" |} in
  let st := session alice
              [ submit_delivery 30%N "1763783598003" form
                  [ {| productId := Some X1; quantity := 1%float |} ] None ] st0 in
  let dlv := {| d_id := 30%N; d_delivery_number := "DEL-1763783598003";
                d_customer_name := "Bob"; d_warehouse_id := WH_MAIN;
                d_status := draft; d_validated_at := None |} in
  let st' := fst (Deliveries.handleValidateDelivery alice "t" dlv st) in
  deliveries st !! 30%N = Some dlv
  ∧ stock_levels st' !! (X1, WH_MAIN) = Some 0.010000000000000009%float
  ∧ mv_quantity <$> stock_movements st' = [1.01%float; (-1)%float].
Proof.
  intros st0 form st dlv st'.
  destruct (delivery_validation_posts alice "t" dlv st) as (_ & Hl & Hm & _).
  - vm_compute. reflexivity.
  - vm_compute. repeat constructor.
  - vm_compute. by eexists.
  - split; [vm_compute; reflexivity|]. subst st'. split.
    + rewrite (Hl X1 WH_MAIN). vm_compute. reflexivity.
    + rewrite Hm. vm_compute. reflexivity.
Defined.

(** ** From the receipt form to the shelf *)

(** The rows the lines insert stores are the lines themselves: their
    quantities are above zero. *)
Lemma new_lines_rows rid selectedProducts rows :
  mapM Receipts.line_row (Receipts.new_lines rid selectedProducts) = Some rows →
  rows = Receipts.new_lines rid selectedProducts.
Proof.
  intros H. apply mapM_Some in H.
  assert (Hpos : Forall (λ l, (0 <? rl_quantity l)%float = true)
                   (Receipts.new_lines rid selectedProducts)).
  { apply Forall_forall. intros l Hl. unfold Receipts.new_lines in Hl.
    apply list_elem_of_omap in Hl as (p & _ & Hp).
    destruct (productId p); [|discriminate].
    destruct (0 <? quantity p)%float eqn:E; [|discriminate].
    by injection Hp as <-. }
  induction H as [|l r ls rs Hlr Hrest IH]; [done|].
  apply Forall_cons in Hpos as [Hl Hpos].
  rewrite (IH Hpos). f_equal.
  unfold Receipts.line_row in Hlr.
  destruct (decimal (rl_quantity l)) as [v|] eqn:Ev; [|discriminate].
  injection Hlr as <-. rewrite (positive_stored _ _ Hl Ev). by destruct l.
Qed.

Lemma new_lines_stored rid selectedProducts rows :
  mapM Receipts.line_row (Receipts.new_lines rid selectedProducts) = Some rows →
  Forall (λ l, stored (rl_quantity l)) rows.
Proof.
  intros H. apply mapM_Some in H.
  induction H as [|l r ls rs Hlr Hrest IH]; constructor; [|done].
  unfold Receipts.line_row in Hlr.
  destruct (decimal (rl_quantity l)) as [v|] eqn:Ev; [|discriminate].
  injection Hlr as <-. simpl. by eapply decimal_stored.
Qed.

Lemma new_rows_of_receipt rid selectedProducts :
  filter (λ l, rl_receipt_id l = rid) (Receipts.new_lines rid selectedProducts)
  = Receipts.new_lines rid selectedProducts.
Proof.
  assert (Hall : ∀ ls : list ReceiptLine,
            (∀ l, l ∈ ls → rl_receipt_id l = rid)
            → filter (λ l, rl_receipt_id l = rid) ls = ls).
  { induction ls as [|l ls IH]; intros H; [reflexivity|].
    rewrite filter_cons_True by (apply H; by left).
    f_equal. apply IH. intros; apply H; by right. }
  apply Hall. intros l Hin. unfold Receipts.new_lines in Hin.
  apply list_elem_of_omap in Hin as (p & _ & Hp).
  destruct (productId p); [|discriminate].
  destruct (0 <? quantity p)%float; [|discriminate].
  by injection Hp as <-.
Qed.

Lemma no_rows_of_receipt rid (ls : list ReceiptLine) :
  (∀ l, l ∈ ls → rl_receipt_id l ≠ rid) →
  filter (λ l, rl_receipt_id l = rid) ls = [].
Proof.
  induction ls as [|l ls IH]; intros H; [reflexivity|].
  rewrite filter_cons_False by (apply H; by left).
  apply IH. intros; apply H; by right.
Qed.

(** X10. From the form to the shelf.  When the receipt form is accepted
    under an identifier no stored line refers to, and at least one of
    its entries has a product and a quantity above zero, the lines
    stored are those entries, in their order, and the stored draft can
    be validated at once: validation succeeds, marks it done, and each
    pair of the form's warehouse holds what those lines, taken in their
    order, credit to it (JavaScript's sums, line after line); entries
    without a product or with a quantity of zero or less count for
    nothing. *)
Theorem created_receipt_is_received
    (user : option uuid) (new_id : uuid) (epoch_ms now msg : string)
    (f : Receipts.Form) (selectedProducts : list SelectedProduct)
    (linesError : option string) (st st1 : Store) :
  Receipts.handleSubmit user new_id epoch_ms f selectedProducts linesError st
  = (st1, toast_success msg) →
  (∀ l, l ∈ receipt_lines st → rl_receipt_id l ≠ new_id) →
  Receipts.new_lines new_id selectedProducts ≠ [] →
  ∃ rcp,
    receipts st1 !! new_id = Some rcp
    ∧ r_status rcp = draft
    ∧ Receipts.f_warehouse_id f = Some (r_warehouse_id rcp)
    ∧ receipt_lines st1 = receipt_lines st ++ Receipts.new_lines new_id selectedProducts
    ∧ snd (Receipts.handleValidateReceipt user now rcp st1)
      = toast_success "Receipt validated and stock updated"
    ∧ (r_status <$> receipts (fst (Receipts.handleValidateReceipt user now rcp st1))
                      !! new_id) = Some done
    ∧ ∀ p,
        stock_levels (fst (Receipts.handleValidateReceipt user now rcp st1))
          !! (p, r_warehouse_id rcp)
        = received p (Receipts.new_lines new_id selectedProducts)
            (stock_levels st !! (p, r_warehouse_id rcp)).
Proof.
  intros Hsub Hfresh Hlines.
  unfold Receipts.handleSubmit, Receipts.insert_receipt in Hsub.
  destruct (Receipts.f_warehouse_id f) as [w|] eqn:Ew; [|discriminate].
  destruct user as [u|] eqn:Eu; [|discriminate].
  destruct (receipts st !! new_id) eqn:Enew; [discriminate|].
  set (lines := Receipts.new_lines new_id selectedProducts) in *.
  destruct lines as [|l0 ls0] eqn:El; [done|]. rewrite <- El in *.
  unfold Receipts.insert_lines in Hsub.
  destruct linesError; [discriminate|].
  destruct (mapM Receipts.line_row lines) as [rows|] eqn:Erows; [|discriminate].
  pose proof (new_lines_rows _ _ _ Erows) as ->. fold lines in Erows |- *.
  pose proof (new_lines_stored _ _ _ Erows) as Hstored.
  injection Hsub as <- _.
  eexists. split; [cbn; apply lookup_insert_eq|].
  cbn [r_status r_warehouse_id r_id].
  split; [done|]. split; [done|]. split; [done|].
  unfold Receipts.handleValidateReceipt, Receipts.select_lines.
  cbn [r_id set_receipt_lines set_receipts receipt_lines].
  rewrite filter_app, (no_rows_of_receipt _ _ Hfresh), app_nil_l.
  unfold lines at 1. rewrite new_rows_of_receipt. fold lines.
  rewrite El.
  unfold Receipts.validate_with. cbn [fst snd]. rewrite <- El.
  split; [done|]. split.
  - cbn [set_receipts receipts]. rewrite receipt_lines_keep_receipts.
    cbn. rewrite lookup_alter_eq, lookup_insert_eq. done.
  - intros p. cbn [set_receipts stock_levels r_warehouse_id].
    rewrite receipt_lines_levels. cbn [r_warehouse_id].
    by rewrite decide_True.
Qed.

(** A receipt of 5 of [X1], entered twice beside an entry without a
    product and an entry of quantity 0, onto the 0.14 counted. *)
Lemma created_receipt_is_received_witness :
  let st := session alice (count 50%N X1 WH_SEC 0.14) empty_store in
  let f := {| Receipts.f_supplier_name := "Acme"; Receipts.f_warehouse_id := Some WH_SEC;
              Receipts.f_notes := "none" |} in
  let entries := [ {| productId := None; quantity := 7%float |};
                   {| productId := Some X1; quantity := 5%float |};
                   {| productId := Some X2; quantity := 0%float |};
                   {| productId := Some X1; quantity := 5%float |} ] in
  let st1 := fst (Receipts.handleSubmit alice 22%N "1763783598000" f entries None st) in
  ∃ rcp,
    receipts st1 !! 22%N = Some rcp
    ∧ stock_levels (fst (Receipts.handleValidateReceipt alice "t" rcp st1)) !! (X1, WH_SEC)
      = Some 10.14%float
    ∧ stock_levels (fst (Receipts.handleValidateReceipt alice "t" rcp st1)) !! (X2, WH_SEC)
      = None.
Proof.
  intros st f entries st1.
  destruct (created_receipt_is_received alice 22%N "1763783598000" "t"
              "Receipt created successfully" f entries None st st1)
    as (rcp & Hrow & _ & Hw & _ & _ & _ & Hbal).
  - vm_compute. reflexivity.
  - intros l Hl. vm_compute in Hl. by apply elem_of_nil in Hl.
  - vm_compute. discriminate.
  - exists rcp. split; [exact Hrow|].
    assert (Hwh : r_warehouse_id rcp = WH_SEC).
    { cbn in Hw. by injection Hw as <-. }
    rewrite <- Hwh at 1 2. rewrite !Hbal, Hwh.
    split; vm_compute; reflexivity.
Defined.

(** X18. A receipt whose header the store accepts is one more pending
    receipt on the dashboard, whether or not its lines are stored after
    it: when the store refuses the lines, the form notifies the error
    and the receipt stays, pending and without lines.  A refused header
    leaves the store as it was and notifies the error.  So every
    success notification means one more pending receipt, and an error
    notification can mean one more as well. *)
Theorem created_receipt_is_pending
    (user : option uuid) (new_id : uuid) (epoch_ms : string)
    (f : Receipts.Form) (selectedProducts : list SelectedProduct)
    (linesError : option string) (st : Store) :
  let st' := fst (Receipts.handleSubmit user new_id epoch_ms f selectedProducts
                    linesError st) in
  let t := snd (Receipts.handleSubmit user new_id epoch_ms f selectedProducts
                  linesError st) in
  match Receipts.insert_receipt user new_id ("RCP-" +:+ epoch_ms) f st with
  | inl message => st' = st ∧ t = toast_error message
  | inr _ =>
      pendingReceipts st' = pendingReceipts st + 1
      ∧ match Receipts.new_lines new_id selectedProducts, linesError with
        | _ :: _, Some message =>
            t = toast_error message ∧ receipt_lines st' = receipt_lines st
        | _, _ => True
        end
  end
  ∧ match t with
    | toast_success _ => pendingReceipts st' = pendingReceipts st + 1
    | toast_error _ => True
    end.
Proof.
  cbv zeta. unfold Receipts.handleSubmit. cbv zeta.
  destruct (Receipts.insert_receipt user new_id ("RCP-" +:+ epoch_ms) f st)
    as [message | st1] eqn:Eh; [done|].
  assert (pendingReceipts st1 = pendingReceipts st + 1
          ∧ receipt_lines st1 = receipt_lines st) as [Hsize Hlines].
  { unfold Receipts.insert_receipt in Eh.
    destruct (Receipts.f_warehouse_id f) as [w|]; [|discriminate].
    destruct user as [u|]; [|discriminate].
    destruct (receipts st !! new_id) eqn:E; [discriminate|].
    injection Eh as <-. split; [|reflexivity].
    unfold pendingReceipts. cbn [set_receipts receipts].
    rewrite map_filter_insert_True by (simpl; unfold DashboardStats.pending; by left).
    rewrite map_size_insert_None by (apply map_lookup_filter_None; by left).
    lia. }
  destruct (Receipts.new_lines new_id selectedProducts) as [|l ls]; [done|].
  unfold Receipts.insert_lines.
  destruct linesError as [message|]; [done|].
  destruct (mapM Receipts.line_row (l :: ls)); cbn [fst snd]; done.
Qed.

(** The lines of an accepted receipt are refused: the form notifies the
    error, and the dashboard counts one more pending receipt, which has
    no line. *)
Example refused_lines_leave_pending_receipt :
  let f := {| Receipts.f_supplier_name := "Acme"; Receipts.f_warehouse_id := Some WH_MAIN;
              Receipts.f_notes := "none" |} in
  let result := Receipts.handleSubmit alice 22%N "1763783598000" f
                  [ {| productId := Some X1; quantity := 5%float |} ]
                  (Some "permission denied") empty_store in
  snd result = toast_error "permission denied"
  ∧ pendingReceipts empty_store = 0
  ∧ pendingReceipts (fst result) = 1
  ∧ receipt_lines (fst result) = [].
Proof. vm_compute. done. Qed.

(** ** Ledger against balances *)

Lemma exactly_spec r n :
  exactly r n = true → ∃ v, decimal r = Some v ∧ as_whole v = Some n.
Proof.
  unfold exactly. destruct (decimal r) as [v|]; [|discriminate].
  intros H. apply bool_decide_eq_true in H. by exists v.
Qed.

Lemma whole_value_Some v n : as_whole v = Some n → whole_value v = n.
Proof. unfold whole_value. by intros ->. Qed.

Lemma ledger_sum_app ms ms' key :
  ledger_sum (ms ++ ms') key = ledger_sum ms key + ledger_sum ms' key.
Proof.
  unfold ledger_sum. induction ms as [|m ms IH]; simpl; [lia|].
  rewrite IH. lia.
Qed.

(** What a write that comes out exact does to the quantity on hand. *)
Lemma on_hand_write key r n st key' :
  exactly r n = true →
  on_hand (write_stock_level key r st) key'
  = if decide (key = key') then n else on_hand st key'.
Proof.
  intros (v & Hv & Hn)%exactly_spec. unfold on_hand.
  rewrite write_stock_level_levels, Hv.
  destruct (decide _); [by apply whole_value_Some | done].
Qed.

Lemma whole_store_write key r n st :
  exactly r n = true → whole_store st → whole_store (write_stock_level key r st).
Proof.
  intros (v & Hv & Hn)%exactly_spec [Hl Hm]. split.
  - intros k q. rewrite write_stock_level_levels, Hv.
    destruct (decide _); [intros [= <-]; by eexists | apply Hl].
  - by rewrite (proj1 (write_stock_level_frame _ _ _)).
Qed.

Lemma on_hand_insert ms st key :
  on_hand (insert_movements ms st) key = on_hand st key.
Proof. unfold on_hand. by rewrite (proj1 (insert_movements_frame _ _)). Qed.

(** What a movement that comes out exact adds to the ledger. *)
Lemma ledger_insert m n st :
  exactly (mv_quantity m) n = true →
  ∃ m', stock_movements (insert_movements [m] st) = stock_movements st ++ [m']
        ∧ (mv_product_id m', mv_warehouse_id m') = (mv_product_id m, mv_warehouse_id m)
        ∧ as_whole (mv_quantity m') = Some n.
Proof.
  intros (v & Hv & Hn)%exactly_spec.
  unfold insert_movements. simpl. unfold ledger_row. rewrite Hv. simpl.
  eexists. split; [reflexivity|]. done.
Qed.

Lemma ledger_insert2 m1 m2 n1 n2 st :
  exactly (mv_quantity m1) n1 = true →
  exactly (mv_quantity m2) n2 = true →
  ∃ m1' m2',
    stock_movements (insert_movements [m1; m2] st) = stock_movements st ++ [m1'; m2']
    ∧ (mv_product_id m1', mv_warehouse_id m1') = (mv_product_id m1, mv_warehouse_id m1)
    ∧ (mv_product_id m2', mv_warehouse_id m2') = (mv_product_id m2, mv_warehouse_id m2)
    ∧ as_whole (mv_quantity m1') = Some n1
    ∧ as_whole (mv_quantity m2') = Some n2.
Proof.
  intros (v1 & Hv1 & Hn1)%exactly_spec (v2 & Hv2 & Hn2)%exactly_spec.
  unfold insert_movements. simpl. unfold ledger_row. rewrite Hv1, Hv2. simpl.
  eexists _, _. split; [reflexivity|]. done.
Qed.

(** One balance written and one movement inserted, both exact, the
    movement carrying what the write changed. *)
Lemma reconciled_post st key r n m nq :
  reconciled st →
  (mv_product_id m, mv_warehouse_id m) = key →
  exactly r n = true →
  exactly (mv_quantity m) nq = true →
  nq = n - on_hand st key →
  reconciled (insert_movements [m] (write_stock_level key r st)).
Proof.
  intros [Hw Hrec] Hkey Hr Hq ->.
  destruct (ledger_insert m _ (write_stock_level key r st) Hq) as (m' & Hm' & Hk' & Hn').
  pose proof (whole_store_write key r n st Hr Hw) as [Hl1 Hm1].
  split.
  - split.
    + by rewrite (proj1 (insert_movements_frame _ _)).
    + rewrite Hm'. apply Forall_app. split; [done|]. constructor; [by eexists | done].
  - intros k. rewrite Hm', ledger_sum_app.
    rewrite (proj1 (write_stock_level_frame _ _ _)), Hrec.
    rewrite on_hand_insert, (on_hand_write _ _ _ _ _ Hr).
    simpl. rewrite Hk', Hkey, (whole_value_Some _ _ Hn').
    destruct (decide (key = k)) as [<- | Hne]; lia.
Qed.

(** Marking a document done touches neither balances nor ledger. *)
Lemma reconciled_same_stock st st' :
  stock_levels st' = stock_levels st → stock_movements st' = stock_movements st →
  reconciled st → reconciled st'.
Proof.
  intros Hl Hm [[H1 H2] H3]. split; [split|].
  - by rewrite Hl.
  - by rewrite Hm.
  - intros key. unfold on_hand. rewrite Hm, Hl. apply H3.
Qed.

Lemma receipt_line_reconciled user rcp st line :
  reconciled st →
  receipt_line_exact rcp st line = true →
  reconciled (Receipts.post_line user rcp st line).
Proof.
  intros Hrec. unfold receipt_line_exact. cbv zeta.
  intros [Hq Hsum]%andb_prop.
  unfold Receipts.post_line. cbv zeta.
  set (key := (rl_product_id line, r_warehouse_id rcp)) in *.
  destruct (stock_levels st !! key) as [existing|] eqn:E.
  - eapply reconciled_post; [done | reflexivity | exact Hsum | exact Hq |].
    unfold on_hand. rewrite E. lia.
  - eapply reconciled_post; [done | reflexivity | exact Hq | exact Hq |].
    unfold on_hand. rewrite E. lia.
Qed.

Lemma receipt_lines_reconciled user rcp ls st :
  reconciled st →
  receipt_exact user rcp ls st = true →
  reconciled (foldl (Receipts.post_line user rcp) st ls).
Proof.
  revert st. induction ls as [|line ls IH]; intros st Hrec Hex; [done|].
  simpl in *. apply andb_prop in Hex as [H1 H2].
  apply IH; [|done]. by apply receipt_line_reconciled.
Qed.

Lemma reconciled_receipt user now rcp st :
  reconciled st →
  exact_step user st (validate_receipt now rcp) = true →
  reconciled (step user st (validate_receipt now rcp)).
Proof.
  intros Hrec Hex. cbn [exact_step step] in *.
  unfold Receipts.handleValidateReceipt. unfold Receipts.select_lines in *.
  cbn [default] in Hex.
  destruct (filter _ (receipt_lines st)) as [|l0 ls0]; [done|].
  unfold Receipts.validate_with. cbn [fst].
  eapply reconciled_same_stock; [reflexivity | reflexivity |].
  by apply receipt_lines_reconciled.
Qed.

Lemma delivery_line_reconciled user dlv st st1 line :
  reconciled st →
  delivery_line_exact dlv st line = true →
  Deliveries.post_line user dlv st line = Some st1 →
  reconciled st1.
Proof.
  intros Hrec. unfold delivery_line_exact, Deliveries.post_line. cbv zeta.
  set (key := (dl_product_id line, d_warehouse_id dlv)) in *.
  destruct (stock_levels st !! key) as [existing|] eqn:E; [|discriminate].
  destruct (existing <? dl_quantity line)%float; [discriminate|].
  intros [Hq Hdiff]%andb_prop [= <-].
  eapply reconciled_post; [done | reflexivity | exact Hdiff | exact Hq |].
  unfold on_hand. rewrite E. lia.
Qed.

(** A delivery keeps ledger and balances in step line by line, also
    when it stops at a line short of stock. *)
Lemma delivery_lines_reconciled user dlv ls st :
  reconciled st →
  delivery_exact user dlv ls st = true →
  reconciled (match Deliveries.post_lines user dlv ls st with
              | inl st1 | inr st1 => st1 end).
Proof.
  revert st. induction ls as [|line ls IH]; intros st Hrec Hex; [done|].
  simpl in *. apply andb_prop in Hex as [H1 H2].
  destruct (Deliveries.post_line user dlv st line) as [st1|] eqn:E; [|done].
  apply IH; [|done]. by eapply delivery_line_reconciled.
Qed.

Lemma reconciled_delivery user now dlv st :
  reconciled st →
  exact_step user st (validate_delivery now dlv) = true →
  reconciled (step user st (validate_delivery now dlv)).
Proof.
  intros Hrec Hex. cbn [exact_step step] in *.
  unfold Deliveries.handleValidateDelivery. unfold Deliveries.select_lines in *.
  cbn [default] in Hex.
  destruct (filter _ (delivery_lines st)) as [|l0 ls0]; [done|].
  unfold Deliveries.validate_with.
  pose proof (delivery_lines_reconciled user dlv (l0 :: ls0) st Hrec Hex) as H.
  destruct (Deliveries.post_lines user dlv (l0 :: ls0) st) as [st1 | st1]; cbn [fst]; [done|].
  by eapply reconciled_same_stock.
Qed.

(** A pair credited with an exact sum holds what it held plus the
    quantity. *)
Lemma on_hand_credit key q n st key' :
  exactly q n = true →
  match stock_levels st !! key with
  | Some existing => exactly (existing + q)%float (whole_value existing + n) = true
  | None => True
  end →
  on_hand (match stock_levels st !! key with
           | Some existing => write_stock_level key (existing + q)%float st
           | None => write_stock_level key q st
           end) key'
  = if decide (key = key') then on_hand st key + n else on_hand st key'.
Proof.
  intros Hq Hsum. unfold on_hand at 2.
  destruct (stock_levels st !! key) as [existing|].
  - by rewrite (on_hand_write _ _ _ _ _ Hsum).
  - by rewrite (on_hand_write _ _ _ _ _ Hq).
Qed.

Lemma whole_store_credit key q n st :
  exactly q n = true →
  match stock_levels st !! key with
  | Some existing => exactly (existing + q)%float (whole_value existing + n) = true
  | None => True
  end →
  whole_store st →
  whole_store (match stock_levels st !! key with
               | Some existing => write_stock_level key (existing + q)%float st
               | None => write_stock_level key q st
               end).
Proof.
  intros Hq Hsum Hw.
  destruct (stock_levels st !! key) as [existing|]; by eapply whole_store_write.
Qed.

Lemma reconciled_transfer user now trf st :
  reconciled st →
  exact_step user st (validate_transfer now trf) = true →
  reconciled (step user st (validate_transfer now trf)).
Proof.
  intros Hrec Hex. cbn [exact_step step] in *.
  unfold transfer_exact in Hex. unfold Transfers.handleValidateTransfer.
  cbv zeta in *.
  set (src := (t_product_id trf, t_source_warehouse_id trf)) in *.
  set (dst := (t_product_id trf, t_destination_warehouse_id trf)) in *.
  destruct (stock_levels st !! src) as [sourceStock|] eqn:Es; [|done].
  destruct (sourceStock <? t_quantity trf)%float; [done|].
  apply andb_prop in Hex as [Hex Hd]. apply andb_prop in Hex as [Hex Hs].
  apply andb_prop in Hex as [Hq Hnq].
  set (n := whole_value (t_quantity trf)) in *.
  set (st1 := write_stock_level src (sourceStock - t_quantity trf)%float st) in *.
  set (st2 := match stock_levels st1 !! dst with
              | Some destStock => write_stock_level dst (destStock + t_quantity trf)%float st1
              | None => write_stock_level dst (t_quantity trf) st1
              end).
  assert (Hd' : match stock_levels st1 !! dst with
                | Some existing =>
                    exactly (existing + t_quantity trf)%float (whole_value existing + n) = true
                | None => True
                end) by (by destruct (stock_levels st1 !! dst)).
  cbn [fst].
  eapply (reconciled_same_stock
            (insert_movements [Transfers.movement_out user trf; Transfers.movement_in user trf]
               st2)); [reflexivity | reflexivity |].
  destruct Hrec as [Hw Hrec].
  destruct (ledger_insert2 (Transfers.movement_out user trf) (Transfers.movement_in user trf)
              (- n) n st2 Hnq Hq) as (m1 & m2 & Hm & Hk1 & Hk2 & Hn1 & Hn2).
  pose proof (whole_store_write src _ _ st Hs Hw) as Hw1. fold st1 in Hw1.
  pose proof (whole_store_credit dst _ _ st1 Hq Hd' Hw1) as [Hl2 Hm2]. fold st2 in Hl2, Hm2.
  assert (Hmov : stock_movements st2 = stock_movements st).
  { unfold st2. destruct (stock_levels st1 !! dst);
      rewrite (proj1 (write_stock_level_frame _ _ _)); unfold st1;
      by rewrite (proj1 (write_stock_level_frame _ _ _)). }
  split.
  - split.
    + by rewrite (proj1 (insert_movements_frame _ _)).
    + rewrite Hm. apply Forall_app. split; [done|].
      repeat constructor; by eexists.
  - intros k. rewrite Hm, ledger_sum_app, Hmov, Hrec, on_hand_insert.
    unfold st2. rewrite (on_hand_credit _ _ _ _ _ Hq Hd').
    unfold st1. rewrite !(on_hand_write _ _ _ _ _ Hs).
    simpl. rewrite Hk1, Hk2, (whole_value_Some _ _ Hn1), (whole_value_Some _ _ Hn2).
    cbn [Transfers.movement_out Transfers.movement_in mv_product_id mv_warehouse_id].
    fold src dst.
    assert (Hon : on_hand st src = whole_value sourceStock)
      by (unfold on_hand; by rewrite Es).
    destruct (decide (src = k)), (decide (dst = k)), (decide (src = dst));
      subst; try congruence; lia.
Qed.

Lemma reconciled_adjustment user now adj st :
  reconciled st →
  exact_step user st (validate_adjustment now adj) = true →
  reconciled (step user st (validate_adjustment now adj)).
Proof.
  intros Hrec Hex. cbn [exact_step step] in *.
  unfold adjustment_exact, adjustment_current in Hex.
  apply andb_prop in Hex as [Hc Hd].
  unfold Adjustments.handleValidateAdjustment. cbv zeta. cbn [fst].
  set (key := (a_product_id adj, a_warehouse_id adj)) in *.
  eapply (reconciled_same_stock
            (insert_movements [Adjustments.movement_of user adj]
               (write_stock_level key (a_counted_quantity adj) st))).
  - by destruct (stock_levels st !! key).
  - by destruct (stock_levels st !! key).
  - eapply reconciled_post; [done | reflexivity | exact Hc | exact Hd | reflexivity].
Qed.

Lemma pristine_reconciled st : pristine st → reconciled st.
Proof.
  intros [Hm Hl]. split; [split|].
  - intros key q Hq. rewrite (Hl _ _ Hq). by eexists.
  - rewrite Hm. constructor.
  - intros key. rewrite Hm. unfold on_hand.
    destruct (stock_levels st !! key) as [q|] eqn:E; [|done].
    by rewrite (Hl _ _ E).
Qed.

Lemma reconciled_run user ops st :
  reconciled st → exact_run user ops st = true → reconciled (run user ops st).
Proof.
  revert st. induction ops as [|op ops IH]; intros st Hrec Hex; [done|].
  cbn [exact_run] in Hex. apply andb_prop in Hex as [H1 H2].
  unfold run. cbn [foldl]. apply IH; [|done].
  destruct op.
  - by apply reconciled_receipt.
  - by apply reconciled_delivery.
  - by apply reconciled_transfer.
  - by apply reconciled_adjustment.
Qed.




End Doubles.
